(** * NFC payments backend: ledger, transaction pipeline and key registry

    A shallow embedding of

    - [internal/services/ledger_service.go]  (module [Ledger]),
    - [internal/services/transaction_service.go] (module [TxService], and
      module [Enquiry] for the identifier patterns and the balance enquiry),
    - the key registry of package [hsm] (module [HSM], and module
      [KeyStore] for the life cycle of a key, encryption and PINs),

    together with the properties of the specification that concern them.

    Modelling conventions.

    - Go's [int64] is a [Z] with the wrap-around of two's complement
      written out ([wrap64]); [uint32] and [uint8] are [Z] in their range.
    - Go strings are [string]; [a > b] on strings is the bytewise
      lexicographic order ([string_gt]).
    - A SQL table is the list of its rows, oldest first.  [QueryRow] returns
      the first row that satisfies the [WHERE] clause, or [sql.ErrNoRows].
      An [UPDATE] rewrites every row that satisfies its [WHERE] clause and
      reports how many there were.  Nullable columns are [option]s.
    - A database transaction ([sql.Tx]) is a working copy of the committed
      database plus the list of row locks it took; [Commit] installs the
      working copy and [Rollback] drops it.
    - A Go [error] is its message; [nil] is [None].
    - [time.Now()] is a parameter [now] (Unix seconds) of the entry points.
    - The store is taken to be available: a statement fails only for the
      reason visible in its SQL (no row found, a violated unique key).
      Logging and the audit sink write nothing that is read back and are
      left out.
    - Requests are served one at a time; the row locks a transaction takes
      are recorded, in order, but never block.
    - The primitives of the libraries (HMAC, SHA-256, RSA, AES-GCM, Argon2,
      base64, [path/filepath], the file system, the external balance
      service) and the random bytes an entry point draws are parameters;
      what a statement needs of them is a hypothesis of that statement. *)

From Stdlib Require Import ZArith List String Ascii Bool Lia Permutation.
From Stdlib.Strings Require Import Byte.
From Stdlib Require Import DecimalString.
From stdpp Require Import base option gmap strings.
Import ListNotations.
Local Open Scope string_scope.
Local Open Scope list_scope.
Local Open Scope Z_scope.

(** ** Machine integers *)

Definition int64_min : Z := - 2 ^ 63.
Definition int64_max : Z := 2 ^ 63 - 1.

Definition in_int64 (z : Z) : Prop := int64_min <= z <= int64_max.

(** Two's complement reduction of an integer to the [int64] range. *)
Definition wrap64 (z : Z) : Z := (z + 2 ^ 63) mod 2 ^ 64 - 2 ^ 63.

Definition neg64 (a : Z) : Z := wrap64 (- a).
Definition add64 (a b : Z) : Z := wrap64 (a + b).
Definition sub64 (a b : Z) : Z := wrap64 (a - b).

(** Go's [a > b] on strings. *)
Definition string_gt (a b : string) : bool := String.ltb b a.

(** A Go [error] value. *)
Definition error : Type := string.

Inductive result (A : Type) : Type :=
| Ok (a : A)
| Err (e : error).
Arguments Ok {A} a.
Arguments Err {A} e.

Definition ErrNoRows : error := "sql: no rows in result set".

(** ** The persistent store *)

(** Row of table [accounts]. *)
Record AccountRow : Type := mkAccountRow {
  acc_id : string;
  acc_card_id : option string;
  acc_account_id : option string;
  acc_balance : Z;
  acc_version : Z;
  acc_status : option string;
  acc_updated_at : Z
}.

(** Row of table [ledger_entries] ([models.LedgerEntry]). *)
Record LedgerEntry : Type := mkLedgerEntry {
  le_transaction_id : string;
  le_account_id : string;
  le_amount : Z;
  le_entry_type : string;
  le_balance : Z;
  le_created_at : Z
}.

(** Row of table [payment_states]. *)
Record PaymentState : Type := mkPaymentState {
  ps_transaction_id : string;
  ps_state : string;
  ps_created_at : Z
}.

(** Row of table [transactions], with the columns the statements of the
    service name.  Columns [card_id] and [counter] are the ones
    [checkDoubleSpending] reads; no [INSERT] of the repository names them,
    so rows written by the service hold [NULL] there.  Of the constraints of
    the table only the unique key on [transaction_id] is modelled: the
    table is taken to accept the rows [storeTransaction] inserts. *)
Record TransactionRow : Type := mkTransactionRow {
  tr_transaction_id : string;
  tr_from_card_id : string;
  tr_to_card_id : string;
  tr_amount : Z;
  tr_currency : string;
  tr_type : string;
  tr_signature : string;
  tr_status : string;
  tr_created_at : Z;
  tr_card_id : option string;
  tr_counter : option Z
}.

(** Row of table [cards], as far as [getCardAuthKey] reads it. *)
Record CardRow : Type := mkCardRow {
  cd_card_id : string;
  cd_cak : string
}.

Record DB : Type := mkDB {
  accounts : list AccountRow;
  ledger_entries : list LedgerEntry;
  payment_states : list PaymentState;
  transactions : list TransactionRow;
  cards : list CardRow
}.

(** A row lock taken by [SELECT ... FOR UPDATE]: the identifier that was
    queried and the [id] of the row that was locked. *)
Record LockEvent : Type := mkLockEvent {
  lk_query : string;
  lk_row : string
}.

(** An open [sql.Tx]. *)
Record Tx : Type := mkTx {
  tx_db : DB;
  tx_locks : list LockEvent
}.

Definition Begin (db : DB) : Tx := mkTx db [].
Definition Commit (tx : Tx) : DB := tx_db tx.

Definition set_accounts (f : list AccountRow -> list AccountRow) (tx : Tx) : Tx :=
  let d := tx_db tx in
  mkTx (mkDB (f (accounts d)) (ledger_entries d) (payment_states d)
             (transactions d) (cards d))
       (tx_locks tx).

Definition set_ledger_entries (f : list LedgerEntry -> list LedgerEntry) (tx : Tx) : Tx :=
  let d := tx_db tx in
  mkTx (mkDB (accounts d) (f (ledger_entries d)) (payment_states d)
             (transactions d) (cards d))
       (tx_locks tx).

Definition set_payment_states (f : list PaymentState -> list PaymentState) (tx : Tx) : Tx :=
  let d := tx_db tx in
  mkTx (mkDB (accounts d) (ledger_entries d) (f (payment_states d))
             (transactions d) (cards d))
       (tx_locks tx).

Definition set_transactions (f : list TransactionRow -> list TransactionRow) (tx : Tx) : Tx :=
  let d := tx_db tx in
  mkTx (mkDB (accounts d) (ledger_entries d) (payment_states d)
             (f (transactions d)) (cards d))
       (tx_locks tx).

Definition add_lock (l : LockEvent) (tx : Tx) : Tx :=
  mkTx (tx_db tx) (tx_locks tx ++ [l]).

(** [col = $1] on a nullable column. *)
Definition col_eq (c : option string) (v : string) : bool :=
  match c with
  | Some s => String.eqb s v
  | None => false
  end.

(** ** [ledger_service.go] *)

Module Ledger.

(** [models.Account]: what [lockAccount] scans out of the row. *)
Record Account : Type := mkAccount {
  ID : string;
  Balance : Z;
  Version : Z;
  UpdatedAt : Z
}.

(** [WHERE card_id = $1 OR account_id = $1 OR id = $1]. *)
Definition account_matches (accountID : string) (r : AccountRow) : bool :=
  col_eq (acc_card_id r) accountID
  || col_eq (acc_account_id r) accountID
  || String.eqb (acc_id r) accountID.

Definition account_of_row (r : AccountRow) : Account :=
  mkAccount (acc_id r) (acc_balance r) (acc_version r) (acc_updated_at r).

(** The row selected by [lockAccount]'s query ([LIMIT 1]). *)
Definition find_account (accountID : string) (rows : list AccountRow) : option AccountRow :=
  List.find (account_matches accountID) rows.

Definition lockAccount (tx : Tx) (accountID : string) : result Account * Tx :=
  match find_account accountID (accounts (tx_db tx)) with
  | Some r => (Ok (account_of_row r), add_lock (mkLockEvent accountID (acc_id r)) tx)
  | None => (Err ErrNoRows, tx)
  end.

Definition appendPaymentState (tx : Tx) (transactionID state : string) (now : Z)
  : option error * Tx :=
  (None, set_payment_states (fun t => t ++ [mkPaymentState transactionID state now]) tx).

Definition createLedgerEntry (tx : Tx) (transactionID accountID : string) (amount : Z)
    (entryType : string) (balance : Z) (now : Z) : option error * Tx :=
  (None,
   set_ledger_entries
     (fun t => t ++ [mkLedgerEntry transactionID accountID amount entryType balance now]) tx).

(** [WHERE id = $3 AND version = $4]. *)
Definition update_matches (accountID : string) (version : Z) (r : AccountRow) : bool :=
  String.eqb (acc_id r) accountID && (acc_version r =? version).

(** [SET balance = $1, version = version + 1, updated_at = $2]. *)
Definition update_row (newBalance now : Z) (r : AccountRow) : AccountRow :=
  mkAccountRow (acc_id r) (acc_card_id r) (acc_account_id r)
               newBalance (acc_version r + 1) (acc_status r) now.

Definition apply_update (accountID : string) (newBalance version now : Z)
    (rows : list AccountRow) : list AccountRow :=
  List.map (fun r => if update_matches accountID version r
                     then update_row newBalance now r else r) rows.

Definition rows_affected (accountID : string) (version : Z) (rows : list AccountRow) : nat :=
  List.length (List.filter (update_matches accountID version) rows).

Definition updateAccountBalance (tx : Tx) (accountID : string) (newBalance version now : Z)
  : option error * Tx :=
  let rowsAffected := rows_affected accountID version (accounts (tx_db tx)) in
  let tx' := set_accounts (apply_update accountID newBalance version now) tx in
  if Nat.eqb rowsAffected 0
  then (Some (String.append "optimistic lock failed for account " accountID), tx')
  else (None, tx').

(** Lines 52-71 of [TransferTx]: lock both rows in a fixed order, then name
    the locked rows by their role. *)
Definition lockInOrder (tx : Tx) (fromAccountID toAccountID : string)
  : result (Account * Account) * Tx :=
  let '(firstLock, secondLock) :=
    if string_gt fromAccountID toAccountID
    then (toAccountID, fromAccountID)
    else (fromAccountID, toAccountID) in
  match lockAccount tx firstLock with
  | (Err e, tx1) => (Err e, tx1)
  | (Ok fromAccount, tx1) =>
    match lockAccount tx1 secondLock with
    | (Err e, tx2) => (Err e, tx2)
    | (Ok toAccount, tx2) =>
      if negb (String.eqb firstLock fromAccountID)
      then (Ok (toAccount, fromAccount), tx2)
      else (Ok (fromAccount, toAccount), tx2)
    end
  end.

Definition TransferTx (tx : Tx) (fromAccountID toAccountID transactionID : string)
    (amount : Z) (now : Z) : option error * Tx :=
  match lockInOrder tx fromAccountID toAccountID with
  | (Err e, tx2) => (Some e, tx2)
  | (Ok (fromAccount, toAccount), tx2) =>
    if Balance fromAccount <? amount
    then (Some "insufficient balance", tx2)
    else
      match createLedgerEntry tx2 transactionID (ID fromAccount) (neg64 amount)
              "DEBIT" (sub64 (Balance fromAccount) amount) now with
      | (Some e, tx3) => (Some e, tx3)
      | (None, tx3) =>
        match createLedgerEntry tx3 transactionID (ID toAccount) amount
                "CREDIT" (add64 (Balance toAccount) amount) now with
        | (Some e, tx4) => (Some e, tx4)
        | (None, tx4) =>
          match updateAccountBalance tx4 (ID fromAccount)
                  (sub64 (Balance fromAccount) amount) (Version fromAccount) now with
          | (Some e, tx5) => (Some e, tx5)
          | (None, tx5) =>
            match updateAccountBalance tx5 (ID toAccount)
                    (add64 (Balance toAccount) amount) (Version toAccount) now with
            | (Some e, tx6) => (Some e, tx6)
            | (None, tx6) => (None, tx6)
            end
          end
        end
      end
  end.

(** [Transfer]: its own [sql.Tx]; the deferred [Rollback] leaves the
    committed database as it was on every path but the one that commits. *)
Definition Transfer (db : DB) (fromAccountID toAccountID transactionID : string)
    (amount : Z) (now : Z) : option error * DB :=
  let tx := Begin db in
  match appendPaymentState tx transactionID "PENDING" now with
  | (Some e, _) => (Some e, db)
  | (None, tx1) =>
    match TransferTx tx1 fromAccountID toAccountID transactionID amount now with
    | (Some e, tx2) =>
      let '(_, _) := appendPaymentState tx2 transactionID "FAILED" now in
      (Some e, db)
    | (None, tx2) =>
      match appendPaymentState tx2 transactionID "SUCCESS" now with
      | (Some e, _) => (Some e, db)
      | (None, tx3) => (None, Commit tx3)
      end
    end
  end.

End Ledger.

(** ** [transaction_service.go] *)

Module TxService.

(** The request type [Transaction]. *)
Record Transaction : Type := mkTransaction {
  Version : Z;
  TxID : string;
  Timestamp : Z;
  CardID : string;
  MerchantID : string;
  Amount : Z;
  Currency : string;
  Counter : Z;
  TxType : string;
  Signature : string;
  Narration : string;
  Status : string;
  CreatedAt : Z
}.

(** [storeTransaction] assigns [tx.Status] and [tx.CreatedAt]. *)
Definition with_status (tx : Transaction) (status : string) (createdAt : Z) : Transaction :=
  mkTransaction (Version tx) (TxID tx) (Timestamp tx) (CardID tx) (MerchantID tx)
                (Amount tx) (Currency tx) (Counter tx) (TxType tx) (Signature tx)
                (Narration tx) status createdAt.

Definition with_signature (tx : Transaction) (signature : string) : Transaction :=
  mkTransaction (Version tx) (TxID tx) (Timestamp tx) (CardID tx) (MerchantID tx)
                (Amount tx) (Currency tx) (Counter tx) (TxType tx) signature
                (Narration tx) (Status tx) (CreatedAt tx).

Definition with_timestamp (tx : Transaction) (timestamp : Z) : Transaction :=
  mkTransaction (Version tx) (TxID tx) timestamp (CardID tx) (MerchantID tx)
                (Amount tx) (Currency tx) (Counter tx) (TxType tx) (Signature tx)
                (Narration tx) (Status tx) (CreatedAt tx).

(** Whether the byte [c] lies between [lo] and [hi]. *)
Definition byte_between (lo hi : N) (c : ascii) : bool :=
  let n := N_of_ascii c in (lo <=? n)%N && (n <=? hi)%N.

(** The number of bytes of the UTF-8 sequence that starts with the byte [c]
    and goes on with [rest], as package [unicode/utf8] decodes it: the
    leading byte fixes the size and the range of the second byte; a byte
    that starts no sequence, a sequence cut short and a sequence with a
    wrong continuation byte count as one byte. *)
Definition rune_width (c : ascii) (rest : string) : nat :=
  let n := N_of_ascii c in
  if (n <? 128)%N then 1%nat
  else
    let info : option (nat * N * N) :=
      if (n <? 194)%N then None
      else if (n <=? 223)%N then Some (2%nat, 128%N, 191%N)
      else if (n =? 224)%N then Some (3%nat, 160%N, 191%N)
      else if (n <=? 236)%N then Some (3%nat, 128%N, 191%N)
      else if (n =? 237)%N then Some (3%nat, 128%N, 159%N)
      else if (n <=? 239)%N then Some (3%nat, 128%N, 191%N)
      else if (n =? 240)%N then Some (4%nat, 144%N, 191%N)
      else if (n <=? 243)%N then Some (4%nat, 128%N, 191%N)
      else if (n =? 244)%N then Some (4%nat, 128%N, 143%N)
      else None in
    match info with
    | None => 1%nat
    | Some (size, lo, hi) =>
      if Nat.ltb (String.length rest) (size - 1) then 1%nat
      else
        match rest with
        | EmptyString => 1%nat
        | String c1 rest1 =>
          if negb (byte_between lo hi c1) then 1%nat
          else if Nat.eqb size 2 then 2%nat
          else
            match rest1 with
            | EmptyString => 1%nat
            | String c2 rest2 =>
              if negb (byte_between 128 191 c2) then 1%nat
              else if Nat.eqb size 3 then 3%nat
              else
                match rest2 with
                | EmptyString => 1%nat
                | String c3 _ =>
                  if negb (byte_between 128 191 c3) then 1%nat else 4%nat
                end
            end
        end
    end.

(** The loop of [utf8.RuneCountInString]: [skip] bytes of the sequence
    counted last are still to be passed over. *)
Fixpoint rune_count_from (skip : nat) (s : string) : nat :=
  match s with
  | EmptyString => 0%nat
  | String c rest =>
    match skip with
    | S skip' => rune_count_from skip' rest
    | O => S (rune_count_from (rune_width c rest - 1) rest)
    end
  end.

(** [utf8.RuneCountInString]. *)
Definition RuneCountInString (s : string) : nat := rune_count_from 0 s.

(** The [validate:"..."] tags of [Transaction], as [ValidateStruct] checks
    them: [required] refuses the zero value, [gt=0], [len=3] (the validator
    counts the runes of a string), [oneof]. *)
Definition ValidateStruct (tx : Transaction) : bool :=
  negb (String.eqb (TxID tx) "")
  && negb (Timestamp tx =? 0)
  && negb (String.eqb (CardID tx) "")
  && negb (String.eqb (MerchantID tx) "")
  && negb (Amount tx =? 0) && (0 <? Amount tx)
  && negb (String.eqb (Currency tx) "") && Nat.eqb (RuneCountInString (Currency tx)) 3
  && negb (Counter tx =? 0) && (0 <? Counter tx)
  && negb (String.eqb (TxType tx) "")
  && (String.eqb (TxType tx) "DEBIT" || String.eqb (TxType tx) "CREDIT")
  && negb (String.eqb (Signature tx) "").

(** *** Byte helpers *)

Definition byte_of_Z (z : Z) : byte :=
  match Byte.of_N (Z.to_N (z mod 256)) with
  | Some b => b
  | None => x00
  end.

(** The loop shared by [int64ToBytes] and [uint32ToBytes]: the low byte of
    [n] goes to the last free position, then [n >>= 8]. *)
Fixpoint fill_bytes (k : nat) (n : Z) (bytes : list byte) : list byte :=
  match k with
  | O => bytes
  | S k' => fill_bytes k' (Z.shiftr n 8) (byte_of_Z (Z.land n 255) :: bytes)
  end.

Definition int64ToBytes (n : Z) : list byte := fill_bytes 8 n [].
Definition uint32ToBytes (n : Z) : list byte := fill_bytes 4 n [].

Definition hex_digit (n : N) : ascii :=
  match n with
  | 0%N => "0" | 1%N => "1" | 2%N => "2" | 3%N => "3"
  | 4%N => "4" | 5%N => "5" | 6%N => "6" | 7%N => "7"
  | 8%N => "8" | 9%N => "9" | 10%N => "a" | 11%N => "b"
  | 12%N => "c" | 13%N => "d" | 14%N => "e" | _ => "f"
  end%char.

(** [hex.EncodeToString]. *)
Fixpoint hexEncode (bs : list byte) : string :=
  match bs with
  | [] => EmptyString
  | b :: rest =>
    let n := Byte.to_N b in
    String (hex_digit (N.div n 16)) (String (hex_digit (N.modulo n 16)) (hexEncode rest))
  end.

Definition hex_value (c : ascii) : option N :=
  let n := N_of_ascii c in
  if (48 <=? n)%N && (n <=? 57)%N then Some (n - 48)%N
  else if (97 <=? n)%N && (n <=? 102)%N then Some (n - 87)%N
  else if (65 <=? n)%N && (n <=? 70)%N then Some (n - 55)%N
  else None.

Definition hex_digit_upper (n : N) : ascii :=
  match n with
  | 0%N => "0" | 1%N => "1" | 2%N => "2" | 3%N => "3"
  | 4%N => "4" | 5%N => "5" | 6%N => "6" | 7%N => "7"
  | 8%N => "8" | 9%N => "9" | 10%N => "A" | 11%N => "B"
  | 12%N => "C" | 13%N => "D" | 14%N => "E" | _ => "F"
  end%char.

(** [strconv.IsPrint] on a rune below 256: the ASCII characters from the
    space to the tilde, and the Latin-1 characters from the inverted
    exclamation mark on, the soft hyphen apart. *)
Definition IsPrint (r : N) : bool :=
  ((32 <=? r)%N && (r <=? 126)%N)
  || ((161 <=? r)%N && (r <=? 255)%N && negb (r =? 173)%N).

(** The UTF-8 encoding of a rune below 256. *)
Definition utf8_of_rune (r : N) : string :=
  if (r <? 128)%N then String (ascii_of_N r) EmptyString
  else String (ascii_of_N (192 + r / 64)) (String (ascii_of_N (128 + r mod 64)) EmptyString).

(** [fmt.Sprintf("%#U", r)] for a rune below 256: [U+] and four hexadecimal
    digits, followed by the quoted character when it is printable. *)
Definition format_U (r : N) : string :=
  String.append "U+00"
    (String (hex_digit_upper (r / 16))
       (String (hex_digit_upper (r mod 16))
          (if IsPrint r
           then String.append " '" (String.append (utf8_of_rune r) "'")
           else EmptyString))).

(** [hex.InvalidByteError(c).Error()]. *)
Definition InvalidByteError (c : ascii) : error :=
  String.append "encoding/hex: invalid byte: " (format_U (N_of_ascii c)).

(** [hex.DecodeString]: the first byte from the left that is no
    hexadecimal digit is reported, and an odd length after it. *)
Fixpoint hexDecode (s : string) : result (list byte) :=
  match s with
  | EmptyString => Ok []
  | String a EmptyString =>
    match hex_value a with
    | Some _ => Err "encoding/hex: odd length hex string"
    | None => Err (InvalidByteError a)
    end
  | String a (String b rest) =>
    match hex_value a, hex_value b with
    | Some h, Some l =>
      match hexDecode rest with
      | Ok bs => Ok (byte_of_Z (Z.of_N (h * 16 + l)) :: bs)
      | Err e => Err e
      end
    | None, _ => Err (InvalidByteError a)
    | Some _, None => Err (InvalidByteError b)
    end
  end.

(** The store the service talks to: the database and the Redis list
    [settlement_queue]. *)
Record Store : Type := mkStore {
  st_db : DB;
  st_settlement_queue : list Transaction
}.

Section Service.

(** [hmac.New(sha256.New, key)] followed by [Write(data)] and [Sum(nil)]. *)
Variable hmac_sha256 : list byte -> list byte -> list byte.

(** *** Validation *)

Definition find_by_card (cardID : string) (rows : list AccountRow) : option AccountRow :=
  List.find (fun r => col_eq (acc_card_id r) cardID) rows.

Definition validateAccountInternal (db : DB) (cardID : string) : option error :=
  match find_by_card cardID (accounts db) with
  | None => Some "account not found"
  | Some r =>
    match acc_status r with
    | None => Some "account validation failed"
    | Some status =>
      if negb (String.eqb status "ACTIVE") then Some "account not active" else None
    end
  end.

Definition checkSufficientBalanceInternal (db : DB) (cardID : string) (amount : Z)
  : option error :=
  match find_by_card cardID (accounts db) with
  | None => Some "account not found"
  | Some r =>
    match acc_status r with
    | None => Some "balance check failed"
    | Some status =>
      if negb (String.eqb status "ACTIVE") then Some "account not active"
      else if acc_balance r <? amount then Some "insufficient balance"
      else None
    end
  end.

Definition validateTransaction (db : DB) (tx : Transaction) (now : Z) : option error :=
  if String.eqb (TxID tx) "" then Some "transaction ID is required"
  else if String.eqb (CardID tx) "" then Some "card ID is required"
  else
    match validateAccountInternal db (CardID tx) with
    | Some e => Some e
    | None =>
      if String.eqb (MerchantID tx) "" then Some "merchant ID is required"
      else if Amount tx <=? 0 then Some "amount must be positive"
      else
        match (if String.eqb (TxType tx) "DEBIT"
               then checkSufficientBalanceInternal db (CardID tx) (Amount tx)
               else None) with
        | Some e => Some e
        | None =>
          if String.eqb (Currency tx) "" then Some "currency is required"
          else if Counter tx =? 0 then Some "counter is required"
          else if String.eqb (Signature tx) "" then Some "signature is required"
          else if now + 60 <? Timestamp tx
               then Some "transaction timestamp is in the future"
          else if Timestamp tx <? now - 86400 * 7
               then Some "transaction timestamp is too old (>7 days)"
          else None
        end
    end.

(** *** Signature *)

Definition getCardAuthKey (db : DB) (cardID : string) : result (list byte) :=
  match List.find (fun c => String.eqb (cd_card_id c) cardID) (cards db) with
  | None => Err ErrNoRows
  | Some c => hexDecode (cd_cak c)
  end.

Definition serializeTransaction (tx : Transaction) : list byte :=
  [byte_of_Z (Version tx)]
  ++ list_byte_of_string (TxID tx)
  ++ int64ToBytes (Timestamp tx)
  ++ list_byte_of_string (CardID tx)
  ++ list_byte_of_string (MerchantID tx)
  ++ int64ToBytes (Amount tx)
  ++ list_byte_of_string (Currency tx)
  ++ uint32ToBytes (Counter tx)
  ++ list_byte_of_string (TxType tx).

Definition verifySignature (db : DB) (tx : Transaction) : option error :=
  match getCardAuthKey db (CardID tx) with
  | Err e => Some (String.append "failed to get card keys: " e)
  | Ok cak =>
    let data := serializeTransaction tx in
    let expectedSig := hexEncode (hmac_sha256 cak data) in
    if negb (String.eqb expectedSig (Signature tx)) then Some "signature mismatch"
    else None
  end.

(** *** Double spending *)

(** [WHERE card_id = $1 AND counter = $2]. *)
Definition counter_used (cardID : string) (counter : Z) (r : TransactionRow) : bool :=
  col_eq (tr_card_id r) cardID
  && match tr_counter r with
     | Some c => c =? counter
     | None => false
     end.

(** [SELECT MAX(counter) FROM transactions WHERE card_id = $1]: [None] is
    SQL's [NULL], the maximum of no value. *)
Fixpoint max_counter (cardID : string) (rows : list TransactionRow) : option Z :=
  match rows with
  | [] => None
  | r :: rest =>
    let m := max_counter cardID rest in
    if col_eq (tr_card_id r) cardID then
      match tr_counter r, m with
      | Some c, Some m' => Some (Z.max c m')
      | Some c, None => Some c
      | None, _ => m
      end
    else m
  end.

Definition checkDoubleSpending (db : DB) (tx : Transaction) : option error :=
  let exists_ := List.existsb (counter_used (CardID tx) (Counter tx)) (transactions db) in
  if exists_ then Some "counter already used"
  else
    (* COALESCE(MAX(counter), 0), scanned into a uint32 *)
    let coalesced := match max_counter (CardID tx) (transactions db) with
                     | Some m => m
                     | None => 0
                     end in
    if (coalesced <? 0) || (2 ^ 32 <=? coalesced)
    then Some "sql: Scan error on column index 0: value out of range"
    else
      let maxCounter := coalesced in
      if Counter tx <=? maxCounter then Some "counter not incrementing"
      else None.

(** *** Storing *)

Definition transaction_row (tx : Transaction) : TransactionRow :=
  mkTransactionRow (TxID tx) (CardID tx) (MerchantID tx) (Amount tx) (Currency tx)
                   (TxType tx) (Signature tx) (Status tx) (CreatedAt tx) None None.

(** [INSERT INTO transactions]: [transaction_id] is declared [UNIQUE]. *)
Definition insert_transaction (row : TransactionRow) (rows : list TransactionRow)
  : result (list TransactionRow) :=
  if List.existsb (fun r => String.eqb (tr_transaction_id r) (tr_transaction_id row)) rows
  then Err "pq: duplicate key value violates unique constraint"
  else Ok (rows ++ [row]).

Definition storeTransaction (db : DB) (tx : Transaction) (now : Z)
  : option error * Transaction * DB :=
  let tx' := with_status tx "COMPLETED" now in
  match insert_transaction (transaction_row tx') (transactions db) with
  | Err e => (Some e, tx', db)
  | Ok rows =>
    (None, tx',
     mkDB (accounts db) (ledger_entries db) (payment_states db) rows (cards db))
  end.

Definition storeTransactionTx (dbTx : Tx) (tx : Transaction) (now : Z)
  : option error * Transaction * Tx :=
  let tx' := with_status tx "COMPLETED" now in
  match insert_transaction (transaction_row tx') (transactions (tx_db dbTx)) with
  | Err e => (Some e, tx', dbTx)
  | Ok rows => (None, tx', set_transactions (fun _ => rows) dbTx)
  end.

Definition processLedgerTransferTx (dbTx : Tx) (tx : Transaction) (now : Z)
  : option error * Tx :=
  Ledger.TransferTx dbTx (CardID tx) (MerchantID tx) (TxID tx) (Amount tx) now.

Definition processLedgerTransfer (db : DB) (tx : Transaction) (now : Z)
  : option error * DB :=
  Ledger.Transfer db (CardID tx) (MerchantID tx) (TxID tx) (Amount tx) now.

(** [RPush] onto [settlement_queue]. *)
Definition queueForSettlement (st : Store) (tx : Transaction) : Store :=
  mkStore (st_db st) (st_settlement_queue st ++ [tx]).

(** *** [CreateTransaction] *)

(** What the handler writes to the [http.ResponseWriter]. *)
Inductive Response : Type :=
| ErrorResponse (status : Z) (message : string)
| AlreadyProcessed (success : bool) (tx : Transaction)
| Created (tx : Transaction).

(** [SELECT status FROM transactions WHERE transaction_id = $1]. *)
Definition existing_status (db : DB) (txID : string) : option string :=
  match List.find (fun r => String.eqb (tr_transaction_id r) txID) (transactions db) with
  | Some r => Some (tr_status r)
  | None => None
  end.

(** The handler from the decoded request body on. *)
Definition CreateTransaction (st : Store) (tx : Transaction) (now : Z) : Response * Store :=
  if negb (ValidateStruct tx) then (ErrorResponse 400 "Validation failed", st)
  else
    match existing_status (st_db st) (TxID tx) with
    | Some existingStatus =>
      (AlreadyProcessed (String.eqb existingStatus "COMPLETED") tx, st)
    | None =>
      match validateTransaction (st_db st) tx now with
      | Some e => (ErrorResponse 400 (String.append "Validation failed: " e), st)
      | None =>
        match verifySignature (st_db st) tx with
        | Some e =>
          (ErrorResponse 401 (String.append "Signature verification failed: " e), st)
        | None =>
          let dbTx := Begin (st_db st) in
          match processLedgerTransferTx dbTx tx now with
          | (Some _, _) => (ErrorResponse 500 "Failed to process transfer", st)
          | (None, dbTx1) =>
            match storeTransactionTx dbTx1 tx now with
            | (Some _, _, _) => (ErrorResponse 500 "Failed to store transaction", st)
            | (None, tx', dbTx2) =>
              let st' := mkStore (Commit dbTx2) (st_settlement_queue st) in
              (Created tx', queueForSettlement st' tx')
            end
          end
        end
      end
    end.

(** *** [BatchTransactions] *)

Record FailedItem : Type := mkFailedItem {
  fi_txId : string;
  fi_error : string
}.

Record Summary : Type := mkSummary {
  sm_total : nat;
  sm_succeeded : nat;
  sm_failed : nat
}.

Inductive BatchResponse : Type :=
| BatchError (status : Z) (message : string)
| BatchResult (processed : list Transaction) (failed : list FailedItem) (summary : Summary).

(** The [for _, tx := range req.Transactions] loop; every [continue] is the
    call on the rest of the slice. *)
Fixpoint batchLoop (db : DB) (txs : list Transaction)
    (processed : list Transaction) (failed : list FailedItem) (now : Z)
  : DB * list Transaction * list FailedItem :=
  match txs with
  | [] => (db, processed, failed)
  | tx :: rest =>
    match validateTransaction db tx now with
    | Some e => batchLoop db rest processed (failed ++ [mkFailedItem (TxID tx) e]) now
    | None =>
      match verifySignature db tx with
      | Some _ =>
        batchLoop db rest processed
          (failed ++ [mkFailedItem (TxID tx) "Signature verification failed"]) now
      | None =>
        match checkDoubleSpending db tx with
        | Some _ =>
          batchLoop db rest processed
            (failed ++ [mkFailedItem (TxID tx) "Double spending detected"]) now
        | None =>
          match processLedgerTransfer db tx now with
          | (Some _, db1) =>
            batchLoop db1 rest processed
              (failed ++ [mkFailedItem (TxID tx) "Transfer failed"]) now
          | (None, db1) =>
            match storeTransaction db1 tx now with
            | (Some _, _, db2) =>
              batchLoop db2 rest processed
                (failed ++ [mkFailedItem (TxID tx) "Storage failed"]) now
            | (None, tx', db2) =>
              batchLoop db2 rest (processed ++ [tx']) failed now
            end
          end
        end
      end
    end
  end.

(** The handler from the decoded request body on.  The settlement of the
    processed items runs detached, against an external service, after the
    response is fixed. *)
Definition BatchTransactions (st : Store) (txs : list Transaction) (now : Z)
  : BatchResponse * Store :=
  if Nat.eqb (List.length txs) 0 then (BatchError 400 "No transactions provided", st)
  else if Nat.ltb 100 (List.length txs)
  then (BatchError 400 "Batch size exceeds limit (100)", st)
  else
    let '(db', processed, failed) := batchLoop (st_db st) txs [] [] now in
    (BatchResult processed failed
       (mkSummary (List.length txs) (List.length processed) (List.length failed)),
     mkStore db' (st_settlement_queue st)).

End Service.

End TxService.

(** ** Package [hsm]: the key registry *)

Module HSM.

Section Registry.

(** [*rsa.PublicKey], [*rsa.PrivateKey] and the primitives of [crypto/rsa]
    and [crypto/sha256] the registry calls. *)
Variables PublicKey PrivateKey : Type.
Variable sha256_Sum256 : list byte -> list byte.
Variable SignPKCS1v15 : PrivateKey -> list byte -> result (list byte).
Variable VerifyPKCS1v15 : PublicKey -> list byte -> list byte -> option error.

Record KeyPair : Type := mkKeyPair {
  ID : string;
  PublicKey_ : PublicKey;
  PrivateKey_ : PrivateKey;
  CreatedAt : Z;
  ExpiresAt : Z;
  IsActive : bool
}.

(** [keyPair.IsActive = false]. *)
Definition set_inactive (kp : KeyPair) : KeyPair :=
  mkKeyPair (ID kp) (PublicKey_ kp) (PrivateKey_ kp) (CreatedAt kp) (ExpiresAt kp) false.

Definition SignData (keys : gmap string KeyPair) (keyID : string) (data : list byte)
  : result (list byte) :=
  match keys !! keyID with
  | None => Err (String.append "key " (String.append keyID " not found"))
  | Some keyPair =>
    if negb (IsActive keyPair)
    then Err (String.append "key " (String.append keyID " is not active"))
    else
      let hashed := sha256_Sum256 data in
      match SignPKCS1v15 (PrivateKey_ keyPair) hashed with
      | Err e => Err (String.append "failed to sign data: " e)
      | Ok signature => Ok signature
      end
  end.

Definition VerifySignature (keys : gmap string KeyPair) (keyID : string)
    (data signature : list byte) : bool * option error :=
  match keys !! keyID with
  | None => (false, Some (String.append "key " (String.append keyID " not found")))
  | Some keyPair =>
    let hashed := sha256_Sum256 data in
    match VerifyPKCS1v15 (PublicKey_ keyPair) hashed signature with
    | Some _ => (false, None)
    | None => (true, None)
    end
  end.

(** [fmt.Sprintf("%d", n)]. *)
Definition decimal (n : Z) : string := NilZero.string_of_int (Z.to_int n).

(** The body of the loop of [RotateKeys] for one entry of the registry;
    [generated] is what [generateKeyPairInternal] returned for the new
    identifier. *)
Definition rotateKey (now : Z) (generated : string -> result KeyPair)
    (keys : gmap string KeyPair) (keyID : string) (keyPair : KeyPair)
  : gmap string KeyPair :=
  if (ExpiresAt keyPair <? now) || negb (IsActive keyPair) then
    let newKeyID := String.append keyID (String.append "_" (decimal now)) in
    match generated newKeyID with
    | Err _ => keys
    | Ok newKeyPair => <[newKeyID := newKeyPair]> (<[keyID := set_inactive keyPair]> keys)
    end
  else keys.

End Registry.

Arguments mkKeyPair {PublicKey PrivateKey} _ _ _ _ _ _.
Arguments ID {PublicKey PrivateKey} _.
Arguments PublicKey_ {PublicKey PrivateKey} _.
Arguments PrivateKey_ {PublicKey PrivateKey} _.
Arguments CreatedAt {PublicKey PrivateKey} _.
Arguments ExpiresAt {PublicKey PrivateKey} _.
Arguments IsActive {PublicKey PrivateKey} _.
Arguments set_inactive {PublicKey PrivateKey} _.
Arguments SignData {PublicKey PrivateKey} _ _ _ _ _.
Arguments VerifySignature {PublicKey PrivateKey} _ _ _ _ _ _.
Arguments rotateKey {PublicKey PrivateKey} _ _ _ _ _.

End HSM.

(** ** [transaction_service.go]: identifier checks and the balance enquiry *)

Module Enquiry.

Definition is_digit (c : ascii) : bool :=
  let n := N_of_ascii c in (48 <=? n)%N && (n <=? 57)%N.

Definition is_upper (c : ascii) : bool :=
  let n := N_of_ascii c in (65 <=? n)%N && (n <=? 90)%N.

Definition is_lower (c : ascii) : bool :=
  let n := N_of_ascii c in (97 <=? n)%N && (n <=? 122)%N.

(** [isAlphanumeric]: the loop runs over the runes of [s]; a byte that is
    not ASCII belongs to a rune outside the three ranges, so the test can be
    made byte by byte. *)
Fixpoint isAlphanumeric (s : string) : bool :=
  match s with
  | EmptyString => true
  | String c rest =>
    if negb (is_digit c || is_upper c || is_lower c) then false
    else isAlphanumeric rest
  end.

(** Every character of [s] is in the class [p]. *)
Fixpoint all_in_class (p : ascii -> bool) (s : string) : bool :=
  match s with
  | EmptyString => true
  | String c rest => p c && all_in_class p rest
  end.

(** [accountIdRegex], the pattern [^[0-9]{10,20}$]. *)
Definition isValidAccountId (s : string) : bool :=
  all_in_class is_digit s
  && Nat.leb 10 (String.length s) && Nat.leb (String.length s) 20.

(** [bankCodeRegex], the pattern [^[0-9A-Za-z]{3,6}$]. *)
Definition isValidBankCode (s : string) : bool :=
  all_in_class (fun c => is_digit c || is_upper c || is_lower c) s
  && Nat.leb 3 (String.length s) && Nat.leb (String.length s) 6.

(** What [AccountBalanceEnquiry] writes to the [http.ResponseWriter]. *)
Inductive EnquiryResponse : Type :=
| EnquiryError (status : Z) (message : string)
| EnquiryBalance (responseCode accountId : string) (availableBalance : Z)
                 (status source : string).

(** [SELECT balance, status FROM accounts WHERE card_id = $1 OR
    account_id = $1 LIMIT 1], scanned into an [int64] and a [string]: a
    [NULL] status is a scan error. *)
Definition local_balance (db : DB) (accountId : string) : result (Z * string) :=
  match List.find (fun r => col_eq (acc_card_id r) accountId
                            || col_eq (acc_account_id r) accountId) (accounts db) with
  | None => Err ErrNoRows
  | Some r =>
    match acc_status r with
    | None => Err "sql: Scan error on column index 1: converting NULL to string is unsupported"
    | Some status => Ok (acc_balance r, status)
    end
  end.

Section Handler.

(** [callExternalBalanceEnquiry], the request to the external service. *)
Variable callExternalBalanceEnquiry : string -> result Z.

(** The handler from the trimmed query parameters on. *)
Definition AccountBalanceEnquiry (db : DB) (accountId bankCode : string) : EnquiryResponse :=
  if String.eqb accountId "" then EnquiryError 400 "accountId is required"
  else if negb (isValidAccountId accountId)
  then EnquiryError 400 "invalid accountId format"
  else if negb (String.eqb bankCode "") && negb (isValidBankCode bankCode)
  then EnquiryError 400 "invalid bankCode format"
  else
    match local_balance db accountId with
    | Ok (balance, status) =>
      if negb (String.eqb status "ACTIVE") then EnquiryError 403 "Account not active"
      else EnquiryBalance "00" accountId balance "SUCCESS" "local"
    | Err _ =>
      match callExternalBalanceEnquiry accountId with
      | Err _ => EnquiryError 404 "Account not found"
      | Ok balance => EnquiryBalance "00" accountId balance "SUCCESS" "external"
      end
    end.

End Handler.

End Enquiry.

(** ** Package [hsm]: key life cycle, encryption and PINs *)

Module KeyStore.

(** The class [[a-zA-Z0-9_-]] of the pattern of [validateKeyID]. *)
Definition is_key_char (c : ascii) : bool :=
  Enquiry.is_lower c || Enquiry.is_upper c || Enquiry.is_digit c
  || Ascii.eqb c "_" || Ascii.eqb c "-".

(** [aes.NewCipher]: the key has 16, 24 or 32 bytes. *)
Definition aes_NewCipher (key : list byte) : option error :=
  let n := List.length key in
  if Nat.eqb n 16 || Nat.eqb n 24 || Nat.eqb n 32 then None
  else Some (String.append "crypto/aes: invalid key size " (HSM.decimal (Z.of_nat n))).

Fixpoint bytes_eqb (x y : list byte) : bool :=
  match x, y with
  | [], [] => true
  | a :: x', b :: y' => Byte.eqb a b && bytes_eqb x' y'
  | _, _ => false
  end.

(** [subtle.ConstantTimeCompare]: 1 for two slices of the same length and
    contents, 0 otherwise. *)
Definition ConstantTimeCompare (x y : list byte) : Z :=
  if negb (Nat.eqb (List.length x) (List.length y)) then 0
  else if bytes_eqb x y then 1 else 0.

Section Keys.

Variables PublicKey PrivateKey : Type.

(** [filepath.IsAbs], [filepath.Clean] and [filepath.Join]. *)
Variable filepath_IsAbs : string -> bool.
Variable filepath_Clean : string -> string.
Variable filepath_Join : string -> string -> string.

(** [saveKeyToDisk], which serialises, seals and writes the key file, and
    [os.Remove] with [os.IsNotExist]: the outcome of the file system. *)
Variable saveKeyToDisk : HSM.KeyPair PublicKey PrivateKey -> option error.
Variable os_Remove : string -> option error.
Variable os_IsNotExist : error -> bool.

(** [x509.MarshalPKIXPublicKey] and [pem.EncodeToMemory]. *)
Variable MarshalPKIXPublicKey : PublicKey -> result (list byte).
Variable pem_EncodeToMemory : string -> list byte -> string.

(** AES-GCM under a key: [gcm.Seal(nil, nonce, plaintext, nil)] and
    [gcm.Open(nil, nonce, ciphertext, nil)]. *)
Variable gcm_Seal : list byte -> list byte -> list byte -> list byte.
Variable gcm_Open : list byte -> list byte -> list byte -> result (list byte).

(** [argon2.IDKey(pin, salt, 1, 64*1024, 4, 32)] and the standard base64
    encoding. *)
Variable argon2_IDKey : list byte -> list byte -> list byte.
Variable base64_EncodeToString : list byte -> string.
Variable base64_DecodeString : string -> result (list byte).

Definition validateKeyID (keyID : string) : option error :=
  if String.eqb keyID "" then Some "key ID cannot be empty"
  else if filepath_IsAbs keyID then Some "key ID cannot be an absolute path"
  else if negb (String.eqb (filepath_Clean keyID) keyID)
  then Some "key ID contains invalid path elements"
  else if negb (Enquiry.all_in_class is_key_char keyID && Nat.leb 1 (String.length keyID))
  then Some "key ID contains invalid characters"
  else None.

(** [GenerateKeyPair]; [generated] is what [rsa.GenerateKey] returned,
    [now] and [now'] are the two readings of the clock, in seconds. *)
Definition GenerateKeyPair (keys : gmap string (HSM.KeyPair PublicKey PrivateKey))
    (keyID : string) (generated : result (PublicKey * PrivateKey)) (now now' : Z)
  : result (HSM.KeyPair PublicKey PrivateKey) * gmap string (HSM.KeyPair PublicKey PrivateKey) :=
  match validateKeyID keyID with
  | Some e => (Err (String.append "invalid key ID: " e), keys)
  | None =>
    match keys !! keyID with
    | Some _ =>
      (Err (String.append "key with ID " (String.append keyID " already exists")), keys)
    | None =>
      match generated with
      | Err e => (Err (String.append "failed to generate RSA key: " e), keys)
      | Ok (publicKey, privateKey) =>
        let keyPair :=
          HSM.mkKeyPair keyID publicKey privateKey now (now' + 365 * 24 * 3600) true in
        let keys1 := <[keyID := keyPair]> keys in
        match saveKeyToDisk keyPair with
        | Some e =>
          (Err (String.append "failed to save key to disk: " e), delete keyID keys1)
        | None => (Ok keyPair, keys1)
        end
      end
    end
  end.

Definition generateKeyPairInternal (keyID : string)
    (generated : result (PublicKey * PrivateKey)) (now now' : Z)
  : result (HSM.KeyPair PublicKey PrivateKey) :=
  match generated with
  | Err e => Err e
  | Ok (publicKey, privateKey) =>
    Ok (HSM.mkKeyPair keyID publicKey privateKey now (now' + 365 * 24 * 3600) true)
  end.

Definition GetPublicKey (keys : gmap string (HSM.KeyPair PublicKey PrivateKey))
    (keyID : string) : result string :=
  match keys !! keyID with
  | None => Err (String.append "key " (String.append keyID " not found"))
  | Some keyPair =>
    if negb (HSM.IsActive keyPair)
    then Err (String.append "key " (String.append keyID " is not active"))
    else
      match MarshalPKIXPublicKey (HSM.PublicKey_ keyPair) with
      | Err e => Err (String.append "failed to marshal public key: " e)
      | Ok publicKeyBytes => Ok (pem_EncodeToMemory "RSA PUBLIC KEY" publicKeyBytes)
      end
  end.

(** [EncryptData]; [random] is what [io.ReadFull(rand.Reader, nonce)] left
    in the 12-byte buffer.  [cipher.NewGCM] does not fail on an AES block. *)
Definition EncryptData (keys : gmap string (HSM.KeyPair PublicKey PrivateKey))
    (masterKey : list byte) (keyID : string) (plaintext : list byte)
    (random : result (list byte)) : result (list byte) :=
  match keys !! keyID with
  | None => Err (String.append "key " (String.append keyID " not found"))
  | Some _ =>
    match random with
    | Err e => Err (String.append "failed to generate nonce: " e)
    | Ok nonce =>
      match aes_NewCipher masterKey with
      | Some e => Err (String.append "failed to create cipher: " e)
      | None =>
        let ciphertext := gcm_Seal masterKey nonce plaintext in
        Ok (nonce ++ ciphertext)
      end
    end
  end.

Definition DecryptData (keys : gmap string (HSM.KeyPair PublicKey PrivateKey))
    (masterKey : list byte) (keyID : string) (ciphertext : list byte)
  : result (list byte) :=
  match keys !! keyID with
  | None => Err (String.append "key " (String.append keyID " not found"))
  | Some _ =>
    if Nat.ltb (List.length ciphertext) 12 then Err "ciphertext too short"
    else
      let nonce := List.firstn 12 ciphertext in
      let ciphertext := List.skipn 12 ciphertext in
      match aes_NewCipher masterKey with
      | Some e => Err (String.append "failed to create cipher: " e)
      | None =>
        match gcm_Open masterKey nonce ciphertext with
        | Err e => Err (String.append "decryption failed: " e)
        | Ok plaintext => Ok plaintext
        end
      end
  end.

(** [HashPIN]; [random] is what [rand.Read] left in the 16-byte buffer. *)
Definition HashPIN (pin : string) (salt : list byte) (random : result (list byte))
  : result string :=
  match (if Nat.eqb (List.length salt) 0
         then match random with
              | Err e => Err (String.append "failed to generate salt: " e)
              | Ok generated => Ok generated
              end
         else Ok salt) with
  | Err e => Err e
  | Ok salt =>
    let hash := argon2_IDKey (list_byte_of_string pin) salt in
    Ok (base64_EncodeToString (salt ++ hash))
  end.

Definition VerifyPIN (pin hashedPIN : string) : bool * option error :=
  match base64_DecodeString hashedPIN with
  | Err e => (false, Some (String.append "invalid PIN hash format: " e))
  | Ok decoded =>
    if Nat.ltb (List.length decoded) 16 then (false, Some "PIN hash too short")
    else
      let salt := List.firstn 16 decoded in
      let storedHash := List.skipn 16 decoded in
      let inputHash := argon2_IDKey (list_byte_of_string pin) salt in
      (ConstantTimeCompare inputHash storedHash =? 1, None)
  end.

(** [RotateKeys]: the loop visits the entries of the map in an order the
    language leaves open, given here as the list [order] of the identifiers
    in the order of the visits; an identifier that is not in the map when
    its turn comes is no entry and is passed over. *)
Definition RotateKeys (now : Z)
    (generated : string -> result (HSM.KeyPair PublicKey PrivateKey))
    (order : list string) (keys : gmap string (HSM.KeyPair PublicKey PrivateKey))
  : option error * gmap string (HSM.KeyPair PublicKey PrivateKey) :=
  (None,
   List.fold_left
     (fun ks keyID =>
        match ks !! keyID with
        | Some keyPair => HSM.rotateKey now generated ks keyID keyPair
        | None => ks
        end)
     order keys).

Definition DeleteKey (keys : gmap string (HSM.KeyPair PublicKey PrivateKey))
    (keyStorePath keyID : string)
  : option error * gmap string (HSM.KeyPair PublicKey PrivateKey) :=
  match keys !! keyID with
  | None => (Some (String.append "key " (String.append keyID " not found")), keys)
  | Some _ =>
    let keys1 := delete keyID keys in
    match validateKeyID keyID with
    | Some e => (Some (String.append "invalid key ID: " e), keys1)
    | None =>
      let keyPath := filepath_Join keyStorePath (String.append keyID ".key") in
      match os_Remove keyPath with
      | Some e =>
        if negb (os_IsNotExist e)
        then (Some (String.append "failed to delete key file: " e), keys1)
        else (None, keys1)
      | None => (None, keys1)
      end
    end
  end.

End Keys.

Arguments validateKeyID _ _ _ : clear implicits.
Arguments GenerateKeyPair {PublicKey PrivateKey} _ _ _ _ _ _ _ _.
Arguments generateKeyPairInternal {PublicKey PrivateKey} _ _ _ _.
Arguments GetPublicKey {PublicKey PrivateKey} _ _ _ _.
Arguments EncryptData {PublicKey PrivateKey} _ _ _ _ _ _.
Arguments DecryptData {PublicKey PrivateKey} _ _ _ _ _.
Arguments RotateKeys {PublicKey PrivateKey} _ _ _ _.
Arguments DeleteKey {PublicKey PrivateKey} _ _ _ _ _ _ _ _.

End KeyStore.

(** ** Vocabulary of the statements *)

(** The two locks of a transfer from [a] to [b] when both rows exist, in
    the order in which [lockInOrder] takes them. *)
Definition lock_pair (a b : string) (ra rb : AccountRow) : list LockEvent :=
  if string_gt a b
  then [mkLockEvent b (acc_id rb); mkLockEvent a (acc_id ra)]
  else [mkLockEvent a (acc_id ra); mkLockEvent b (acc_id rb)].

(** The row locks a transaction takes when it locks [lo] and then, if [lo]
    was found, [hi]. *)
Definition locks_taken (rows : list AccountRow) (lo hi : string) : list LockEvent :=
  match Ledger.find_account lo rows with
  | None => []
  | Some rlo =>
    mkLockEvent lo (acc_id rlo)
    :: match Ledger.find_account hi rows with
       | None => []
       | Some rhi => [mkLockEvent hi (acc_id rhi)]
       end
  end.

Definition with_locks (tx : Tx) (ls : list LockEvent) : Tx :=
  mkTx (tx_db tx) (tx_locks tx ++ ls).

(** The ledger entries recorded under a transaction identifier. *)
Definition entries_of (transactionID : string) (t : list LedgerEntry) : list LedgerEntry :=
  List.filter (fun e => String.eqb (le_transaction_id e) transactionID) t.

(** The two legs [TransferTx] posts for a transfer of [amount] from the
    account row [src] to the account row [dst]. *)
Definition debit_leg (transactionID : string) (src : AccountRow) (amount now : Z) : LedgerEntry :=
  mkLedgerEntry transactionID (acc_id src) (neg64 amount) "DEBIT"
                (sub64 (acc_balance src) amount) now.

Definition credit_leg (transactionID : string) (dst : AccountRow) (amount now : Z) : LedgerEntry :=
  mkLedgerEntry transactionID (acc_id dst) amount "CREDIT"
                (add64 (acc_balance dst) amount) now.

(** The working copy after the two locks and the two inserts. *)
Definition after_entries (tx : Tx) (a b transactionID : string) (ra rb : AccountRow)
    (amount now : Z) : Tx :=
  set_ledger_entries (fun t => t ++ [credit_leg transactionID rb amount now])
    (set_ledger_entries (fun t => t ++ [debit_leg transactionID ra amount now])
       (with_locks tx (lock_pair a b ra rb))).

(** ... after the update of the source row ... *)
Definition after_debit (tx : Tx) (a b transactionID : string) (ra rb : AccountRow)
    (amount now : Z) : Tx :=
  set_accounts
    (Ledger.apply_update (acc_id ra) (sub64 (acc_balance ra) amount) (acc_version ra) now)
    (after_entries tx a b transactionID ra rb amount now).

(** ... and after the update of the destination row. *)
Definition after_credit (tx : Tx) (a b transactionID : string) (ra rb : AccountRow)
    (amount now : Z) : Tx :=
  set_accounts
    (Ledger.apply_update (acc_id rb) (add64 (acc_balance rb) amount) (acc_version rb) now)
    (after_debit tx a b transactionID ra rb amount now).

(** What one version-conditioned [UPDATE] does to a row: a row it selects
    keeps its identifier, takes the new balance and has its version advanced
    by exactly one; any other row is left as it is. *)
Definition updated_once (accountID : string) (newBalance version : Z)
    (r r' : AccountRow) : Prop :=
  if Ledger.update_matches accountID version r
  then acc_id r' = acc_id r /\ acc_balance r' = newBalance
       /\ acc_version r' = acc_version r + 1
  else r' = r.

(** [SUM(amount)] over a set of ledger rows. *)
Definition sum_amounts (t : list LedgerEntry) : Z :=
  List.fold_right (fun e s => le_amount e + s) 0 t.

(** A request carrying the signature the card would compute under the
    authentication key [cak]. *)
Definition signed (hmac_sha256 : list byte -> list byte -> list byte) (cak : list byte)
    (tx : TxService.Transaction) : TxService.Transaction :=
  TxService.with_signature tx
    (TxService.hexEncode (hmac_sha256 cak (TxService.serializeTransaction tx))).

(** The store after a transfer of [Amount tx] from the row [ra] to the row
    [rb] and the insertion of the transaction row. *)
Definition db_after_create (db : DB) (tx' : TxService.Transaction) (ra rb : AccountRow) (now : Z) : DB :=
  mkDB (Ledger.apply_update (acc_id rb) (add64 (acc_balance rb) (TxService.Amount tx'))
          (acc_version rb) now
          (Ledger.apply_update (acc_id ra) (sub64 (acc_balance ra) (TxService.Amount tx'))
             (acc_version ra) now (accounts db)))
       (ledger_entries db
        ++ [debit_leg (TxService.TxID tx') ra (TxService.Amount tx') now;
            credit_leg (TxService.TxID tx') rb (TxService.Amount tx') now])
       (payment_states db)
       (transactions db ++ [TxService.transaction_row tx'])
       (cards db).

(** An entry of the [processed] list of a batch answer: an item of the
    request, marked [COMPLETED]. *)
Definition processed_from (txs : list TxService.Transaction) (now : Z)
    (p : TxService.Transaction) : Prop :=
  exists t, In t txs /\ p = TxService.with_status t "COMPLETED" now.

(** An entry of the [failed] list of a batch answer: the identifier of an
    item of the request with the reason of its failure, which is the
    message of [validateTransaction] or names the step that failed. *)
Definition failed_from (txs : list TxService.Transaction) (now : Z)
    (f : TxService.FailedItem) : Prop :=
  exists t, In t txs /\ TxService.fi_txId f = TxService.TxID t
    /\ (In (TxService.fi_error f)
           ["Signature verification failed"; "Double spending detected";
            "Transfer failed"; "Storage failed"]
        \/ exists db, TxService.validateTransaction db t now = Some (TxService.fi_error f)).

(** A key pair whose public half accepts what its private half signs. *)
Definition key_pair_sound {PublicKey PrivateKey : Type}
    (SignPKCS1v15 : PrivateKey -> list byte -> result (list byte))
    (VerifyPKCS1v15 : PublicKey -> list byte -> list byte -> option error)
    (kp : HSM.KeyPair PublicKey PrivateKey) : Prop :=
  forall hashed signature,
    SignPKCS1v15 (HSM.PrivateKey_ kp) hashed = Ok signature ->
    VerifyPKCS1v15 (HSM.PublicKey_ kp) hashed signature = None.

(** HMAC-SHA256 yields 32 bytes. *)
Definition mac_length (hmac_sha256 : list byte -> list byte -> list byte) : Prop :=
  forall key data, List.length (hmac_sha256 key data) = 32%nat.

(** The sum of the balances of the accounts table. *)
Definition total_balance (rows : list AccountRow) : Z :=
  List.fold_right (fun r s => acc_balance r + s) 0 rows.

(** [id] is a key of the accounts table. *)
Definition unique_ids (rows : list AccountRow) : Prop :=
  List.NoDup (List.map acc_id rows).

(** The columns of an account row that name it and say whether it is
    usable. *)
Definition identity_of (r : AccountRow) : string * option string * option string * option string :=
  (acc_id r, acc_card_id r, acc_account_id r, acc_status r).

(** What a committed transfer of [amount] from the row [ra] to the row [rb]
    does to a row of the accounts table when [id] is a key: the row of the
    source takes the debited balance, the row of the destination the
    credited one, each with its version plus one, and any other row stays. *)
Definition transfer_row (ra rb : AccountRow) (amount now : Z) (r : AccountRow) : AccountRow :=
  if String.eqb (acc_id r) (acc_id ra)
  then Ledger.update_row (sub64 (acc_balance ra) amount) now r
  else if String.eqb (acc_id r) (acc_id rb)
  then Ledger.update_row (add64 (acc_balance rb) amount) now r
  else r.

(** The number a byte sequence denotes, most significant byte first,
    continuing from [acc]. *)
Fixpoint be_value (bs : list byte) (acc : Z) : Z :=
  match bs with
  | [] => acc
  | b :: rest => be_value rest (acc * 256 + Z.of_N (Byte.to_N b))
  end.

(** A request with other card and merchant identifiers. *)
Definition with_parties (tx : TxService.Transaction) (cardID merchantID : string)
  : TxService.Transaction :=
  TxService.mkTransaction (TxService.Version tx) (TxService.TxID tx)
    (TxService.Timestamp tx) cardID merchantID (TxService.Amount tx)
    (TxService.Currency tx) (TxService.Counter tx) (TxService.TxType tx)
    (TxService.Signature tx) (TxService.Narration tx) (TxService.Status tx)
    (TxService.CreatedAt tx).

(** The fields of a request that [serializeTransaction] reads. *)
Definition authenticated_fields (tx : TxService.Transaction)
  : Z * string * Z * string * string * Z * string * Z * string :=
  (TxService.Version tx, TxService.TxID tx, TxService.Timestamp tx,
   TxService.CardID tx, TxService.MerchantID tx, TxService.Amount tx,
   TxService.Currency tx, TxService.Counter tx, TxService.TxType tx).

(** The fields of a request hold values of their Go types. *)
Definition well_typed (tx : TxService.Transaction) : Prop :=
  0 <= TxService.Version tx < 256
  /\ in_int64 (TxService.Timestamp tx)
  /\ in_int64 (TxService.Amount tx)
  /\ 0 <= TxService.Counter tx < 2 ^ 32.

(** The items of a batch answer that failed at the last step, the insert
    into [transactions]. *)
Definition storage_failures (failed : list TxService.FailedItem) : list TxService.FailedItem :=
  List.filter (fun f => String.eqb (TxService.fi_error f) "Storage failed") failed.

(** The transaction identifiers on record. *)
Definition recorded_ids (db : DB) : list string :=
  List.map tr_transaction_id (transactions db).

(** The identifier [RotateKeys] gives the successor of the key [keyID] at
    the clock reading [now]. *)
Definition successor_id (keyID : string) (now : Z) : string :=
  String.append keyID (String.append "_" (HSM.decimal now)).

(** An item passes the five steps of the batch loop on the database [db]:
    validation, signature, double spending, the transfer, and the insert
    of its row, which needs its identifier not to be on record. *)
Definition item_passes (hmac_sha256 : list byte -> list byte -> list byte)
    (db : DB) (tx : TxService.Transaction) (now : Z) : Prop :=
  TxService.validateTransaction db tx now = None
  /\ TxService.verifySignature hmac_sha256 db tx = None
  /\ TxService.checkDoubleSpending db tx = None
  /\ fst (Ledger.Transfer db (TxService.CardID tx) (TxService.MerchantID tx)
            (TxService.TxID tx) (TxService.Amount tx) now) = None
  /\ TxService.existing_status db (TxService.TxID tx) = None.

(** ** Sample data

    The scenario of the specification: account [X] holds 5000 minor units,
    account [Y] holds 2000; [X] has a card with an authentication key. *)

Definition account_X : AccountRow :=
  mkAccountRow "1" (Some "X") (Some "0000000010") 5000 1 (Some "ACTIVE") 0.

Definition account_Y : AccountRow :=
  mkAccountRow "2" (Some "Y") (Some "0000000020") 2000 1 (Some "ACTIVE") 0.

Definition sample_db : DB :=
  mkDB [account_X; account_Y] [] [] [] [mkCardRow "X" "0a0b0c0d"].

Definition sample_store : TxService.Store := TxService.mkStore sample_db [].

Definition sample_cak : list byte := [x0a; x0b; x0c; x0d].

(** The clock reading of the examples. *)
Definition sample_now : Z := 1700000000.

(** An unsigned request from [X] to [Y]. *)
Definition request (txID : string) (timestamp amount counter : Z) : TxService.Transaction :=
  TxService.mkTransaction 1 txID timestamp "X" "Y" amount "NGN" counter "DEBIT" "" "" "" 0.

(** A stand-in for HMAC-SHA256 with the right output length, to run the
    examples. *)
Definition sample_mac (key data : list byte) : list byte :=
  List.repeat (TxService.byte_of_Z (Z.of_nat (List.length key + List.length data))) 32.

(** A toy signature scheme to run the registry: the signature of a digest
    under key [k] is the digest behind the byte [k]. *)
Definition sample_sign (sk : Z) (hashed : list byte) : result (list byte) :=
  Ok (TxService.byte_of_Z sk :: hashed).

Definition sample_verify (pk : Z) (hashed signature : list byte) : option error :=
  match signature with
  | b :: rest =>
    if Byte.eqb b (TxService.byte_of_Z pk)
       && List.forallb (fun p => Byte.eqb (fst p) (snd p)) (List.combine rest hashed)
       && Nat.eqb (List.length rest) (List.length hashed)
    then None else Some "crypto/rsa: verification error"
  | [] => Some "crypto/rsa: verification error"
  end.

Definition sample_digest (data : list byte) : list byte := data.

Definition sample_key (active : bool) : HSM.KeyPair Z Z :=
  HSM.mkKeyPair "card-signing" 7 7 0 1000 active.

Definition sample_keys (active : bool) : gmap string (HSM.KeyPair Z Z) :=
  <["card-signing" := sample_key active]> ∅.

(** Stand-ins for [filepath.IsAbs] and [filepath.Clean] on Unix, to run the
    examples: a path is absolute when it starts with a slash, and [Clean]
    is taken on the empty path and on the names it gives back as they are. *)
Definition sample_IsAbs (path : string) : bool :=
  match path with
  | String "/" _ => true
  | _ => false
  end.

Definition sample_Clean (path : string) : string :=
  if String.eqb path "" then "." else path.

(** A toy cipher to run the examples: sealing reverses the plaintext. *)
Definition sample_seal (key nonce plaintext : list byte) : list byte := List.rev plaintext.

Definition sample_open (key nonce ciphertext : list byte) : result (list byte) :=
  Ok (List.rev ciphertext).

Definition sample_nonce : list byte := List.repeat x2a 12.

Definition sample_master_key : list byte := List.repeat x11 32.

Definition sample_salt : list byte := List.repeat x05 16.

(** * Properties *)

(** ** Arithmetic and string order *)

Lemma wrap64_id (z : Z) : in_int64 z -> wrap64 z = z.
Proof.
  unfold in_int64, int64_min, int64_max, wrap64. intros H.
  rewrite Z.mod_small; lia.
Qed.

Lemma wrap64_range (z : Z) : in_int64 (wrap64 z).
Proof.
  unfold in_int64, int64_min, int64_max, wrap64.
  pose proof (Z.mod_pos_bound (z + 2 ^ 63) (2 ^ 64) ltac:(lia)). lia.
Qed.

(** In [int64] arithmetic [-amount + amount] is zero for every amount. *)
Lemma add64_neg64 (a : Z) : add64 (neg64 a) a = 0.
Proof.
  unfold add64, neg64, wrap64.
  replace ((- a + 2 ^ 63) mod 2 ^ 64 - 2 ^ 63 + a + 2 ^ 63)
    with ((- a + 2 ^ 63) mod 2 ^ 64 + a) by lia.
  rewrite <- Zplus_mod_idemp_l, Zmod_mod, Zplus_mod_idemp_l.
  replace (- a + 2 ^ 63 + a) with (2 ^ 63) by lia.
  reflexivity.
Qed.

Lemma neg64_exact (a : Z) : in_int64 a -> int64_min < a -> neg64 a = - a.
Proof.
  unfold neg64, in_int64, int64_min, int64_max. intros H1 H2.
  apply wrap64_id. unfold in_int64, int64_min, int64_max. lia.
Qed.

Lemma string_compare_refl (s : string) : String.compare s s = Eq.
Proof.
  induction s as [|c s IH]; simpl; [reflexivity|].
  unfold Ascii.compare. rewrite N.compare_refl. exact IH.
Qed.

Lemma string_gt_neq (a b : string) : string_gt a b = true -> a <> b.
Proof.
  unfold string_gt, String.ltb. intros H ->.
  rewrite string_compare_refl in H. discriminate.
Qed.

Lemma string_gt_asym (a b : string) : string_gt a b = true -> string_gt b a = false.
Proof.
  unfold string_gt, String.ltb. rewrite (String.compare_antisym a b).
  destruct (String.compare b a); simpl; congruence.
Qed.

Lemma string_gt_total (a b : string) :
  a <> b -> string_gt a b = true \/ string_gt b a = true.
Proof.
  unfold string_gt, String.ltb. intros H.
  rewrite (String.compare_antisym a b).
  destruct (String.compare b a) eqn:E; simpl; auto.
  apply String.compare_eq_iff in E. congruence.
Qed.

Example string_gt_is_lexical :
  string_gt "b" "a" = true /\ string_gt "10" "9" = false /\ string_gt "X" "X" = false.
Proof. repeat split; reflexivity. Qed.

(** ** Byte helpers *)

Example int64ToBytes_258 :
  TxService.int64ToBytes 258 = [x00; x00; x00; x00; x00; x00; x01; x02].
Proof. reflexivity. Qed.

Example int64ToBytes_minus_one :
  TxService.int64ToBytes (-1) = [xff; xff; xff; xff; xff; xff; xff; xff].
Proof. reflexivity. Qed.

Example uint32ToBytes_counter :
  TxService.uint32ToBytes 65537 = [x00; x01; x00; x01].
Proof. reflexivity. Qed.

Example hexEncode_bytes : TxService.hexEncode [x0a; xff; x10] = "0aff10".
Proof. reflexivity. Qed.

Example hexDecode_rejects :
  TxService.hexDecode "0aF" = Err "encoding/hex: odd length hex string"
  /\ TxService.hexDecode "0g" = Err "encoding/hex: invalid byte: U+0067 'g'"
  /\ TxService.hexDecode "z0F" = Err "encoding/hex: invalid byte: U+007A 'z'"
  /\ TxService.hexDecode "0A0b" = Ok [x0a; x0b].
Proof. repeat split; reflexivity. Qed.

(** [utf8.RuneCountInString] counts characters, not bytes: three ASCII
    letters, one three-byte character, three two-byte letters, and bytes
    that form no character, each of which counts as one. *)
Example RuneCountInString_examples :
  TxService.RuneCountInString "NGN" = 3%nat
  /\ TxService.RuneCountInString (string_of_list_byte [xe2; x82; xac]) = 1%nat
  /\ TxService.RuneCountInString
       (string_of_list_byte [xc3; xa9; xc3; xa9; xc3; xa9]) = 3%nat
  /\ TxService.RuneCountInString (string_of_list_byte [xe2; x82]) = 2%nat
  /\ TxService.RuneCountInString (string_of_list_byte [xc0; x80]) = 2%nat
  /\ TxService.RuneCountInString (string_of_list_byte [xed; xa0; x80]) = 3%nat
  /\ TxService.RuneCountInString (string_of_list_byte [xf0; x9f; x98; x80; x41]) = 2%nat.
Proof. repeat split; reflexivity. Qed.

(** The [len=3] tag of the currency is about characters. *)
Example ValidateStruct_currency :
  let tx (currency : string) :=
    TxService.mkTransaction 1 "TX1" 1700000000 "X" "Y" 1000 currency 1 "DEBIT" "00" "" "" 0 in
  TxService.ValidateStruct (tx "NGN") = true
  /\ TxService.ValidateStruct (tx (string_of_list_byte [xe2; x82; xac])) = false
  /\ TxService.ValidateStruct
       (tx (string_of_list_byte [xc3; xa9; xc3; xa9; xc3; xa9])) = true
  /\ TxService.ValidateStruct (tx "NG") = false.
Proof. repeat split; reflexivity. Qed.

(** [hex.DecodeString] undoes [hex.EncodeToString]. *)
Lemma hexDecode_hexEncode (bs : list byte) :
  TxService.hexDecode (TxService.hexEncode bs) = Ok bs.
Proof.
  induction bs as [|b bs IH]; [reflexivity|].
  cbn [TxService.hexEncode TxService.hexDecode].
  rewrite IH. destruct b; reflexivity.
Qed.

(** ** The ledger *)

Section LedgerFacts.

Import Ledger.

Lemma lockAccount_found tx accountID r :
  find_account accountID (accounts (tx_db tx)) = Some r ->
  lockAccount tx accountID
  = (Ok (account_of_row r), add_lock (mkLockEvent accountID (acc_id r)) tx).
Proof. unfold lockAccount. intros ->. reflexivity. Qed.

Lemma lockAccount_missing tx accountID :
  find_account accountID (accounts (tx_db tx)) = None ->
  lockAccount tx accountID = (Err ErrNoRows, tx).
Proof. unfold lockAccount. intros ->. reflexivity. Qed.

Lemma lockInOrder_found tx a b ra rb :
  find_account a (accounts (tx_db tx)) = Some ra ->
  find_account b (accounts (tx_db tx)) = Some rb ->
  lockInOrder tx a b
  = (Ok (account_of_row ra, account_of_row rb), with_locks tx (lock_pair a b ra rb)).
Proof.
  intros Ha Hb. unfold lockInOrder, lock_pair, with_locks.
  destruct (string_gt a b) eqn:G.
  - rewrite (lockAccount_found _ _ _ Hb).
    rewrite (lockAccount_found (add_lock _ tx) a ra) by exact Ha.
    apply string_gt_neq in G.
    assert (E : String.eqb b a = false) by (apply (proj2 (String.eqb_neq b a)); congruence).
    rewrite E. simpl. unfold add_lock. simpl. rewrite <- app_assoc. reflexivity.
  - rewrite (lockAccount_found _ _ _ Ha).
    rewrite (lockAccount_found (add_lock _ tx) b rb) by exact Hb.
    rewrite String.eqb_refl. simpl. unfold add_lock. simpl.
    rewrite <- app_assoc. reflexivity.
Qed.

Lemma lockAccount_db tx accountID r tx' :
  lockAccount tx accountID = (r, tx') -> tx_db tx' = tx_db tx.
Proof.
  unfold lockAccount.
  destruct (find_account accountID (accounts (tx_db tx)));
    intros H; inversion H; reflexivity.
Qed.

Lemma lockInOrder_db tx a b r tx' :
  lockInOrder tx a b = (r, tx') -> tx_db tx' = tx_db tx.
Proof.
  unfold lockInOrder.
  destruct (if string_gt a b then (b, a) else (a, b)) as [firstLock secondLock].
  destruct (lockAccount tx firstLock) as [[x|e] tx1] eqn:L1.
  - apply lockAccount_db in L1.
    destruct (lockAccount tx1 secondLock) as [[y|e] tx2] eqn:L2.
    + apply lockAccount_db in L2.
      destruct (negb (String.eqb firstLock a)); intros H; inversion H; congruence.
    + apply lockAccount_db in L2. intros H; inversion H; congruence.
  - apply lockAccount_db in L1. intros H; inversion H; congruence.
Qed.

Lemma lockInOrder_ok_inv tx a b fromAccount toAccount tx' :
  lockInOrder tx a b = (Ok (fromAccount, toAccount), tx') ->
  exists ra rb,
    find_account a (accounts (tx_db tx)) = Some ra /\
    find_account b (accounts (tx_db tx)) = Some rb /\
    fromAccount = account_of_row ra /\ toAccount = account_of_row rb /\
    tx' = with_locks tx (lock_pair a b ra rb).
Proof.
  intros H.
  destruct (find_account a (accounts (tx_db tx))) as [ra|] eqn:Ha;
    destruct (find_account b (accounts (tx_db tx))) as [rb|] eqn:Hb.
  - rewrite (lockInOrder_found _ _ _ _ _ Ha Hb) in H. inversion H; subst.
    exists ra, rb. repeat split; reflexivity.
  - exfalso. unfold lockInOrder, lockAccount in H.
    destruct (string_gt a b); simpl in H; rewrite ?Ha, ?Hb in H; simpl in H;
      rewrite ?Ha, ?Hb in H; discriminate.
  - exfalso. unfold lockInOrder, lockAccount in H.
    destruct (string_gt a b); simpl in H; rewrite ?Ha, ?Hb in H; simpl in H;
      rewrite ?Ha, ?Hb in H; discriminate.
  - exfalso. unfold lockInOrder, lockAccount in H.
    destruct (string_gt a b); simpl in H; rewrite ?Ha, ?Hb in H; discriminate.
Qed.

(** [TransferTx] on two identifiers that resolve, as one expression. *)
Lemma TransferTx_found tx a b txid amount now ra rb :
  find_account a (accounts (tx_db tx)) = Some ra ->
  find_account b (accounts (tx_db tx)) = Some rb ->
  TransferTx tx a b txid amount now
  = if acc_balance ra <? amount
    then (Some "insufficient balance", with_locks tx (lock_pair a b ra rb))
    else if Nat.eqb (rows_affected (acc_id ra) (acc_version ra) (accounts (tx_db tx))) 0
    then (Some (String.append "optimistic lock failed for account " (acc_id ra)),
          after_debit tx a b txid ra rb amount now)
    else if Nat.eqb (rows_affected (acc_id rb) (acc_version rb)
                       (accounts (tx_db (after_debit tx a b txid ra rb amount now)))) 0
    then (Some (String.append "optimistic lock failed for account " (acc_id rb)),
          after_credit tx a b txid ra rb amount now)
    else (None, after_credit tx a b txid ra rb amount now).
Proof.
  intros Ha Hb. unfold TransferTx.
  rewrite (lockInOrder_found _ _ _ _ _ Ha Hb).
  cbn [account_of_row Balance ID Version].
  destruct (acc_balance ra <? amount); [reflexivity|].
  unfold createLedgerEntry, updateAccountBalance.
  fold (debit_leg txid ra amount now). fold (credit_leg txid rb amount now).
  fold (after_entries tx a b txid ra rb amount now).
  change (accounts (tx_db (after_entries tx a b txid ra rb amount now)))
    with (accounts (tx_db tx)).
  fold (after_debit tx a b txid ra rb amount now).
  destruct (Nat.eqb (rows_affected (acc_id ra) (acc_version ra) (accounts (tx_db tx))) 0);
    [reflexivity|].
  fold (after_credit tx a b txid ra rb amount now).
  destruct (Nat.eqb _ 0); reflexivity.
Qed.

Lemma TransferTx_ok_inv tx a b txid amount now tx' :
  TransferTx tx a b txid amount now = (None, tx') ->
  exists ra rb,
    find_account a (accounts (tx_db tx)) = Some ra /\
    find_account b (accounts (tx_db tx)) = Some rb /\
    amount <= acc_balance ra /\
    tx' = after_credit tx a b txid ra rb amount now.
Proof.
  intros H.
  destruct (lockInOrder tx a b) as [[[fa ta]|e] tx2] eqn:L.
  - destruct (lockInOrder_ok_inv _ _ _ _ _ _ L) as (ra & rb & Ha & Hb & _).
    rewrite (TransferTx_found _ _ _ _ _ _ _ _ Ha Hb) in H.
    exists ra, rb. split; [exact Ha|]. split; [exact Hb|].
    destruct (acc_balance ra <? amount) eqn:B; [discriminate|].
    apply Z.ltb_ge in B.
    repeat match type of H with
           | (if ?c then _ else _) = _ => destruct c; [discriminate|]
           end.
    inversion H. split; [exact B | reflexivity].
  - unfold TransferTx in H. rewrite L in H. discriminate.
Qed.

Lemma Transfer_unfold db a b txid amount now :
  Transfer db a b txid amount now
  = match TransferTx
            (set_payment_states (fun t => t ++ [mkPaymentState txid "PENDING" now]) (Begin db))
            a b txid amount now with
    | (Some e, _) => (Some e, db)
    | (None, tx2) =>
      (None, Commit (set_payment_states
                       (fun t => t ++ [mkPaymentState txid "SUCCESS" now]) tx2))
    end.
Proof.
  unfold Transfer, appendPaymentState.
  destruct (TransferTx _ a b txid amount now) as [[e|] tx2]; reflexivity.
Qed.

(** Whatever [Transfer] reports as an error, it has committed nothing. *)
Lemma Transfer_error_rolls_back db a b txid amount now e db' :
  Transfer db a b txid amount now = (Some e, db') -> db' = db.
Proof.
  rewrite Transfer_unfold.
  destruct (TransferTx _ a b txid amount now) as [[e'|] tx2];
    intros H; inversion H; reflexivity.
Qed.

(** What a [Transfer] that returns [nil] has committed. *)
Lemma Transfer_ok_inv db a b txid amount now db' :
  Transfer db a b txid amount now = (None, db') ->
  exists ra rb,
    find_account a (accounts db) = Some ra /\
    find_account b (accounts db) = Some rb /\
    amount <= acc_balance ra /\
    db' = mkDB
            (apply_update (acc_id rb) (add64 (acc_balance rb) amount) (acc_version rb) now
               (apply_update (acc_id ra) (sub64 (acc_balance ra) amount) (acc_version ra)
                  now (accounts db)))
            (ledger_entries db
             ++ [debit_leg txid ra amount now; credit_leg txid rb amount now])
            (payment_states db
             ++ [mkPaymentState txid "PENDING" now; mkPaymentState txid "SUCCESS" now])
            (transactions db) (cards db).
Proof.
  rewrite Transfer_unfold.
  destruct (TransferTx _ a b txid amount now) as [[e|] tx2] eqn:T; [discriminate|].
  intros H. inversion H; subst db'; clear H.
  destruct (TransferTx_ok_inv _ _ _ _ _ _ _ T) as (ra & rb & Ha & Hb & Hle & ->).
  exists ra, rb. split; [exact Ha|]. split; [exact Hb|]. split; [exact Hle|].
  unfold Commit. simpl. rewrite <- !app_assoc. reflexivity.
Qed.

End LedgerFacts.

Lemma sum_amounts_app (l1 l2 : list LedgerEntry) :
  sum_amounts (l1 ++ l2) = sum_amounts l1 + sum_amounts l2.
Proof.
  unfold sum_amounts. induction l1 as [|e l1 IH]; simpl; [reflexivity|].
  rewrite IH. lia.
Qed.

Lemma entries_of_app (txid : string) (l1 l2 : list LedgerEntry) :
  entries_of txid (l1 ++ l2) = entries_of txid l1 ++ entries_of txid l2.
Proof. unfold entries_of. apply List.filter_app. Qed.

Lemma ledger_after_credit tx a b txid ra rb amount now :
  ledger_entries (tx_db (after_credit tx a b txid ra rb amount now))
  = ledger_entries (tx_db tx)
    ++ [debit_leg txid ra amount now; credit_leg txid rb amount now].
Proof. simpl. rewrite <- app_assoc. reflexivity. Qed.

(** C1.  Whenever [TransferTx] returns [nil], the working copy holds
    exactly two more ledger rows, both under the transaction identifier: a
    [DEBIT] row with amount [-amount] and balance [sourceBalance - amount]
    on the source account, then a [CREDIT] row with amount [amount] and
    balance [destBalance + amount] on the destination account (all in
    [int64] arithmetic, as the code computes them).  The two amounts cancel
    in [int64]; for every amount but the least [int64], whose negation
    overflows, they cancel over the integers as well, so that the sum of the
    amounts recorded under the identifier is what it was before, and is
    zero when the identifier was fresh. *)
Theorem C1_transfer_posts_two_balanced_entries :
  forall (tx tx' : Tx) (fromAccountID toAccountID transactionID : string) (amount now : Z),
    Ledger.TransferTx tx fromAccountID toAccountID transactionID amount now = (None, tx') ->
    exists src dst : AccountRow,
      Ledger.find_account fromAccountID (accounts (tx_db tx)) = Some src /\
      Ledger.find_account toAccountID (accounts (tx_db tx)) = Some dst /\
      let debit := mkLedgerEntry transactionID (acc_id src) (neg64 amount) "DEBIT"
                                 (sub64 (acc_balance src) amount) now in
      let credit := mkLedgerEntry transactionID (acc_id dst) amount "CREDIT"
                                  (add64 (acc_balance dst) amount) now in
      ledger_entries (tx_db tx') = ledger_entries (tx_db tx) ++ [debit; credit] /\
      entries_of transactionID (ledger_entries (tx_db tx'))
      = entries_of transactionID (ledger_entries (tx_db tx)) ++ [debit; credit] /\
      add64 (le_amount debit) (le_amount credit) = 0 /\
      (in_int64 amount -> int64_min < amount ->
       le_amount debit + le_amount credit = 0 /\
       sum_amounts (entries_of transactionID (ledger_entries (tx_db tx')))
       = sum_amounts (entries_of transactionID (ledger_entries (tx_db tx))) /\
       (entries_of transactionID (ledger_entries (tx_db tx)) = [] ->
        sum_amounts (entries_of transactionID (ledger_entries (tx_db tx'))) = 0)).
Proof.
  intros tx tx' a b txid amount now H.
  destruct (TransferTx_ok_inv _ _ _ _ _ _ _ H) as (ra & rb & Ha & Hb & _ & ->).
  exists ra, rb. split; [exact Ha|]. split; [exact Hb|].
  cbv zeta. rewrite ledger_after_credit. unfold debit_leg, credit_leg.
  assert (E : entries_of txid
                (ledger_entries (tx_db tx)
                 ++ [mkLedgerEntry txid (acc_id ra) (neg64 amount) "DEBIT"
                                   (sub64 (acc_balance ra) amount) now;
                     mkLedgerEntry txid (acc_id rb) amount "CREDIT"
                                   (add64 (acc_balance rb) amount) now])
              = entries_of txid (ledger_entries (tx_db tx))
                ++ [mkLedgerEntry txid (acc_id ra) (neg64 amount) "DEBIT"
                                  (sub64 (acc_balance ra) amount) now;
                    mkLedgerEntry txid (acc_id rb) amount "CREDIT"
                                  (add64 (acc_balance rb) amount) now]).
  { rewrite entries_of_app. f_equal. unfold entries_of. simpl.
    rewrite String.eqb_refl. reflexivity. }
  split; [reflexivity|]. split; [exact E|].
  split; [apply add64_neg64|].
  intros Hr Hm. simpl le_amount.
  assert (N : neg64 amount + amount = 0) by (rewrite neg64_exact by assumption; lia).
  split; [exact N|]. rewrite E, sum_amounts_app.
  assert (S2 : sum_amounts
                 [mkLedgerEntry txid (acc_id ra) (neg64 amount) "DEBIT"
                                (sub64 (acc_balance ra) amount) now;
                  mkLedgerEntry txid (acc_id rb) amount "CREDIT"
                                (add64 (acc_balance rb) amount) now] = 0).
  { unfold sum_amounts. simpl. lia. }
  rewrite S2. split; [lia|]. intros ->. reflexivity.
Qed.

Lemma TransferTx_locks tx a b txid amount now ra rb :
  Ledger.find_account a (accounts (tx_db tx)) = Some ra ->
  Ledger.find_account b (accounts (tx_db tx)) = Some rb ->
  tx_locks (snd (Ledger.TransferTx tx a b txid amount now))
  = tx_locks tx ++ lock_pair a b ra rb.
Proof.
  intros Ha Hb. rewrite (TransferTx_found _ _ _ _ _ _ _ _ Ha Hb).
  repeat match goal with
         | |- context [if ?c then _ else _] => destruct c
         end; reflexivity.
Qed.

Lemma lock_pair_sym (a b : string) (ra rb : AccountRow) :
  a <> b -> lock_pair a b ra rb = lock_pair b a rb ra.
Proof.
  intros N. unfold lock_pair.
  destruct (string_gt_total a b N) as [G|G].
  - rewrite G, (string_gt_asym _ _ G). reflexivity.
  - rewrite G, (string_gt_asym _ _ G). reflexivity.
Qed.

Lemma Transfer_insufficient db a b txid amount now ra rb :
  Ledger.find_account a (accounts db) = Some ra ->
  Ledger.find_account b (accounts db) = Some rb ->
  acc_balance ra < amount ->
  Ledger.Transfer db a b txid amount now = (Some "insufficient balance", db).
Proof.
  intros Ha Hb Hlt.
  assert (L : (acc_balance ra <? amount) = true) by (apply Z.ltb_lt; exact Hlt).
  rewrite Transfer_unfold.
  rewrite (TransferTx_found _ a b txid amount now ra rb) by assumption.
  rewrite L. reflexivity.
Qed.

(** C2.  When both identifiers resolve to account rows and the balance of
    the source row is below the requested amount, [Transfer] returns the
    error [insufficient balance] and the committed database is the one it
    started from: no ledger row, no balance and no version has changed.
    [TransferTx] returns the same error on every open transaction over that
    database and leaves its working copy as it found it. *)
Theorem C2_insufficient_balance_writes_nothing :
  forall (db : DB) (fromAccountID toAccountID transactionID : string) (amount now : Z)
         (src dst : AccountRow),
    Ledger.find_account fromAccountID (accounts db) = Some src ->
    Ledger.find_account toAccountID (accounts db) = Some dst ->
    acc_balance src < amount ->
    Ledger.Transfer db fromAccountID toAccountID transactionID amount now
    = (Some "insufficient balance", db)
    /\ (forall tx : Tx, tx_db tx = db ->
        fst (Ledger.TransferTx tx fromAccountID toAccountID transactionID amount now)
        = Some "insufficient balance"
        /\ tx_db (snd (Ledger.TransferTx tx fromAccountID toAccountID transactionID
                                         amount now)) = db).
Proof.
  intros db a b txid amount now ra rb Ha Hb Hlt.
  assert (L : (acc_balance ra <? amount) = true) by (apply Z.ltb_lt; exact Hlt).
  split.
  - exact (Transfer_insufficient db a b txid amount now ra rb Ha Hb Hlt).
  - intros tx <-. rewrite (TransferTx_found _ a b txid amount now ra rb) by assumption.
    rewrite L. split; reflexivity.
Qed.

Lemma lockInOrder_locks tx a b :
  tx_locks (snd (Ledger.lockInOrder tx a b))
  = tx_locks tx
    ++ locks_taken (accounts (tx_db tx))
         (if string_gt a b then b else a) (if string_gt a b then a else b).
Proof.
  unfold Ledger.lockInOrder, locks_taken, Ledger.lockAccount.
  destruct (string_gt a b).
  - destruct (Ledger.find_account b (accounts (tx_db tx))) as [rb|];
      [|simpl; rewrite app_nil_r; reflexivity].
    cbn [add_lock tx_db].
    destruct (Ledger.find_account a (accounts (tx_db tx))) as [ra|].
    + destruct (negb (String.eqb b a)); simpl; rewrite <- app_assoc; reflexivity.
    + reflexivity.
  - destruct (Ledger.find_account a (accounts (tx_db tx))) as [ra|];
      [|simpl; rewrite app_nil_r; reflexivity].
    cbn [add_lock tx_db].
    destruct (Ledger.find_account b (accounts (tx_db tx))) as [rb|].
    + destruct (negb (String.eqb a a)); simpl; rewrite <- app_assoc; reflexivity.
    + reflexivity.
Qed.

(** After the locking step [TransferTx] takes no further lock. *)
Lemma TransferTx_locks_eq tx a b txid amount now :
  tx_locks (snd (Ledger.TransferTx tx a b txid amount now))
  = tx_locks (snd (Ledger.lockInOrder tx a b)).
Proof.
  unfold Ledger.TransferTx.
  destruct (Ledger.lockInOrder tx a b) as [[[fa ta]|e] tx2]; [|reflexivity].
  destruct (Ledger.Balance fa <? amount); [reflexivity|].
  unfold Ledger.createLedgerEntry, Ledger.updateAccountBalance.
  repeat match goal with
         | |- context [if ?c then _ else _] => destruct c
         end; reflexivity.
Qed.

(** C6.  For two distinct identifiers [A] and [B], a transfer from [A] to
    [B] and a transfer from [B] to [A] take their row locks in the same
    order, the lexically smaller identifier first and the larger one only
    after it, whatever the amounts.  When both identifiers resolve, both
    rows are locked in that order, the pair handed on by the locking step
    names the row of the stated source first and the row of the stated
    destination second, and a transfer that succeeds debits the stated
    source and credits the stated destination. *)
Theorem C6_locks_in_one_global_order :
  forall (tx : Tx) (A B : string),
    A <> B ->
    let lo := if string_gt A B then B else A in
    let hi := if string_gt A B then A else B in
    string_gt hi lo = true
    /\ (forall txid amount now,
          tx_locks (snd (Ledger.TransferTx tx A B txid amount now))
          = tx_locks tx ++ locks_taken (accounts (tx_db tx)) lo hi)
    /\ (forall txid amount now,
          tx_locks (snd (Ledger.TransferTx tx B A txid amount now))
          = tx_locks tx ++ locks_taken (accounts (tx_db tx)) lo hi)
    /\ (forall ra rb : AccountRow,
          Ledger.find_account A (accounts (tx_db tx)) = Some ra ->
          Ledger.find_account B (accounts (tx_db tx)) = Some rb ->
          locks_taken (accounts (tx_db tx)) lo hi
          = [mkLockEvent lo (acc_id (if string_gt A B then rb else ra));
             mkLockEvent hi (acc_id (if string_gt A B then ra else rb))]
          /\ fst (Ledger.lockInOrder tx A B)
             = Ok (Ledger.account_of_row ra, Ledger.account_of_row rb)
          /\ fst (Ledger.lockInOrder tx B A)
             = Ok (Ledger.account_of_row rb, Ledger.account_of_row ra)
          /\ (forall txid amount now tx',
                Ledger.TransferTx tx A B txid amount now = (None, tx') ->
                ledger_entries (tx_db tx')
                = ledger_entries (tx_db tx)
                  ++ [debit_leg txid ra amount now; credit_leg txid rb amount now])
          /\ (forall txid amount now tx',
                Ledger.TransferTx tx B A txid amount now = (None, tx') ->
                ledger_entries (tx_db tx')
                = ledger_entries (tx_db tx)
                  ++ [debit_leg txid rb amount now; credit_leg txid ra amount now])).
Proof.
  intros tx A B N lo hi.
  assert (G : string_gt hi lo = true).
  { unfold hi, lo. destruct (string_gt_total A B N) as [G|G].
    - rewrite G. exact G.
    - rewrite (string_gt_asym _ _ G). exact G. }
  assert (Sym : (if string_gt B A then A else B) = lo
                /\ (if string_gt B A then B else A) = hi).
  { unfold lo, hi. destruct (string_gt_total A B N) as [G'|G'].
    - rewrite G', (string_gt_asym _ _ G'). split; reflexivity.
    - rewrite G', (string_gt_asym _ _ G'). split; reflexivity. }
  destruct Sym as [Slo Shi].
  split; [exact G|]. split.
  { intros. rewrite TransferTx_locks_eq, lockInOrder_locks. reflexivity. }
  split.
  { intros. rewrite TransferTx_locks_eq, lockInOrder_locks, Slo, Shi. reflexivity. }
  intros ra rb Ha Hb. split.
  { unfold locks_taken, lo, hi. destruct (string_gt A B); rewrite Ha, Hb; reflexivity. }
  split.
  { rewrite (lockInOrder_found _ _ _ _ _ Ha Hb). reflexivity. }
  split.
  { rewrite (lockInOrder_found _ _ _ _ _ Hb Ha). reflexivity. }
  split.
  - intros txid amount now tx' H.
    destruct (TransferTx_ok_inv _ _ _ _ _ _ _ H) as (ra' & rb' & Ha' & Hb' & _ & ->).
    rewrite Ha in Ha'. rewrite Hb in Hb'. inversion Ha'; inversion Hb'; subst.
    apply ledger_after_credit.
  - intros txid amount now tx' H.
    destruct (TransferTx_ok_inv _ _ _ _ _ _ _ H) as (rb' & ra' & Hb' & Ha' & _ & ->).
    rewrite Ha in Ha'. rewrite Hb in Hb'. inversion Ha'; inversion Hb'; subst.
    apply ledger_after_credit.
Qed.

(** *** The version-conditioned update *)

Lemma update_matches_self (r : AccountRow) :
  Ledger.update_matches (acc_id r) (acc_version r) r = true.
Proof. unfold Ledger.update_matches. rewrite String.eqb_refl, Z.eqb_refl. reflexivity. Qed.

Lemma update_row_no_match accountID newBalance version now (r : AccountRow) :
  Ledger.update_matches accountID version r = true ->
  Ledger.update_matches accountID version (Ledger.update_row newBalance now r) = false.
Proof.
  unfold Ledger.update_matches, Ledger.update_row. simpl.
  intros H. apply andb_true_iff in H as [_ H]. apply Z.eqb_eq in H.
  apply andb_false_iff. right. apply Z.eqb_neq. lia.
Qed.

Lemma rows_affected_In accountID version (rows : list AccountRow) (r : AccountRow) :
  In r rows -> Ledger.update_matches accountID version r = true ->
  Ledger.rows_affected accountID version rows <> 0%nat.
Proof.
  unfold Ledger.rows_affected. induction rows as [|x rows IH]; simpl; [tauto|].
  intros [->|Hin] M.
  - rewrite M. simpl. discriminate.
  - destruct (Ledger.update_matches accountID version x); simpl; [discriminate|].
    apply IH; assumption.
Qed.

Lemma rows_affected_found a (rows : list AccountRow) (r : AccountRow) :
  Ledger.find_account a rows = Some r ->
  Ledger.rows_affected (acc_id r) (acc_version r) rows <> 0%nat.
Proof.
  intros F. apply List.find_some in F as [Hin _].
  apply (rows_affected_In _ _ _ r Hin), update_matches_self.
Qed.

(** After the update no row carries the version it was conditioned on. *)
Lemma rows_affected_after_update accountID newBalance version now (rows : list AccountRow) :
  Ledger.rows_affected accountID version
    (Ledger.apply_update accountID newBalance version now rows) = 0%nat.
Proof.
  unfold Ledger.rows_affected, Ledger.apply_update.
  induction rows as [|x rows IH]; simpl; [reflexivity|].
  destruct (Ledger.update_matches accountID version x) eqn:M.
  - rewrite (update_row_no_match _ newBalance _ now _ M). exact IH.
  - rewrite M. exact IH.
Qed.

Lemma apply_update_none accountID newBalance version now (rows : list AccountRow) :
  Ledger.rows_affected accountID version rows = 0%nat ->
  Ledger.apply_update accountID newBalance version now rows = rows.
Proof.
  unfold Ledger.rows_affected, Ledger.apply_update.
  induction rows as [|x rows IH]; simpl; [reflexivity|].
  destruct (Ledger.update_matches accountID version x); simpl; [discriminate|].
  intros H. rewrite (IH H). reflexivity.
Qed.

Lemma apply_update_pointwise accountID newBalance version now (rows : list AccountRow) :
  Forall2 (updated_once accountID newBalance version) rows
          (Ledger.apply_update accountID newBalance version now rows).
Proof.
  unfold Ledger.apply_update.
  induction rows as [|x rows IH]; simpl; constructor; [|exact IH].
  unfold updated_once. destruct (Ledger.update_matches accountID version x).
  - simpl. repeat split; reflexivity.
  - reflexivity.
Qed.

Lemma set_accounts_same (tx : Tx) (f : list AccountRow -> list AccountRow) :
  f (accounts (tx_db tx)) = accounts (tx_db tx) -> set_accounts f tx = tx.
Proof.
  destruct tx as [[acs les pss trs cds] locks]. unfold set_accounts. simpl.
  intros ->. reflexivity.
Qed.

(** A transfer whose second update selects no row reports the optimistic
    lock error of the destination and commits nothing. *)
Lemma Transfer_second_update_conflict db a b txid amount now ra rb :
  Ledger.find_account a (accounts db) = Some ra ->
  Ledger.find_account b (accounts db) = Some rb ->
  amount <= acc_balance ra ->
  Ledger.rows_affected (acc_id rb) (acc_version rb)
    (Ledger.apply_update (acc_id ra) (sub64 (acc_balance ra) amount) (acc_version ra) now
       (accounts db)) = 0%nat ->
  Ledger.Transfer db a b txid amount now
  = (Some (String.append "optimistic lock failed for account " (acc_id rb)), db).
Proof.
  intros Ha Hb Hle Hz. rewrite Transfer_unfold.
  rewrite (TransferTx_found _ a b txid amount now ra rb) by assumption.
  assert (L : (acc_balance ra <? amount) = false) by (apply Z.ltb_ge; exact Hle).
  rewrite L.
  change (accounts (tx_db (set_payment_states
            (fun t => t ++ [mkPaymentState txid "PENDING" now]) (Begin db))))
    with (accounts db).
  destruct (Nat.eqb (Ledger.rows_affected (acc_id ra) (acc_version ra) (accounts db)) 0)
    eqn:E1.
  - apply Nat.eqb_eq in E1. exfalso. exact (rows_affected_found _ _ _ Ha E1).
  - change (accounts (tx_db (after_debit
              (set_payment_states (fun t => t ++ [mkPaymentState txid "PENDING" now])
                 (Begin db)) a b txid ra rb amount now)))
      with (Ledger.apply_update (acc_id ra) (sub64 (acc_balance ra) amount)
              (acc_version ra) now (accounts db)).
    rewrite Hz. reflexivity.
Qed.

(** C7.  A call of [updateAccountBalance] that returns [nil] has selected at
    least one row by identifier and by the version that was read, and has
    given each selected row the new balance and its version plus exactly
    one, leaving every other row alone.  A call whose [UPDATE] selects no
    row returns the optimistic lock error and changes nothing.  A transfer
    whose conditioned update selects no row returns that error, and a
    transfer that returns any error has committed nothing, so that no
    version is advanced except together with the balance written by the
    same update, in a transfer that commits. *)
Theorem C7_version_advances_once_with_the_balance :
  forall (tx : Tx) (accountID : string) (newBalance version now : Z),
    let outcome := Ledger.updateAccountBalance tx accountID newBalance version now in
    (fst outcome = None ->
     Ledger.rows_affected accountID version (accounts (tx_db tx)) <> 0%nat
     /\ Forall2 (updated_once accountID newBalance version)
                (accounts (tx_db tx)) (accounts (tx_db (snd outcome))))
    /\ (Ledger.rows_affected accountID version (accounts (tx_db tx)) = 0%nat ->
        outcome
        = (Some (String.append "optimistic lock failed for account " accountID), tx))
    /\ (forall (db : DB) (a b txid : string) (amount : Z) (ra rb : AccountRow),
          Ledger.find_account a (accounts db) = Some ra ->
          Ledger.find_account b (accounts db) = Some rb ->
          amount <= acc_balance ra ->
          Ledger.rows_affected (acc_id rb) (acc_version rb)
            (Ledger.apply_update (acc_id ra) (sub64 (acc_balance ra) amount)
               (acc_version ra) now (accounts db)) = 0%nat ->
          Ledger.Transfer db a b txid amount now
          = (Some (String.append "optimistic lock failed for account " (acc_id rb)), db))
    /\ (forall (db db' : DB) (a b txid : string) (amount : Z) (e : error),
          Ledger.Transfer db a b txid amount now = (Some e, db') -> db' = db).
Proof.
  intros tx accountID newBalance version now outcome.
  unfold outcome, Ledger.updateAccountBalance.
  split; [|split; [|split]].
  - destruct (Nat.eqb (Ledger.rows_affected accountID version (accounts (tx_db tx))) 0)
      eqn:E; simpl; [discriminate|].
    intros _. split.
    + apply Nat.eqb_neq. exact E.
    + apply apply_update_pointwise.
  - intros Hz. rewrite Hz. simpl.
    rewrite set_accounts_same by (apply apply_update_none; exact Hz). reflexivity.
  - intros db a b txid amount ra rb Ha Hb Hle Hz.
    exact (Transfer_second_update_conflict db a b txid amount now ra rb Ha Hb Hle Hz).
  - intros db db' a b txid amount e H.
    exact (Transfer_error_rolls_back _ _ _ _ _ _ _ _ H).
Qed.

(** C10.  A transfer from an existing account to itself, for an amount its
    balance covers, always returns the optimistic lock error and commits
    nothing: the first update selects the row, after it no row carries the
    version that was read, and the second update selects none.  Whatever
    the identifier and the amount, a transfer from an account to itself
    returns an error and leaves the committed database as it was. *)
Theorem C10_self_transfer_always_fails :
  forall (db : DB) (a txid : string) (m now : Z) (r : AccountRow),
    Ledger.find_account a (accounts db) = Some r ->
    m <= acc_balance r ->
    Ledger.Transfer db a a txid m now
    = (Some (String.append "optimistic lock failed for account " (acc_id r)), db)
    /\ Ledger.rows_affected (acc_id r) (acc_version r) (accounts db) <> 0%nat
    /\ Ledger.rows_affected (acc_id r) (acc_version r)
         (Ledger.apply_update (acc_id r) (sub64 (acc_balance r) m) (acc_version r) now
            (accounts db)) = 0%nat
    /\ (forall (a' txid' : string) (m' : Z),
          exists e : error, Ledger.Transfer db a' a' txid' m' now = (Some e, db)).
Proof.
  intros db a txid m now r F Hle.
  split; [|split; [|split]].
  - apply (Transfer_second_update_conflict db a a txid m now r r F F Hle).
    apply rows_affected_after_update.
  - exact (rows_affected_found _ _ _ F).
  - apply rows_affected_after_update.
  - intros a' txid' m'.
    destruct (Ledger.find_account a' (accounts db)) as [r'|] eqn:F'.
    + destruct (Z.lt_ge_cases (acc_balance r') m') as [Hlt|Hge].
      * exists "insufficient balance".
        exact (Transfer_insufficient db a' a' txid' m' now r' r' F' F' Hlt).
      * eexists.
        apply (Transfer_second_update_conflict db a' a' txid' m' now r' r' F' F' Hge).
        apply rows_affected_after_update.
    + exists ErrNoRows. rewrite Transfer_unfold.
      unfold Ledger.TransferTx, Ledger.lockInOrder.
      destruct (string_gt a' a'); rewrite lockAccount_missing by exact F'; reflexivity.
Qed.

(** ** The transaction service *)

Section ServiceFacts.

Import TxService.

Variable hmac_sha256 : list byte -> list byte -> list byte.

Lemma hexEncode_nonempty (bs : list byte) : bs <> [] -> hexEncode bs <> EmptyString.
Proof. destruct bs as [|b bs]; [congruence|]. simpl. discriminate. Qed.

Lemma signed_signature_nonempty cak tx :
  mac_length hmac_sha256 -> Signature (signed hmac_sha256 cak tx) <> EmptyString.
Proof.
  intros L. unfold signed. simpl. apply hexEncode_nonempty.
  intros E. specialize (L cak (serializeTransaction tx)). rewrite E in L. discriminate.
Qed.

(** Apart from the comparison in [verifySignature], the checks read the
    signature only to see that it is not empty. *)
Lemma ValidateStruct_signature tx s :
  Signature tx <> EmptyString -> s <> EmptyString ->
  ValidateStruct tx = ValidateStruct (with_signature tx s).
Proof.
  destruct tx; simpl. unfold ValidateStruct; simpl.
  destruct Signature0; [congruence|]. destruct s; [congruence|]. reflexivity.
Qed.

Lemma validateTransaction_signature db tx s now :
  Signature tx <> EmptyString -> s <> EmptyString ->
  validateTransaction db tx now = validateTransaction db (with_signature tx s) now.
Proof.
  destruct tx; simpl. unfold validateTransaction; simpl.
  destruct Signature0; [congruence|]. destruct s; [congruence|]. reflexivity.
Qed.

Lemma serializeTransaction_signature tx s :
  serializeTransaction (with_signature tx s) = serializeTransaction tx.
Proof. reflexivity. Qed.

Lemma verifySignature_signed db tx cak :
  getCardAuthKey db (CardID tx) = Ok cak ->
  verifySignature hmac_sha256 db (signed hmac_sha256 cak tx) = None.
Proof.
  intros K. unfold verifySignature, signed. simpl. rewrite K.
  rewrite serializeTransaction_signature, String.eqb_refl. reflexivity.
Qed.

Lemma existing_status_none_insert db txID row :
  existing_status db txID = None ->
  tr_transaction_id row = txID ->
  insert_transaction row (transactions db) = Ok (transactions db ++ [row]).
Proof.
  unfold existing_status, insert_transaction. intros F <-.
  destruct (List.find _ (transactions db)) as [r|] eqn:E; [discriminate|].
  destruct (List.existsb _ (transactions db)) eqn:X; [|reflexivity].
  apply List.existsb_exists in X as (r & Hin & Heq).
  pose proof (List.find_none _ _ E r Hin) as C. simpl in C. congruence.
Qed.

Lemma existing_status_some_insert db txID status row :
  existing_status db txID = Some status ->
  tr_transaction_id row = txID ->
  insert_transaction row (transactions db)
  = Err "pq: duplicate key value violates unique constraint".
Proof.
  unfold existing_status, insert_transaction. intros F <-.
  destruct (List.find _ (transactions db)) as [r|] eqn:E; [|discriminate].
  apply List.find_some in E as [Hin Heq].
  assert (X : List.existsb
                (fun r0 => String.eqb (tr_transaction_id r0) (tr_transaction_id row))
                (transactions db) = true).
  { apply List.existsb_exists. exists r. split; assumption. }
  rewrite X. reflexivity.
Qed.

(** The single path short-circuits on a recorded identifier. *)
Lemma CreateTransaction_recorded st tx now status :
  ValidateStruct tx = true ->
  existing_status (st_db st) (TxID tx) = Some status ->
  CreateTransaction hmac_sha256 st tx now
  = (AlreadyProcessed (String.eqb status "COMPLETED") tx, st).
Proof.
  intros V E. unfold CreateTransaction. rewrite V, E. reflexivity.
Qed.

(** The path of [CreateTransaction] on which every check passes. *)
Lemma CreateTransaction_created st tx now cak ra rb :
  mac_length hmac_sha256 ->
  ValidateStruct (with_signature tx "s") = true ->
  existing_status (st_db st) (TxID tx) = None ->
  validateTransaction (st_db st) (with_signature tx "s") now = None ->
  getCardAuthKey (st_db st) (CardID tx) = Ok cak ->
  Ledger.find_account (CardID tx) (accounts (st_db st)) = Some ra ->
  Ledger.find_account (MerchantID tx) (accounts (st_db st)) = Some rb ->
  Amount tx <= acc_balance ra ->
  Ledger.rows_affected (acc_id rb) (acc_version rb)
    (Ledger.apply_update (acc_id ra) (sub64 (acc_balance ra) (Amount tx))
       (acc_version ra) now (accounts (st_db st))) <> 0%nat ->
  CreateTransaction hmac_sha256 st (signed hmac_sha256 cak tx) now
  = let tx' := with_status (signed hmac_sha256 cak tx) "COMPLETED" now in
    (Created tx',
     mkStore (db_after_create (st_db st) tx' ra rb now) (st_settlement_queue st ++ [tx'])).
Proof.
  intros L V E VT K Fa Fb Hle Hrows.
  pose proof (signed_signature_nonempty cak tx L) as NE.
  assert (S : "s" <> EmptyString) by discriminate.
  unfold CreateTransaction.
  rewrite (ValidateStruct_signature _ "s" NE S).
  change (with_signature (signed hmac_sha256 cak tx) "s") with (with_signature tx "s").
  rewrite V. cbn [negb].
  change (TxID (signed hmac_sha256 cak tx)) with (TxID tx). rewrite E.
  rewrite (validateTransaction_signature _ _ "s" _ NE S).
  change (with_signature (signed hmac_sha256 cak tx) "s") with (with_signature tx "s").
  rewrite VT. rewrite (verifySignature_signed _ _ _ K).
  unfold processLedgerTransferTx.
  change (CardID (signed hmac_sha256 cak tx)) with (CardID tx).
  change (MerchantID (signed hmac_sha256 cak tx)) with (MerchantID tx).
  change (Amount (signed hmac_sha256 cak tx)) with (Amount tx).
  change (TxID (signed hmac_sha256 cak tx)) with (TxID tx).
  rewrite (TransferTx_found (Begin (st_db st)) _ _ (TxID tx) (Amount tx) now ra rb Fa Fb).
  assert (B : (acc_balance ra <? Amount tx) = false) by (apply Z.ltb_ge; exact Hle).
  rewrite B.
  change (accounts (tx_db (Begin (st_db st)))) with (accounts (st_db st)).
  destruct (Nat.eqb (Ledger.rows_affected (acc_id ra) (acc_version ra)
                       (accounts (st_db st))) 0) eqn:E1.
  { apply Nat.eqb_eq in E1. exfalso. exact (rows_affected_found _ _ _ Fa E1). }
  change (accounts (tx_db (after_debit (Begin (st_db st)) (CardID tx) (MerchantID tx)
                             (TxID tx) ra rb (Amount tx) now)))
    with (Ledger.apply_update (acc_id ra) (sub64 (acc_balance ra) (Amount tx))
            (acc_version ra) now (accounts (st_db st))).
  apply Nat.eqb_neq in Hrows. rewrite Hrows.
  unfold storeTransactionTx.
  change (transactions (tx_db (after_credit (Begin (st_db st)) (CardID tx) (MerchantID tx)
                                 (TxID tx) ra rb (Amount tx) now)))
    with (transactions (st_db st)).
  rewrite (existing_status_none_insert (st_db st) (TxID tx)) by (exact E || reflexivity).
  cbv zeta. unfold queueForSettlement, Commit, db_after_create. simpl.
  rewrite <- app_assoc. reflexivity.
Qed.

End ServiceFacts.

(** *** Double spending *)

Lemma max_counter_bound cardID (rows : list TransactionRow) (r : TransactionRow) c :
  In r rows -> tr_card_id r = Some cardID -> tr_counter r = Some c ->
  exists m, TxService.max_counter cardID rows = Some m /\ c <= m.
Proof.
  induction rows as [|x rows IH]; simpl; [tauto|].
  intros [->|Hin] Hc Hn.
  - rewrite Hc. simpl. rewrite String.eqb_refl, Hn.
    destruct (TxService.max_counter cardID rows) as [m|]; eexists; split;
      try reflexivity; lia.
  - destruct (IH Hin Hc Hn) as (m & -> & Hle).
    destruct (col_eq (tr_card_id x) cardID); [|eauto].
    destruct (tr_counter x) as [c'|]; eexists; split; try reflexivity; lia.
Qed.

(** What [checkDoubleSpending] enforces against the rows it can see: a
    request it lets through has a counter above every counter recorded for
    its card. *)
Lemma checkDoubleSpending_accepts_only_fresh db tx (r : TransactionRow) c :
  TxService.checkDoubleSpending db tx = None ->
  In r (transactions db) ->
  tr_card_id r = Some (TxService.CardID tx) -> tr_counter r = Some c ->
  c < TxService.Counter tx.
Proof.
  unfold TxService.checkDoubleSpending. intros H Hin Hc Hn.
  destruct (List.existsb _ (transactions db)); [discriminate|].
  destruct (max_counter_bound _ _ _ _ Hin Hc Hn) as (m & Hm & Hle).
  rewrite Hm in H.
  destruct ((m <? 0) || (2 ^ 32 <=? m)); [discriminate|].
  destruct (TxService.Counter tx <=? m) eqn:E; [discriminate|].
  apply Z.leb_gt in E. lia.
Qed.

(** The rows [storeTransaction] writes carry neither [card_id] nor
    [counter]: they never make [checkDoubleSpending] refuse a request. *)
Lemma checkDoubleSpending_blind_to_stored db tx tx0 :
  TxService.checkDoubleSpending
    (mkDB (accounts db) (ledger_entries db) (payment_states db)
          (transactions db ++ [TxService.transaction_row tx0]) (cards db)) tx
  = TxService.checkDoubleSpending db tx.
Proof.
  unfold TxService.checkDoubleSpending. simpl.
  rewrite List.existsb_app. simpl. rewrite !orb_false_r.
  assert (M : forall rows,
             TxService.max_counter (TxService.CardID tx)
               (rows ++ [TxService.transaction_row tx0])
             = TxService.max_counter (TxService.CardID tx) rows).
  { induction rows as [|x rows IH]; simpl; [reflexivity|]. rewrite IH. reflexivity. }
  rewrite M. reflexivity.
Qed.

(** *** The single path on the sample store *)

(** Discharges the side conditions of [CreateTransaction_created] on
    concrete data. *)
Ltac concrete :=
  first [ reflexivity
        | discriminate
        | vm_compute; first [reflexivity | discriminate | congruence] ].

Ltac run_create L :=
  erewrite (CreateTransaction_created _ _ _ _ _ _ _ L);
  [ | concrete .. ].

(** C4.  [CreateTransaction] never consults the counters on record.  On the
    sample store three correctly signed requests of card [X] are submitted
    one after the other through the single path: the first two carry the
    same counter 7 under different identifiers, the third the lower counter
    3.  Each is answered [Created], and [X] is debited three times. *)
Theorem C4_single_path_accepts_a_reused_counter :
  forall hmac_sha256 : list byte -> list byte -> list byte,
    mac_length hmac_sha256 ->
    let tx1 := signed hmac_sha256 sample_cak (request "TX1" sample_now 1000 7) in
    let tx2 := signed hmac_sha256 sample_cak (request "TX2" sample_now 1000 7) in
    let tx3 := signed hmac_sha256 sample_cak (request "TX3" sample_now 1000 3) in
    let out1 := TxService.CreateTransaction hmac_sha256 sample_store tx1 sample_now in
    let out2 := TxService.CreateTransaction hmac_sha256 (snd out1) tx2 sample_now in
    let out3 := TxService.CreateTransaction hmac_sha256 (snd out2) tx3 sample_now in
    fst out1 = TxService.Created (TxService.with_status tx1 "COMPLETED" sample_now)
    /\ fst out2 = TxService.Created (TxService.with_status tx2 "COMPLETED" sample_now)
    /\ fst out3 = TxService.Created (TxService.with_status tx3 "COMPLETED" sample_now)
    /\ List.map le_amount (ledger_entries (TxService.st_db (snd out3)))
       = [-1000; 1000; -1000; 1000; -1000; 1000]
    /\ List.map acc_balance (accounts (TxService.st_db (snd out3))) = [2000; 5000].
Proof.
  intros hmac_sha256 L tx1 tx2 tx3 out1 out2 out3.
  subst out3 out2 out1 tx1 tx2 tx3.
  run_create L. cbv zeta. cbn [snd fst].
  run_create L. cbv zeta. cbn [snd fst].
  run_create L. cbv zeta. cbn [snd fst].
  repeat split; vm_compute; reflexivity.
Qed.

(** *** The batch path *)

Section BatchFacts.

Import TxService.

Variable hmac_sha256 : list byte -> list byte -> list byte.

(** One turn of the loop on an item that passes every check and whose
    identifier is already on record once its transfer has committed: the
    transfer stays committed and the item is reported as failed. *)
Lemma batchLoop_storage_failed db tx rest processed failed now cak db1 status :
  mac_length hmac_sha256 ->
  validateTransaction db (with_signature tx "s") now = None ->
  getCardAuthKey db (CardID tx) = Ok cak ->
  checkDoubleSpending db (with_signature tx "s") = None ->
  Ledger.Transfer db (CardID tx) (MerchantID tx) (TxID tx) (Amount tx) now = (None, db1) ->
  existing_status db1 (TxID tx) = Some status ->
  batchLoop hmac_sha256 db (signed hmac_sha256 cak tx :: rest) processed failed now
  = batchLoop hmac_sha256 db1 rest processed
      (failed ++ [mkFailedItem (TxID tx) "Storage failed"]) now.
Proof.
  intros L VT K D T E.
  pose proof (signed_signature_nonempty hmac_sha256 cak tx L) as NE.
  assert (S : "s" <> EmptyString) by discriminate.
  cbn [batchLoop].
  rewrite (validateTransaction_signature _ _ "s" _ NE S).
  change (with_signature (signed hmac_sha256 cak tx) "s") with (with_signature tx "s").
  rewrite VT, (verifySignature_signed _ _ _ _ K).
  change (checkDoubleSpending db (signed hmac_sha256 cak tx))
    with (checkDoubleSpending db (with_signature tx "s")).
  rewrite D. unfold processLedgerTransfer.
  change (CardID (signed hmac_sha256 cak tx)) with (CardID tx).
  change (MerchantID (signed hmac_sha256 cak tx)) with (MerchantID tx).
  change (Amount (signed hmac_sha256 cak tx)) with (Amount tx).
  change (TxID (signed hmac_sha256 cak tx)) with (TxID tx).
  rewrite T. unfold storeTransaction.
  rewrite (existing_status_some_insert db1 (TxID tx) status) by (exact E || reflexivity).
  reflexivity.
Qed.

End BatchFacts.

Section BatchLoop.

Import TxService.

Variable hmac_sha256 : list byte -> list byte -> list byte.

Lemma processed_from_cons tx rest now p :
  processed_from rest now p -> processed_from (tx :: rest) now p.
Proof. intros (t & Hin & E). exists t. split; [right; exact Hin | exact E]. Qed.

Lemma failed_from_cons tx rest now f :
  failed_from rest now f -> failed_from (tx :: rest) now f.
Proof.
  intros (t & Hin & E & R). exists t. split; [right; exact Hin|]. split; assumption.
Qed.

(** The item at the head of the slice ends in [failed]. *)
Lemma partition_failed_head tx rest now (P P1 : list Transaction)
    (F F1 : list FailedItem) (reason : string) (P' : list Transaction)
    (F' : list FailedItem) :
  failed_from (tx :: rest) now (mkFailedItem (TxID tx) reason) ->
  (P' = P ++ P1 /\ F' = (F ++ [mkFailedItem (TxID tx) reason]) ++ F1
   /\ List.length rest = (List.length P1 + List.length F1)%nat
   /\ Permutation (List.map TxID rest) (List.map TxID P1 ++ List.map fi_txId F1)
   /\ Forall (processed_from rest now) P1 /\ Forall (failed_from rest now) F1) ->
  exists P2 F2,
    P' = P ++ P2 /\ F' = F ++ F2
    /\ List.length (tx :: rest) = (List.length P2 + List.length F2)%nat
    /\ Permutation (List.map TxID (tx :: rest)) (List.map TxID P2 ++ List.map fi_txId F2)
    /\ Forall (processed_from (tx :: rest) now) P2
    /\ Forall (failed_from (tx :: rest) now) F2.
Proof.
  intros R (EP & EF & Hlen & Hperm & HP & HF).
  exists P1, (mkFailedItem (TxID tx) reason :: F1).
  split; [exact EP|]. split; [rewrite EF, <- app_assoc; reflexivity|].
  split; [simpl; lia|]. split.
  { simpl. apply Permutation_cons_app. exact Hperm. }
  split.
  - eapply List.Forall_impl; [|exact HP]. intros p. apply processed_from_cons.
  - constructor; [exact R|].
    eapply List.Forall_impl; [|exact HF]. intros f. apply failed_from_cons.
Qed.

Lemma failed_step tx rest now reason :
  In reason ["Signature verification failed"; "Double spending detected";
             "Transfer failed"; "Storage failed"] ->
  failed_from (tx :: rest) now (mkFailedItem (TxID tx) reason).
Proof.
  intros R. exists tx. split; [left; reflexivity|]. split; [reflexivity|].
  left. exact R.
Qed.

(** Every item of the slice is appended to exactly one of the two lists. *)
Lemma batchLoop_partition now (txs : list Transaction) :
  forall db P F db' P' F',
    batchLoop hmac_sha256 db txs P F now = (db', P', F') ->
    exists P1 F1,
      P' = P ++ P1 /\ F' = F ++ F1
      /\ List.length txs = (List.length P1 + List.length F1)%nat
      /\ Permutation (List.map TxID txs) (List.map TxID P1 ++ List.map fi_txId F1)
      /\ Forall (processed_from txs now) P1
      /\ Forall (failed_from txs now) F1.
Proof.
  induction txs as [|tx rest IH]; intros db P F db' P' F' H.
  - simpl in H. inversion H; subst. exists [], [].
    rewrite !app_nil_r. repeat split; constructor.
  - cbn [batchLoop] in H.
    destruct (validateTransaction db tx now) as [e|] eqn:V.
    { apply IH in H as (P1 & F1 & H).
      apply (partition_failed_head tx rest now P P1 F F1 e); [|exact H].
      exists tx. split; [left; reflexivity|]. split; [reflexivity|].
      right. exists db. exact V. }
    destruct (verifySignature hmac_sha256 db tx) as [e|].
    { apply IH in H as (P1 & F1 & H).
      eapply (partition_failed_head tx rest now P P1 F F1 _ P' F'); [|exact H].
      apply failed_step. simpl. tauto. }
    destruct (checkDoubleSpending db tx) as [e|].
    { apply IH in H as (P1 & F1 & H).
      eapply (partition_failed_head tx rest now P P1 F F1 _ P' F'); [|exact H].
      apply failed_step. simpl. tauto. }
    destruct (processLedgerTransfer db tx now) as [[e|] db1].
    { apply IH in H as (P1 & F1 & H).
      eapply (partition_failed_head tx rest now P P1 F F1 _ P' F'); [|exact H].
      apply failed_step. simpl. tauto. }
    destruct (storeTransaction db1 tx now) as [[[e|] tx'] db2] eqn:ST.
    { apply IH in H as (P1 & F1 & H).
      eapply (partition_failed_head tx rest now P P1 F F1 _ P' F'); [|exact H].
      apply failed_step. simpl. tauto. }
    assert (Etx : tx' = with_status tx "COMPLETED" now).
    { unfold storeTransaction in ST.
      destruct (insert_transaction _ (transactions db1)); inversion ST; reflexivity. }
    apply IH in H as (P1 & F1 & EP & EF & Hlen & Hperm & HP & HF).
    exists (tx' :: P1), F1.
    split; [rewrite EP, <- app_assoc; reflexivity|]. split; [exact EF|].
    split; [simpl; lia|]. split.
    { simpl. rewrite Etx. simpl. apply perm_skip. exact Hperm. }
    split.
    + constructor.
      * exists tx. split; [left; reflexivity | exact Etx].
      * eapply List.Forall_impl; [|exact HP]. intros p. apply processed_from_cons.
    + eapply List.Forall_impl; [|exact HF]. intros f. apply failed_from_cons.
Qed.

(** Whatever happened to the items of [xs], the loop goes on with [ys]. *)
Lemma batchLoop_app now (xs ys : list Transaction) :
  forall db P F,
    batchLoop hmac_sha256 db (xs ++ ys) P F now
    = let '(db1, P1, F1) := batchLoop hmac_sha256 db xs P F now in
      batchLoop hmac_sha256 db1 ys P1 F1 now.
Proof.
  induction xs as [|tx rest IH]; intros db P F; [reflexivity|].
  cbn [batchLoop app].
  destruct (validateTransaction db tx now); [apply IH|].
  destruct (verifySignature hmac_sha256 db tx); [apply IH|].
  destruct (checkDoubleSpending db tx); [apply IH|].
  destruct (processLedgerTransfer db tx now) as [[e|] db1]; [apply IH|].
  destruct (storeTransaction db1 tx now) as [[[e|] tx'] db2]; apply IH.
Qed.

(** The two lists the loop has collected so far play no part in what it
    does with the items that follow. *)
Lemma batchLoop_acc now (txs : list Transaction) :
  forall db P F,
    batchLoop hmac_sha256 db txs P F now
    = let '(db', P1, F1) := batchLoop hmac_sha256 db txs [] [] now in
      (db', P ++ P1, F ++ F1).
Proof.
  induction txs as [|tx rest IH]; intros db P F.
  - simpl. rewrite !app_nil_r. reflexivity.
  - assert (Fail : forall f,
               batchLoop hmac_sha256 db rest P (F ++ [f]) now
               = let '(db', P1, F1) := batchLoop hmac_sha256 db rest [] ([] ++ [f]) now in
                 (db', P ++ P1, F ++ F1)).
    { intros f. rewrite (IH db P (F ++ [f])), (IH db [] ([] ++ [f])).
      destruct (batchLoop hmac_sha256 db rest [] [] now) as [[d p] q].
      simpl. rewrite <- app_assoc. reflexivity. }
    cbn [batchLoop].
    destruct (validateTransaction db tx now); [apply Fail|].
    destruct (verifySignature hmac_sha256 db tx); [apply Fail|].
    destruct (checkDoubleSpending db tx); [apply Fail|].
    destruct (processLedgerTransfer db tx now) as [[e|] db1].
    { rewrite (IH db1 P (F ++ [_])), (IH db1 [] ([] ++ [_])).
      destruct (batchLoop hmac_sha256 db1 rest [] [] now) as [[d p] q].
      simpl. rewrite <- app_assoc. reflexivity. }
    destruct (storeTransaction db1 tx now) as [[[e|] tx'] db2].
    + rewrite (IH db2 P (F ++ [_])), (IH db2 [] ([] ++ [_])).
      destruct (batchLoop hmac_sha256 db2 rest [] [] now) as [[d p] q].
      simpl. rewrite <- app_assoc. reflexivity.
    + rewrite (IH db2 (P ++ [tx']) F), (IH db2 ([] ++ [tx']) []).
      destruct (batchLoop hmac_sha256 db2 rest [] [] now) as [[d p] q].
      simpl. rewrite <- app_assoc. reflexivity.
Qed.

(** The answer for a request is the answer for its first items followed by
    the answer the remaining items get, on their own, on the database the
    first items left. *)
Lemma batchLoop_split now (xs ys : list Transaction) db :
  batchLoop hmac_sha256 db (xs ++ ys) [] [] now
  = let '(db1, P1, F1) := batchLoop hmac_sha256 db xs [] [] now in
    let '(db2, P2, F2) := batchLoop hmac_sha256 db1 ys [] [] now in
    (db2, P1 ++ P2, F1 ++ F2).
Proof.
  rewrite batchLoop_app.
  destruct (batchLoop hmac_sha256 db xs [] [] now) as [[db1 P1] F1].
  apply batchLoop_acc.
Qed.

(** What the loop does with one item. *)
Lemma batchLoop_one db tx now :
  let '(db2, P2, F2) := batchLoop hmac_sha256 db [tx] [] [] now in
  (item_passes hmac_sha256 db tx now ->
   P2 = [with_status tx "COMPLETED" now] /\ F2 = [])
  /\ (forall e, validateTransaction db tx now = Some e ->
                db2 = db /\ P2 = [] /\ F2 = [mkFailedItem (TxID tx) e])
  /\ (validateTransaction db tx now = None ->
      verifySignature hmac_sha256 db tx <> None ->
      db2 = db /\ P2 = []
      /\ F2 = [mkFailedItem (TxID tx) "Signature verification failed"])
  /\ (validateTransaction db tx now = None ->
      verifySignature hmac_sha256 db tx = None ->
      checkDoubleSpending db tx <> None ->
      db2 = db /\ P2 = [] /\ F2 = [mkFailedItem (TxID tx) "Double spending detected"])
  /\ (validateTransaction db tx now = None ->
      verifySignature hmac_sha256 db tx = None ->
      checkDoubleSpending db tx = None ->
      fst (Ledger.Transfer db (CardID tx) (MerchantID tx) (TxID tx) (Amount tx) now)
      <> None ->
      db2 = db /\ P2 = [] /\ F2 = [mkFailedItem (TxID tx) "Transfer failed"])
  /\ (validateTransaction db tx now = None ->
      verifySignature hmac_sha256 db tx = None ->
      checkDoubleSpending db tx = None ->
      fst (Ledger.Transfer db (CardID tx) (MerchantID tx) (TxID tx) (Amount tx) now)
      = None ->
      existing_status db (TxID tx) <> None ->
      db2 = snd (Ledger.Transfer db (CardID tx) (MerchantID tx) (TxID tx) (Amount tx) now)
      /\ P2 = [] /\ F2 = [mkFailedItem (TxID tx) "Storage failed"]).
Proof.
  unfold item_passes. cbn [batchLoop].
  destruct (validateTransaction db tx now) as [e|] eqn:V.
  { simpl. repeat split; try congruence; intros; intuition congruence. }
  destruct (verifySignature hmac_sha256 db tx) as [e|] eqn:S.
  { simpl. repeat split; try congruence; intros; intuition congruence. }
  destruct (checkDoubleSpending db tx) as [e|] eqn:D.
  { simpl. repeat split; try congruence; intros; intuition congruence. }
  unfold processLedgerTransfer.
  destruct (Ledger.Transfer db (CardID tx) (MerchantID tx) (TxID tx) (Amount tx) now)
    as [[e|] db1] eqn:T.
  { apply Transfer_error_rolls_back in T. subst db1.
    simpl. repeat split; try congruence; intros; intuition congruence. }
  destruct (Transfer_ok_inv _ _ _ _ _ _ _ T) as (ra & rb & _ & _ & _ & E1).
  assert (Ht : transactions db1 = transactions db) by (subst db1; reflexivity).
  assert (Hs : existing_status db1 (TxID tx) = existing_status db (TxID tx)).
  { unfold existing_status. rewrite Ht. reflexivity. }
  clear E1. unfold storeTransaction.
  destruct (existing_status db (TxID tx)) as [status|] eqn:X.
  - rewrite (existing_status_some_insert db1 (TxID tx) status)
      by (rewrite ?Hs; reflexivity).
    simpl. repeat split; try congruence; intros; intuition congruence.
  - rewrite (existing_status_none_insert db1 (TxID tx)) by (rewrite ?Hs; reflexivity).
    simpl. repeat split; try congruence; intros; intuition congruence.
Qed.

End BatchLoop.

(** C3.  The batch path has no lookup of the transaction identifier.  On the
    sample store a correctly signed request is first submitted through
    [CreateTransaction], which records it as [COMPLETED]; submitting it
    again through [CreateTransaction] is answered from the record and
    changes nothing, but submitting it again through [BatchTransactions]
    runs the transfer a second time: the ledger then holds four rows under
    the identifier, [X] has been debited twice, and the item is reported as
    failed with [Storage failed] instead of the recorded outcome. *)
Theorem C3_batch_path_repeats_a_recorded_transaction :
  forall hmac_sha256 : list byte -> list byte -> list byte,
    mac_length hmac_sha256 ->
    let tx := signed hmac_sha256 sample_cak (request "TX1" sample_now 1000 1) in
    let out1 := TxService.CreateTransaction hmac_sha256 sample_store tx sample_now in
    let again := TxService.CreateTransaction hmac_sha256 (snd out1) tx sample_now in
    let batch := TxService.BatchTransactions hmac_sha256 (snd out1) [tx] sample_now in
    fst out1 = TxService.Created (TxService.with_status tx "COMPLETED" sample_now)
    /\ TxService.existing_status (TxService.st_db (snd out1)) "TX1" = Some "COMPLETED"
    /\ List.map acc_balance (accounts (TxService.st_db (snd out1))) = [4000; 3000]
    /\ again = (TxService.AlreadyProcessed true tx, snd out1)
    /\ fst batch
       = TxService.BatchResult [] [TxService.mkFailedItem "TX1" "Storage failed"]
                               (TxService.mkSummary 1 0 1)
    /\ List.map le_amount
         (entries_of "TX1" (ledger_entries (TxService.st_db (snd batch))))
       = [-1000; 1000; -1000; 1000]
    /\ List.map acc_balance (accounts (TxService.st_db (snd batch))) = [3000; 4000].
Proof.
  intros hmac_sha256 L tx out1 again batch.
  pose proof (signed_signature_nonempty hmac_sha256 sample_cak
                (request "TX1" sample_now 1000 1) L) as NE.
  assert (S : "s" <> EmptyString) by discriminate.
  subst batch again out1 tx.
  run_create L. cbv zeta. cbn [snd fst].
  split; [reflexivity|]. split; [reflexivity|]. split; [vm_compute; reflexivity|].
  split.
  { rewrite (CreateTransaction_recorded hmac_sha256 _ _ _ "COMPLETED");
      [reflexivity| |reflexivity].
    rewrite (ValidateStruct_signature _ "s" NE S). reflexivity. }
  unfold TxService.BatchTransactions. cbn [List.length Nat.eqb Nat.ltb Nat.leb].
  cbn [TxService.st_db].
  erewrite (batchLoop_storage_failed hmac_sha256 _ _ _ _ _ _ _ _ _ L);
    [ | concrete .. ].
  cbn [TxService.batchLoop app List.length fst snd TxService.st_db].
  repeat split; vm_compute; reflexivity.
Qed.

(** *** The freshness window *)

(** The window [validateTransaction] enforces, on every path that calls it:
    a request it accepts is at most 60 seconds ahead of the clock and at
    most 7 days behind it. *)
Lemma validateTransaction_window db tx now :
  TxService.validateTransaction db tx now = None ->
  now - 604800 <= TxService.Timestamp tx <= now + 60.
Proof.
  unfold TxService.validateTransaction. intros H.
  repeat match type of H with
         | (if ?c then _ else _) = None => destruct c eqn:?; [discriminate|]
         | match ?c with Some _ => _ | None => _ end = None =>
           destruct c eqn:?; [discriminate|]
         end.
  repeat match goal with
         | E : (_ <? _) = false |- _ => apply Z.ltb_ge in E
         end.
  lia.
Qed.

(** Inside that window the timestamp does not matter. *)
Lemma validateTransaction_any_timestamp db tx now ts :
  TxService.validateTransaction db tx now = None ->
  now - 604800 <= ts <= now + 60 ->
  TxService.validateTransaction db (TxService.with_timestamp tx ts) now = None.
Proof.
  unfold TxService.validateTransaction. intros H W.
  cbn [TxService.with_timestamp TxService.TxID TxService.CardID TxService.MerchantID
       TxService.Amount TxService.TxType TxService.Currency TxService.Counter
       TxService.Signature TxService.Timestamp].
  repeat match type of H with
         | (if ?c then _ else _) = None => destruct c eqn:?; [discriminate|]
         | match ?c with Some _ => _ | None => _ end = None =>
           destruct c eqn:?; [discriminate|]
         end.
  assert (E1 : (now + 60 <? ts) = false) by (apply Z.ltb_ge; lia).
  assert (E2 : (ts <? now - 86400 * 7) = false) by (apply Z.ltb_ge; lia).
  rewrite E1, E2. reflexivity.
Qed.

(** C5.  The live path validates with the same [validateTransaction] as the
    batch path, whose window is 60 seconds ahead and 7 days behind.  On the
    sample store a correctly signed request stamped 45 seconds in the
    future, and another stamped one hour in the past, are both accepted by
    [validateTransaction] and answered [Created] by [CreateTransaction]. *)
Theorem C5_live_path_accepts_outside_30s_and_5min :
  forall hmac_sha256 : list byte -> list byte -> list byte,
    mac_length hmac_sha256 ->
    let ahead := signed hmac_sha256 sample_cak (request "TX1" (sample_now + 45) 1000 1) in
    let stale := signed hmac_sha256 sample_cak (request "TX2" (sample_now - 3600) 1000 2) in
    sample_now + 30 < TxService.Timestamp ahead
    /\ TxService.Timestamp stale < sample_now - 300
    /\ TxService.validateTransaction sample_db ahead sample_now = None
    /\ TxService.validateTransaction sample_db stale sample_now = None
    /\ fst (TxService.CreateTransaction hmac_sha256 sample_store ahead sample_now)
       = TxService.Created (TxService.with_status ahead "COMPLETED" sample_now)
    /\ fst (TxService.CreateTransaction hmac_sha256 sample_store stale sample_now)
       = TxService.Created (TxService.with_status stale "COMPLETED" sample_now).
Proof.
  intros hmac_sha256 L ahead stale.
  assert (S : "s" <> EmptyString) by discriminate.
  pose proof (signed_signature_nonempty hmac_sha256 sample_cak
                (request "TX1" (sample_now + 45) 1000 1) L) as NE1.
  pose proof (signed_signature_nonempty hmac_sha256 sample_cak
                (request "TX2" (sample_now - 3600) 1000 2) L) as NE2.
  subst ahead stale.
  split; [vm_compute; reflexivity|]. split; [vm_compute; reflexivity|].
  split; [rewrite (validateTransaction_signature _ _ "s" _ NE1 S); reflexivity|].
  split; [rewrite (validateTransaction_signature _ _ "s" _ NE2 S); reflexivity|].
  split.
  - run_create L. reflexivity.
  - run_create L. reflexivity.
Qed.

(** *** The batch answer *)

(** The empty batch is within the limit of 100 and is refused: the answer is
    an error, not a partition with a summary. *)
Lemma C9_empty_batch_is_refused :
  (List.length (@nil TxService.Transaction) <= 100)%nat
  /\ TxService.BatchTransactions sample_mac sample_store [] sample_now
     = (TxService.BatchError 400 "No transactions provided", sample_store)
  /\ ~ (exists processed failed summary st',
          TxService.BatchTransactions sample_mac sample_store [] sample_now
          = (TxService.BatchResult processed failed summary, st')).
Proof.
  split; [simpl; lia|]. split; [reflexivity|].
  intros (processed & failed & summary & st' & H). discriminate H.
Qed.

(** C9, amended.  [BatchTransactions] refuses a request of more than 100
    transactions, and a request of none, and leaves the store as it was in
    both cases.  For a request of 1 to 100
    transactions it answers with two lists and a summary: every item of the
    request is in exactly one of the lists, as a processed item marked
    [COMPLETED] or as a failed item with its reason; [total] is the length
    of the request and is the sum of [succeeded] and [failed], the lengths
    of the two lists.  Whatever the outcome of the items of a prefix of the
    request, the loop goes on with the items that follow.  Every item is
    processed on its own: the answer is the answer for the items before
    it, then its own outcome, then the answer the items after it get when
    run by themselves on the database it left.  Its own outcome is decided
    by the five steps on the database the items before it left, whatever
    happened to them: it is processed when it passes validation,
    signature, double spending, transfer and storage, and otherwise it is
    the one failed entry of its first failing step, and the items after it
    are run all the same; a failure before the storage step leaves the
    database as the item found it. *)
Theorem C9_batch_is_bounded_and_partitions_its_input :
  forall (hmac_sha256 : list byte -> list byte -> list byte)
         (st : TxService.Store) (txs : list TxService.Transaction) (now : Z),
    ((100 < List.length txs)%nat ->
     TxService.BatchTransactions hmac_sha256 st txs now
     = (TxService.BatchError 400 "Batch size exceeds limit (100)", st))
    /\ (txs = [] ->
        TxService.BatchTransactions hmac_sha256 st txs now
        = (TxService.BatchError 400 "No transactions provided", st))
    /\ ((1 <= List.length txs <= 100)%nat ->
        exists processed failed db',
          TxService.BatchTransactions hmac_sha256 st txs now
          = (TxService.BatchResult processed failed
               (TxService.mkSummary (List.length txs) (List.length processed)
                                    (List.length failed)),
             TxService.mkStore db' (TxService.st_settlement_queue st))
          /\ List.length txs = (List.length processed + List.length failed)%nat
          /\ Permutation (List.map TxService.TxID txs)
                         (List.map TxService.TxID processed
                          ++ List.map TxService.fi_txId failed)
          /\ Forall (processed_from txs now) processed
          /\ Forall (failed_from txs now) failed)
    /\ (forall (xs ys : list TxService.Transaction) (db : DB)
               (P : list TxService.Transaction) (F : list TxService.FailedItem),
          txs = xs ++ ys ->
          TxService.batchLoop hmac_sha256 db txs P F now
          = let '(db1, P1, F1) := TxService.batchLoop hmac_sha256 db xs P F now in
            TxService.batchLoop hmac_sha256 db1 ys P1 F1 now)
    /\ (forall (xs : list TxService.Transaction) (tx : TxService.Transaction)
               (ys : list TxService.Transaction),
          (1 <= List.length txs <= 100)%nat ->
          txs = xs ++ tx :: ys ->
          let '(db1, P1, F1) :=
            TxService.batchLoop hmac_sha256 (TxService.st_db st) xs [] [] now in
          let '(db2, P2, F2) := TxService.batchLoop hmac_sha256 db1 [tx] [] [] now in
          let '(db3, P3, F3) := TxService.batchLoop hmac_sha256 db2 ys [] [] now in
          TxService.BatchTransactions hmac_sha256 st txs now
          = (TxService.BatchResult (P1 ++ P2 ++ P3) (F1 ++ F2 ++ F3)
               (TxService.mkSummary (List.length txs) (List.length (P1 ++ P2 ++ P3))
                                    (List.length (F1 ++ F2 ++ F3))),
             TxService.mkStore db3 (TxService.st_settlement_queue st))
          /\ (item_passes hmac_sha256 db1 tx now ->
              P2 = [TxService.with_status tx "COMPLETED" now] /\ F2 = [])
          /\ (forall e,
                TxService.validateTransaction db1 tx now = Some e ->
                db2 = db1 /\ P2 = []
                /\ F2 = [TxService.mkFailedItem (TxService.TxID tx) e])
          /\ (TxService.validateTransaction db1 tx now = None ->
              TxService.verifySignature hmac_sha256 db1 tx <> None ->
              db2 = db1 /\ P2 = []
              /\ F2 = [TxService.mkFailedItem (TxService.TxID tx)
                         "Signature verification failed"])
          /\ (TxService.validateTransaction db1 tx now = None ->
              TxService.verifySignature hmac_sha256 db1 tx = None ->
              TxService.checkDoubleSpending db1 tx <> None ->
              db2 = db1 /\ P2 = []
              /\ F2 = [TxService.mkFailedItem (TxService.TxID tx)
                         "Double spending detected"])
          /\ (TxService.validateTransaction db1 tx now = None ->
              TxService.verifySignature hmac_sha256 db1 tx = None ->
              TxService.checkDoubleSpending db1 tx = None ->
              fst (Ledger.Transfer db1 (TxService.CardID tx) (TxService.MerchantID tx)
                     (TxService.TxID tx) (TxService.Amount tx) now) <> None ->
              db2 = db1 /\ P2 = []
              /\ F2 = [TxService.mkFailedItem (TxService.TxID tx) "Transfer failed"])
          /\ (TxService.validateTransaction db1 tx now = None ->
              TxService.verifySignature hmac_sha256 db1 tx = None ->
              TxService.checkDoubleSpending db1 tx = None ->
              fst (Ledger.Transfer db1 (TxService.CardID tx) (TxService.MerchantID tx)
                     (TxService.TxID tx) (TxService.Amount tx) now) = None ->
              TxService.existing_status db1 (TxService.TxID tx) <> None ->
              db2 = snd (Ledger.Transfer db1 (TxService.CardID tx)
                           (TxService.MerchantID tx) (TxService.TxID tx)
                           (TxService.Amount tx) now)
              /\ P2 = []
              /\ F2 = [TxService.mkFailedItem (TxService.TxID tx) "Storage failed"])).
Proof.
  intros hmac_sha256 st txs now. split; [|split; [|split; [|split]]].
  - intros Hlen. unfold TxService.BatchTransactions.
    destruct (Nat.eqb (List.length txs) 0) eqn:E0.
    { apply Nat.eqb_eq in E0. lia. }
    assert (E1 : Nat.ltb 100 (List.length txs) = true) by (apply Nat.ltb_lt; exact Hlen).
    rewrite E1. reflexivity.
  - intros ->. reflexivity.
  - intros [Hlo Hhi]. unfold TxService.BatchTransactions.
    destruct (Nat.eqb (List.length txs) 0) eqn:E0.
    { apply Nat.eqb_eq in E0. lia. }
    assert (E1 : Nat.ltb 100 (List.length txs) = false) by (apply Nat.ltb_ge; exact Hhi).
    rewrite E1.
    destruct (TxService.batchLoop hmac_sha256 (TxService.st_db st) txs [] [] now)
      as [[db' processed] failed] eqn:B.
    destruct (batchLoop_partition hmac_sha256 now txs _ _ _ _ _ _ B)
      as (P1 & F1 & EP & EF & Hlen & Hperm & HP & HF).
    simpl in EP, EF. subst processed failed.
    exists P1, F1, db'. repeat split; assumption.
  - intros xs ys db P F ->. apply batchLoop_app.
  - intros xs tx ys [Hlo Hhi] E. subst txs.
    pose proof (batchLoop_split hmac_sha256 now xs (tx :: ys) (TxService.st_db st)) as S1.
    destruct (TxService.batchLoop hmac_sha256 (TxService.st_db st) xs [] [] now)
      as [[db1 P1] F1].
    pose proof (batchLoop_split hmac_sha256 now [tx] ys db1) as S2.
    pose proof (batchLoop_one hmac_sha256 db1 tx now) as O.
    destruct (TxService.batchLoop hmac_sha256 db1 [tx] [] [] now) as [[db2 P2] F2].
    destruct (TxService.batchLoop hmac_sha256 db2 ys [] [] now) as [[db3 P3] F3].
    split; [|exact O].
    unfold TxService.BatchTransactions.
    destruct (Nat.eqb (List.length (xs ++ tx :: ys)) 0) eqn:E0.
    { apply Nat.eqb_eq in E0. lia. }
    assert (E1 : Nat.ltb 100 (List.length (xs ++ tx :: ys)) = false)
      by (apply Nat.ltb_ge; exact Hhi).
    rewrite E1.
    change ([tx] ++ ys) with (tx :: ys) in S2.
    rewrite S1, S2. reflexivity.
Qed.

(** ** The key registry *)

Section HSMFacts.

Variables PublicKey PrivateKey : Type.
Variable sha256_Sum256 : list byte -> list byte.
Variable SignPKCS1v15 : PrivateKey -> list byte -> result (list byte).
Variable VerifyPKCS1v15 : PublicKey -> list byte -> list byte -> option error.

Local Abbreviation KeyPair := (HSM.KeyPair PublicKey PrivateKey).
Local Abbreviation SignData := (HSM.SignData sha256_Sum256 SignPKCS1v15).
Local Abbreviation VerifySignature := (HSM.VerifySignature sha256_Sum256 VerifyPKCS1v15).

(** [VerifySignature] does not read the active flag. *)
Lemma VerifySignature_after_deactivation (keys : gmap string KeyPair) keyID kp data signature :
  keys !! keyID = Some kp ->
  VerifySignature (<[keyID := HSM.set_inactive kp]> keys) keyID data signature
  = VerifySignature keys keyID data signature.
Proof.
  intros K. unfold HSM.VerifySignature. rewrite lookup_insert_eq, K. reflexivity.
Qed.

Lemma SignData_after_deactivation (keys : gmap string KeyPair) keyID kp data :
  SignData (<[keyID := HSM.set_inactive kp]> keys) keyID data
  = Err (String.append "key " (String.append keyID " is not active")).
Proof. unfold HSM.SignData. rewrite lookup_insert_eq. reflexivity. Qed.

Lemma append_longer (s t : string) : t <> EmptyString -> String.append s t <> s.
Proof.
  intros N E.
  assert (L : String.length (String.append s t) = (String.length s + String.length t)%nat).
  { clear. induction s as [|c s IH]; simpl; [reflexivity|]. rewrite IH. reflexivity. }
  rewrite E in L. destruct t; [congruence|]. simpl in L. lia.
Qed.

(** A rotation that replaces the key leaves the old identifier in the
    registry, inactive, with the key material it had. *)
Lemma rotateKey_keeps_old (keys : gmap string KeyPair) keyID kp now generated newKeyPair :
  keys !! keyID = Some kp ->
  (HSM.ExpiresAt kp <? now) || negb (HSM.IsActive kp) = true ->
  generated (String.append keyID (String.append "_" (HSM.decimal now))) = Ok newKeyPair ->
  HSM.rotateKey now generated keys keyID kp !! keyID = Some (HSM.set_inactive kp).
Proof.
  intros K R G. unfold HSM.rotateKey. rewrite R, G.
  rewrite lookup_insert_ne.
  - apply lookup_insert_eq.
  - apply append_longer. discriminate.
Qed.

End HSMFacts.

(** C8.  For a key identifier of the registry whose key is inactive,
    [SignData] returns the error that the key is not active, whatever the
    data, while [VerifySignature] returns no error and the verdict of the
    RSA verification under the public key on record: it does not read the
    active flag.  Hence a signature obtained from [SignData] while the key
    was active is still accepted after a rotation has marked the key
    inactive, and [SignData] then refuses the key. *)
Theorem C8_inactive_key_verifies_but_cannot_sign :
  forall (PublicKey PrivateKey : Type)
         (sha256_Sum256 : list byte -> list byte)
         (SignPKCS1v15 : PrivateKey -> list byte -> result (list byte))
         (VerifyPKCS1v15 : PublicKey -> list byte -> list byte -> option error)
         (keys : gmap string (HSM.KeyPair PublicKey PrivateKey))
         (keyID : string) (keyPair : HSM.KeyPair PublicKey PrivateKey),
    keys !! keyID = Some keyPair ->
    HSM.IsActive keyPair = false ->
    (forall data,
        HSM.SignData sha256_Sum256 SignPKCS1v15 keys keyID data
        = Err (String.append "key " (String.append keyID " is not active")))
    /\ (forall data signature,
          HSM.VerifySignature sha256_Sum256 VerifyPKCS1v15 keys keyID data signature
          = (match VerifyPKCS1v15 (HSM.PublicKey_ keyPair) (sha256_Sum256 data) signature with
             | None => true
             | Some _ => false
             end, None))
    /\ (forall (keys0 : gmap string (HSM.KeyPair PublicKey PrivateKey))
               (keyPair0 newKeyPair : HSM.KeyPair PublicKey PrivateKey)
               (generated : string -> result (HSM.KeyPair PublicKey PrivateKey))
               (now : Z) (data signature : list byte),
          keys0 !! keyID = Some keyPair0 ->
          HSM.IsActive keyPair0 = true ->
          key_pair_sound SignPKCS1v15 VerifyPKCS1v15 keyPair0 ->
          HSM.SignData sha256_Sum256 SignPKCS1v15 keys0 keyID data = Ok signature ->
          HSM.ExpiresAt keyPair0 < now ->
          generated (String.append keyID (String.append "_" (HSM.decimal now)))
          = Ok newKeyPair ->
          let keys1 := HSM.rotateKey now generated keys0 keyID keyPair0 in
          keys1 !! keyID = Some (HSM.set_inactive keyPair0)
          /\ HSM.VerifySignature sha256_Sum256 VerifyPKCS1v15 keys1 keyID data signature
             = (true, None)
          /\ HSM.SignData sha256_Sum256 SignPKCS1v15 keys1 keyID data
             = Err (String.append "key " (String.append keyID " is not active"))).
Proof.
  intros PublicKey PrivateKey sha sign verify keys keyID keyPair K Inactive.
  split; [|split].
  - intros data. unfold HSM.SignData. rewrite K, Inactive. reflexivity.
  - intros data signature. unfold HSM.VerifySignature. rewrite K.
    destruct (verify (HSM.PublicKey_ keyPair) (sha data) signature); reflexivity.
  - intros keys0 keyPair0 newKeyPair generated now data signature K0 Active Sound S E G keys1.
    assert (R : (HSM.ExpiresAt keyPair0 <? now) || negb (HSM.IsActive keyPair0) = true).
    { apply orb_true_iff. left. apply Z.ltb_lt. exact E. }
    pose proof (rotateKey_keeps_old _ _ keys0 keyID keyPair0 now generated newKeyPair
                  K0 R G) as K1.
    fold keys1 in K1. split; [exact K1|]. split.
    + unfold HSM.SignData in S. rewrite K0, Active in S. simpl in S.
      destruct (sign (HSM.PrivateKey_ keyPair0) (sha data)) as [s|e] eqn:Sg;
        [|discriminate].
      inversion S; subst s.
      unfold HSM.VerifySignature. rewrite K1. simpl.
      rewrite (Sound _ _ Sg). reflexivity.
    + unfold HSM.SignData. rewrite K1. reflexivity.
Qed.

(** ** The statements on the sample data *)

Lemma sample_mac_length : mac_length sample_mac.
Proof. intros key data. unfold sample_mac. apply List.repeat_length. Qed.

(** The scenario of the specification: [X] holds 5000, a transfer of 3000
    from [X] to [Y] succeeds and posts two rows that sum to zero. *)
Lemma C1_witness_transfer_3000 :
  Ledger.TransferTx (Begin sample_db) "X" "Y" "TX1" 3000 sample_now
  = (None, snd (Ledger.TransferTx (Begin sample_db) "X" "Y" "TX1" 3000 sample_now))
  /\ sum_amounts
       (entries_of "TX1"
          (ledger_entries
             (tx_db (snd (Ledger.TransferTx (Begin sample_db) "X" "Y" "TX1" 3000
                            sample_now))))) = 0.
Proof.
  assert (H : Ledger.TransferTx (Begin sample_db) "X" "Y" "TX1" 3000 sample_now
              = (None,
                 snd (Ledger.TransferTx (Begin sample_db) "X" "Y" "TX1" 3000 sample_now)))
    by (vm_compute; reflexivity).
  split; [exact H|].
  destruct (C1_transfer_posts_two_balanced_entries _ _ _ _ _ _ _ H)
    as (src & dst & _ & _ & _ & _ & _ & Hsum).
  apply Hsum; [vm_compute; split; discriminate | vm_compute; reflexivity | reflexivity].
Defined.

(** The scenario of the specification: [X] holds 5000, a transfer of 6000
    from [X] to [Y] is refused and [X] still holds 5000. *)
Lemma C2_witness_transfer_6000 :
  Ledger.Transfer sample_db "X" "Y" "TX1" 6000 sample_now
  = (Some "insufficient balance", sample_db)
  /\ List.map acc_balance (accounts sample_db) = [5000; 2000]
  /\ ledger_entries sample_db = [].
Proof.
  split; [|split; reflexivity].
  refine (proj1 (C2_insufficient_balance_writes_nothing
                   sample_db "X" "Y" "TX1" 6000 sample_now account_X account_Y
                   _ _ _)).
  - reflexivity.
  - reflexivity.
  - simpl. lia.
Defined.

Lemma C6_witness_X_Y :
  "X" <> "Y"
  /\ tx_locks (snd (Ledger.TransferTx (Begin sample_db) "X" "Y" "TX1" 10 sample_now))
     = [mkLockEvent "X" "1"; mkLockEvent "Y" "2"]
  /\ tx_locks (snd (Ledger.TransferTx (Begin sample_db) "Y" "X" "TX2" 20 sample_now))
     = [mkLockEvent "X" "1"; mkLockEvent "Y" "2"].
Proof.
  assert (N : "X" <> "Y") by discriminate.
  split; [exact N|].
  destruct (C6_locks_in_one_global_order (Begin sample_db) "X" "Y" N)
    as (_ & HAB & HBA & _).
  split.
  - rewrite HAB. reflexivity.
  - rewrite HBA. reflexivity.
Defined.

Lemma C7_witness_update_X :
  fst (Ledger.updateAccountBalance (Begin sample_db) "1" 4000 1 sample_now) = None
  /\ Forall2 (updated_once "1" 4000 1) (accounts sample_db)
       (accounts (tx_db (snd (Ledger.updateAccountBalance (Begin sample_db) "1" 4000 1
                                sample_now)))).
Proof.
  assert (H : fst (Ledger.updateAccountBalance (Begin sample_db) "1" 4000 1 sample_now)
              = None) by reflexivity.
  split; [exact H|].
  exact (proj2 (proj1 (C7_version_advances_once_with_the_balance
                         (Begin sample_db) "1" 4000 1 sample_now) H)).
Defined.

Lemma C10_witness_X_to_X :
  Ledger.find_account "X" (accounts sample_db) = Some account_X
  /\ 1000 <= acc_balance account_X
  /\ Ledger.Transfer sample_db "X" "X" "TX1" 1000 sample_now
     = (Some "optimistic lock failed for account 1", sample_db).
Proof.
  assert (F : Ledger.find_account "X" (accounts sample_db) = Some account_X)
    by reflexivity.
  assert (B : 1000 <= acc_balance account_X) by (simpl; lia).
  split; [exact F|]. split; [exact B|].
  exact (proj1 (C10_self_transfer_always_fails sample_db "X" "TX1" 1000 sample_now
                  account_X F B)).
Defined.

Lemma C3_witness_sample_mac :
  mac_length sample_mac
  /\ List.map acc_balance
       (accounts
          (TxService.st_db
             (snd (TxService.BatchTransactions sample_mac
                     (snd (TxService.CreateTransaction sample_mac sample_store
                             (signed sample_mac sample_cak
                                (request "TX1" sample_now 1000 1)) sample_now))
                     [signed sample_mac sample_cak (request "TX1" sample_now 1000 1)]
                     sample_now)))) = [3000; 4000].
Proof.
  split; [exact sample_mac_length|].
  exact (proj2 (proj2 (proj2 (proj2 (proj2 (proj2
           (C3_batch_path_repeats_a_recorded_transaction sample_mac
              sample_mac_length))))))).
Defined.

Lemma C4_witness_sample_mac :
  mac_length sample_mac
  /\ fst (TxService.CreateTransaction sample_mac
            (snd (TxService.CreateTransaction sample_mac sample_store
                    (signed sample_mac sample_cak (request "TX1" sample_now 1000 7))
                    sample_now))
            (signed sample_mac sample_cak (request "TX2" sample_now 1000 7)) sample_now)
     = TxService.Created
         (TxService.with_status
            (signed sample_mac sample_cak (request "TX2" sample_now 1000 7))
            "COMPLETED" sample_now).
Proof.
  split; [exact sample_mac_length|].
  exact (proj1 (proj2 (C4_single_path_accepts_a_reused_counter sample_mac
                         sample_mac_length))).
Defined.

Lemma C5_witness_sample_mac :
  mac_length sample_mac
  /\ TxService.validateTransaction sample_db
       (signed sample_mac sample_cak (request "TX2" (sample_now - 3600) 1000 2))
       sample_now = None.
Proof.
  split; [exact sample_mac_length|].
  exact (proj1 (proj2 (proj2 (proj2
           (C5_live_path_accepts_outside_30s_and_5min sample_mac sample_mac_length))))).
Defined.

Lemma C9_witness_failure_then_success :
  (1 <= List.length [request "TX0" sample_now 1000 1;
                     signed sample_mac sample_cak (request "TX1" sample_now 1000 2)]
   <= 100)%nat
  /\ fst (TxService.BatchTransactions sample_mac sample_store
            [request "TX0" sample_now 1000 1;
             signed sample_mac sample_cak (request "TX1" sample_now 1000 2)]
            sample_now)
     = TxService.BatchResult
         [TxService.with_status
            (signed sample_mac sample_cak (request "TX1" sample_now 1000 2))
            "COMPLETED" sample_now]
         [TxService.mkFailedItem "TX0" "signature is required"]
         (TxService.mkSummary 2 1 1).
Proof.
  assert (H : (1 <= List.length
                      [request "TX0" sample_now 1000 1;
                       signed sample_mac sample_cak (request "TX1" sample_now 1000 2)]
               <= 100)%nat) by (simpl; lia).
  split; [exact H|].
  pose proof (proj2 (proj2 (proj2 (proj2
                (C9_batch_is_bounded_and_partitions_its_input sample_mac sample_store
                   [request "TX0" sample_now 1000 1;
                    signed sample_mac sample_cak (request "TX1" sample_now 1000 2)]
                   sample_now))))
                [request "TX0" sample_now 1000 1]
                (signed sample_mac sample_cak (request "TX1" sample_now 1000 2))
                [] H eq_refl) as W.
  vm_compute in W. destruct W as [W _].
  vm_compute. exact (f_equal fst W).
Defined.

Lemma C8_witness_sample_key :
  sample_keys false !! "card-signing" = Some (sample_key false)
  /\ HSM.IsActive (sample_key false) = false
  /\ HSM.SignData sample_digest sample_sign (sample_keys false) "card-signing" [x01; x02]
     = Err "key card-signing is not active"
  /\ HSM.VerifySignature sample_digest sample_verify (sample_keys false) "card-signing"
       [x01; x02] [x07; x01; x02] = (true, None).
Proof.
  assert (K : sample_keys false !! "card-signing" = Some (sample_key false))
    by (apply lookup_insert_eq).
  assert (I : HSM.IsActive (sample_key false) = false) by reflexivity.
  split; [exact K|]. split; [exact I|].
  destruct (C8_inactive_key_verifies_but_cannot_sign Z Z sample_digest sample_sign
              sample_verify (sample_keys false) "card-signing" (sample_key false) K I)
    as (HS & HV & _).
  split.
  - exact (HS [x01; x02]).
  - rewrite (HV [x01; x02] [x07; x01; x02]). reflexivity.
Defined.

(** * Further properties of the code *)

(** ** The ledger: failures, frame and invariants *)

Lemma lockInOrder_missing tx a b :
  Ledger.find_account a (accounts (tx_db tx)) = None
  \/ Ledger.find_account b (accounts (tx_db tx)) = None ->
  fst (Ledger.lockInOrder tx a b) = Err ErrNoRows.
Proof.
  intros H. unfold Ledger.lockInOrder, Ledger.lockAccount.
  destruct (string_gt a b);
    destruct (Ledger.find_account a (accounts (tx_db tx))) as [ra|] eqn:Fa;
    destruct (Ledger.find_account b (accounts (tx_db tx))) as [rb|] eqn:Fb;
    cbn [add_lock tx_db]; rewrite ?Fa, ?Fb; try reflexivity;
    destruct H; discriminate.
Qed.

(** X1.  When one of the two identifiers resolves to no account row,
    [Transfer] returns [sql.ErrNoRows] and commits nothing, and so does
    [TransferTx] on the working copy, whatever the amount: an unknown
    account is reported before the balance is looked at. *)
Theorem X1_unknown_account_is_reported_first :
  forall (db : DB) (a b txid : string) (amount now : Z),
    Ledger.find_account a (accounts db) = None
    \/ Ledger.find_account b (accounts db) = None ->
    Ledger.Transfer db a b txid amount now = (Some ErrNoRows, db)
    /\ fst (Ledger.TransferTx (Begin db) a b txid amount now) = Some ErrNoRows
    /\ tx_db (snd (Ledger.TransferTx (Begin db) a b txid amount now)) = db.
Proof.
  intros db a b txid amount now H.
  assert (T : forall tx, accounts (tx_db tx) = accounts db ->
              fst (Ledger.TransferTx tx a b txid amount now) = Some ErrNoRows
              /\ tx_db (snd (Ledger.TransferTx tx a b txid amount now)) = tx_db tx).
  { intros tx E. unfold Ledger.TransferTx.
    pose proof (lockInOrder_missing tx a b) as M. rewrite E in M. specialize (M H).
    destruct (Ledger.lockInOrder tx a b) as [[[fa ta]|e] tx2] eqn:L;
      simpl in M; [discriminate|].
    inversion M; subst e. simpl. split; [reflexivity|].
    exact (lockInOrder_db _ _ _ _ _ L). }
  split; [|exact (T (Begin db) eq_refl)].
  rewrite Transfer_unfold.
  destruct (T (set_payment_states
                 (fun t => t ++ [mkPaymentState txid "PENDING" now]) (Begin db))
              eq_refl) as [E _].
  destruct (Ledger.TransferTx _ a b txid amount now) as [[e|] tx2];
    simpl in E; [|discriminate].
  inversion E. reflexivity.
Qed.

Lemma X1_witness_unknown_destination :
  Ledger.find_account "Z" (accounts sample_db) = None
  /\ Ledger.Transfer sample_db "X" "Z" "TX1" 6000 sample_now = (Some ErrNoRows, sample_db).
Proof.
  assert (F : Ledger.find_account "Z" (accounts sample_db) = None) by reflexivity.
  split; [exact F|].
  exact (proj1 (X1_unknown_account_is_reported_first sample_db "X" "Z" "TX1" 6000
                  sample_now (or_intror F))).
Defined.

Lemma Forall2_map_self {A : Type} (R : A -> A -> Prop) (k : A -> A) (l : list A) :
  (forall x, R x (k x)) -> Forall2 R l (List.map k l).
Proof. intros H. induction l as [|x l IH]; simpl; constructor; auto. Qed.

Lemma apply_update_as_map accountID newBalance version now rows :
  Ledger.apply_update accountID newBalance version now rows
  = List.map (fun r => if Ledger.update_matches accountID version r
                       then Ledger.update_row newBalance now r else r) rows.
Proof. reflexivity. Qed.

Lemma identity_of_apply_update accountID newBalance version now rows :
  List.map identity_of (Ledger.apply_update accountID newBalance version now rows)
  = List.map identity_of rows.
Proof.
  unfold Ledger.apply_update. rewrite List.map_map. apply List.map_ext.
  intros r. destruct (Ledger.update_matches accountID version r); reflexivity.
Qed.

Lemma version_apply_update accountID newBalance version now rows :
  Forall2 (fun r r' => acc_version r <= acc_version r' <= acc_version r + 1) rows
          (Ledger.apply_update accountID newBalance version now rows).
Proof.
  unfold Ledger.apply_update. apply Forall2_map_self. intros r.
  destruct (Ledger.update_matches accountID version r); simpl; lia.
Qed.

(** X2.  The payment states [Transfer] commits are exactly [PENDING]
    followed by [SUCCESS], and only when it returns [nil]; when it returns
    an error the table is as it was: the [FAILED] state it appends is
    rolled back with the rest, so no [FAILED] state is ever committed. *)
Theorem X2_failed_state_is_never_committed :
  forall (db : DB) (a b txid : string) (amount now : Z),
    let outcome := Ledger.Transfer db a b txid amount now in
    (fst outcome = None ->
     payment_states (snd outcome)
     = payment_states db
       ++ [mkPaymentState txid "PENDING" now; mkPaymentState txid "SUCCESS" now])
    /\ (fst outcome <> None -> payment_states (snd outcome) = payment_states db)
    /\ (forall s, In s (payment_states (snd outcome)) ->
                  In s (payment_states db) \/ ps_state s <> "FAILED").
Proof.
  intros db a b txid amount now outcome. subst outcome.
  destruct (Ledger.Transfer db a b txid amount now) as [[e|] db'] eqn:T; simpl.
  - apply Transfer_error_rolls_back in T. subst db'.
    split; [discriminate|]. split; [reflexivity|]. intros s Hs. left. exact Hs.
  - destruct (Transfer_ok_inv _ _ _ _ _ _ _ T) as (ra & rb & _ & _ & _ & ->). simpl.
    split; [reflexivity|]. split; [congruence|].
    intros s Hs. apply List.in_app_or in Hs as [Hs|Hs]; [left; exact Hs|].
    right. simpl in Hs. destruct Hs as [<-|[<-|[]]]; simpl; discriminate.
Qed.

Lemma X2_witness_refused_transfer :
  fst (Ledger.Transfer sample_db "X" "Y" "TX1" 6000 sample_now) <> None
  /\ payment_states (snd (Ledger.Transfer sample_db "X" "Y" "TX1" 6000 sample_now)) = [].
Proof.
  assert (H : fst (Ledger.Transfer sample_db "X" "Y" "TX1" 6000 sample_now) <> None)
    by (vm_compute; discriminate).
  split; [exact H|].
  exact (proj1 (proj2 (X2_failed_state_is_never_committed sample_db "X" "Y" "TX1" 6000
                         sample_now)) H).
Defined.

Lemma Transfer_keeps_identity db a b txid amount now :
  List.map identity_of (accounts (snd (Ledger.Transfer db a b txid amount now)))
  = List.map identity_of (accounts db).
Proof.
  destruct (Ledger.Transfer db a b txid amount now) as [[e|] db'] eqn:T; simpl.
  - apply Transfer_error_rolls_back in T. subst db'. reflexivity.
  - destruct (Transfer_ok_inv _ _ _ _ _ _ _ T) as (ra & rb & _ & _ & _ & ->). simpl.
    rewrite !identity_of_apply_update. reflexivity.
Qed.

(** X3.  Whatever [Transfer] returns, it leaves the tables [transactions]
    and [cards] as they were, keeps every account row in place with its
    [id], [card_id], [account_id] and [status], advances no version by more
    than two and lowers none, and only appends to the ledger. *)
Theorem X3_transfer_frame :
  forall (db : DB) (a b txid : string) (amount now : Z),
    let db' := snd (Ledger.Transfer db a b txid amount now) in
    transactions db' = transactions db
    /\ cards db' = cards db
    /\ List.map identity_of (accounts db') = List.map identity_of (accounts db)
    /\ Forall2 (fun r r' => acc_version r <= acc_version r' <= acc_version r + 2)
               (accounts db) (accounts db')
    /\ exists posted, ledger_entries db' = ledger_entries db ++ posted.
Proof.
  intros db a b txid amount now db'. subst db'.
  destruct (Ledger.Transfer db a b txid amount now) as [[e|] db'] eqn:T; simpl.
  - apply Transfer_error_rolls_back in T. subst db'.
    repeat split; try reflexivity.
    + rewrite <- (List.map_id (accounts db)) at 2. apply Forall2_map_self.
      intros r. lia.
    + exists []. rewrite app_nil_r. reflexivity.
  - destruct (Transfer_ok_inv _ _ _ _ _ _ _ T) as (ra & rb & _ & _ & _ & ->). simpl.
    split; [reflexivity|]. split; [reflexivity|]. split.
    { rewrite !identity_of_apply_update. reflexivity. }
    split.
    { rewrite !apply_update_as_map, List.map_map. apply Forall2_map_self.
      intros r.
      destruct (Ledger.update_matches (acc_id ra) (acc_version ra) r);
        match goal with
        | |- context [Ledger.update_matches ?i ?v ?x] =>
          destruct (Ledger.update_matches i v x)
        end; simpl; lia. }
    eexists. reflexivity.
Qed.

(** *** Transfers on a table keyed by [id] *)

Lemma find_account_In a rows r :
  Ledger.find_account a rows = Some r -> In r rows.
Proof. intros F. apply List.find_some in F. tauto. Qed.

Lemma unique_row rows (r r' : AccountRow) :
  unique_ids rows -> In r rows -> In r' rows -> acc_id r = acc_id r' -> r = r'.
Proof.
  unfold unique_ids. induction rows as [|x rows IH]; simpl; [tauto|].
  intros U Hr Hr' E. apply List.NoDup_cons_iff in U as [Hx U].
  destruct Hr as [->|Hr]; destruct Hr' as [->|Hr'].
  - reflexivity.
  - exfalso. apply Hx. rewrite E. apply List.in_map. exact Hr'.
  - exfalso. apply Hx. rewrite <- E. apply List.in_map. exact Hr.
  - apply IH; assumption.
Qed.

Lemma ids_apply_update accountID newBalance version now rows :
  List.map acc_id (Ledger.apply_update accountID newBalance version now rows)
  = List.map acc_id rows.
Proof.
  unfold Ledger.apply_update. rewrite List.map_map. apply List.map_ext.
  intros r. destruct (Ledger.update_matches accountID version r); reflexivity.
Qed.

(** On a keyed table the conditioned update of a row that is there rewrites
    that row and no other. *)
Lemma apply_update_unique rows (r0 : AccountRow) newBalance now :
  unique_ids rows -> In r0 rows ->
  Ledger.apply_update (acc_id r0) newBalance (acc_version r0) now rows
  = List.map (fun r => if String.eqb (acc_id r) (acc_id r0)
                       then Ledger.update_row newBalance now r else r) rows.
Proof.
  intros U H0. unfold Ledger.apply_update. apply List.map_ext_in. intros r Hr.
  unfold Ledger.update_matches.
  destruct (String.eqb (acc_id r) (acc_id r0)) eqn:E; [|reflexivity].
  apply String.eqb_eq in E. rewrite (unique_row rows r r0 U Hr H0 E).
  rewrite Z.eqb_refl. reflexivity.
Qed.

Lemma In_apply_update_other accountID newBalance version now rows (r : AccountRow) :
  In r rows -> acc_id r <> accountID ->
  In r (Ledger.apply_update accountID newBalance version now rows).
Proof.
  intros Hr N. unfold Ledger.apply_update. apply List.in_map_iff. exists r.
  split; [|exact Hr]. unfold Ledger.update_matches.
  assert (E : String.eqb (acc_id r) accountID = false)
    by (apply String.eqb_neq; exact N).
  rewrite E. reflexivity.
Qed.

(** A transfer between two rows of different [id] whose source covers the
    amount commits. *)
Lemma Transfer_succeeds db a b txid amount now ra rb :
  Ledger.find_account a (accounts db) = Some ra ->
  Ledger.find_account b (accounts db) = Some rb ->
  acc_id ra <> acc_id rb ->
  amount <= acc_balance ra ->
  fst (Ledger.Transfer db a b txid amount now) = None.
Proof.
  intros Fa Fb N Hle. rewrite Transfer_unfold.
  rewrite (TransferTx_found _ a b txid amount now ra rb) by assumption.
  assert (L : (acc_balance ra <? amount) = false) by (apply Z.ltb_ge; exact Hle).
  rewrite L.
  change (accounts (tx_db (set_payment_states
            (fun t => t ++ [mkPaymentState txid "PENDING" now]) (Begin db))))
    with (accounts db).
  destruct (Nat.eqb (Ledger.rows_affected (acc_id ra) (acc_version ra) (accounts db)) 0)
    eqn:E1.
  { apply Nat.eqb_eq in E1. exfalso. exact (rows_affected_found _ _ _ Fa E1). }
  change (accounts (tx_db (after_debit
            (set_payment_states (fun t => t ++ [mkPaymentState txid "PENDING" now])
               (Begin db)) a b txid ra rb amount now)))
    with (Ledger.apply_update (acc_id ra) (sub64 (acc_balance ra) amount)
            (acc_version ra) now (accounts db)).
  destruct (Nat.eqb (Ledger.rows_affected (acc_id rb) (acc_version rb)
                       (Ledger.apply_update (acc_id ra) (sub64 (acc_balance ra) amount)
                          (acc_version ra) now (accounts db))) 0) eqn:E2;
    [|reflexivity].
  apply Nat.eqb_eq in E2. exfalso.
  refine (rows_affected_In _ _ _ rb _ (update_matches_self rb) E2).
  apply In_apply_update_other; [exact (find_account_In _ _ _ Fb)|].
  intros E. apply N. symmetry. exact E.
Qed.

(** What a committed transfer has made of a keyed accounts table. *)
Lemma Transfer_ok_unique db a b txid amount now db' :
  unique_ids (accounts db) ->
  Ledger.Transfer db a b txid amount now = (None, db') ->
  exists ra rb,
    Ledger.find_account a (accounts db) = Some ra
    /\ Ledger.find_account b (accounts db) = Some rb
    /\ acc_id ra <> acc_id rb
    /\ amount <= acc_balance ra
    /\ accounts db' = List.map (transfer_row ra rb amount now) (accounts db).
Proof.
  intros U T.
  pose proof T as T0.
  destruct (Transfer_ok_inv _ _ _ _ _ _ _ T) as (ra & rb & Fa & Fb & Hle & E).
  pose proof (find_account_In _ _ _ Fa) as Ia.
  pose proof (find_account_In _ _ _ Fb) as Ib.
  assert (N : acc_id ra <> acc_id rb).
  { intros Eid. pose proof (unique_row _ _ _ U Ia Ib Eid) as Erow. subst rb.
    rewrite (Transfer_second_update_conflict db a b txid amount now ra ra Fa Fb Hle)
      in T0 by apply rows_affected_after_update.
    discriminate. }
  exists ra, rb. repeat split; try assumption.
  subst db'. simpl.
  rewrite (apply_update_unique _ ra _ _ U Ia).
  assert (U1 : unique_ids
                 (List.map (fun r => if String.eqb (acc_id r) (acc_id ra)
                                     then Ledger.update_row
                                            (sub64 (acc_balance ra) amount) now r
                                     else r) (accounts db))).
  { unfold unique_ids. rewrite List.map_map.
    erewrite List.map_ext; [exact U|].
    intros r. destruct (String.eqb (acc_id r) (acc_id ra)); reflexivity. }
  assert (I1 : In rb
                 (List.map (fun r => if String.eqb (acc_id r) (acc_id ra)
                                     then Ledger.update_row
                                            (sub64 (acc_balance ra) amount) now r
                                     else r) (accounts db))).
  { apply List.in_map_iff. exists rb. split; [|exact Ib].
    assert (Eb : String.eqb (acc_id rb) (acc_id ra) = false).
    { apply String.eqb_neq. intros Eid. apply N. symmetry. exact Eid. }
    rewrite Eb. reflexivity. }
  rewrite (apply_update_unique _ rb _ _ U1 I1).
  rewrite List.map_map. apply List.map_ext. intros r. unfold transfer_row.
  destruct (String.eqb (acc_id r) (acc_id ra)) eqn:Ea; [|reflexivity].
  simpl. apply String.eqb_eq in Ea. rewrite Ea.
  assert (Eab : String.eqb (acc_id ra) (acc_id rb) = false)
    by (apply String.eqb_neq; exact N).
  rewrite Eab. reflexivity.
Qed.

(** X4.  On an accounts table keyed by [id], [Transfer] returns [nil]
    exactly when both identifiers resolve, to two different rows, and the
    balance of the source row is at least the amount. *)
Theorem X4_transfer_commits_iff :
  forall (db : DB) (a b txid : string) (amount now : Z),
    unique_ids (accounts db) ->
    (fst (Ledger.Transfer db a b txid amount now) = None
     <-> exists ra rb,
           Ledger.find_account a (accounts db) = Some ra
           /\ Ledger.find_account b (accounts db) = Some rb
           /\ acc_id ra <> acc_id rb
           /\ amount <= acc_balance ra).
Proof.
  intros db a b txid amount now U. split.
  - intros H.
    destruct (Ledger.Transfer db a b txid amount now) as [e db'] eqn:T.
    simpl in H. subst e.
    destruct (Transfer_ok_unique _ _ _ _ _ _ _ U T) as (ra & rb & Fa & Fb & N & Hle & _).
    exists ra, rb. repeat split; assumption.
  - intros (ra & rb & Fa & Fb & N & Hle).
    exact (Transfer_succeeds db a b txid amount now ra rb Fa Fb N Hle).
Qed.

Lemma sample_db_unique_ids : unique_ids (accounts sample_db).
Proof.
  unfold unique_ids. simpl. repeat constructor; simpl; intuition discriminate.
Qed.

Lemma X4_witness_sample_db :
  unique_ids (accounts sample_db)
  /\ (fst (Ledger.Transfer sample_db "X" "Y" "TX1" 3000 sample_now) = None
      <-> exists ra rb,
            Ledger.find_account "X" (accounts sample_db) = Some ra
            /\ Ledger.find_account "Y" (accounts sample_db) = Some rb
            /\ acc_id ra <> acc_id rb
            /\ 3000 <= acc_balance ra).
Proof.
  split; [exact sample_db_unique_ids|].
  exact (X4_transfer_commits_iff sample_db "X" "Y" "TX1" 3000 sample_now
           sample_db_unique_ids).
Defined.

(** X5.  On an accounts table keyed by [id], a transfer that commits
    rewrites exactly two rows: the source row takes the balance
    [sourceBalance - amount] and the destination row the balance
    [destBalance + amount] (in [int64]), each with its version advanced by
    one; every other row is left as it was. *)
Theorem X5_commit_rewrites_exactly_two_rows :
  forall (db db' : DB) (a b txid : string) (amount now : Z),
    unique_ids (accounts db) ->
    Ledger.Transfer db a b txid amount now = (None, db') ->
    exists ra rb,
      Ledger.find_account a (accounts db) = Some ra
      /\ Ledger.find_account b (accounts db) = Some rb
      /\ acc_id ra <> acc_id rb
      /\ Forall2
           (fun r r' =>
              (acc_id r = acc_id ra ->
               r = ra /\ acc_balance r' = sub64 (acc_balance ra) amount
               /\ acc_version r' = acc_version ra + 1)
              /\ (acc_id r = acc_id rb ->
                  r = rb /\ acc_balance r' = add64 (acc_balance rb) amount
                  /\ acc_version r' = acc_version rb + 1)
              /\ (acc_id r <> acc_id ra -> acc_id r <> acc_id rb -> r' = r))
           (accounts db) (accounts db').
Proof.
  intros db db' a b txid amount now U T.
  destruct (Transfer_ok_unique _ _ _ _ _ _ _ U T)
    as (ra & rb & Fa & Fb & N & Hle & E).
  exists ra, rb. split; [exact Fa|]. split; [exact Fb|]. split; [exact N|].
  rewrite E.
  pose proof (find_account_In _ _ _ Fa) as Ia.
  pose proof (find_account_In _ _ _ Fb) as Ib.
  assert (P : forall r, In r (accounts db) ->
              (acc_id r = acc_id ra ->
               r = ra /\ acc_balance (transfer_row ra rb amount now r)
                         = sub64 (acc_balance ra) amount
               /\ acc_version (transfer_row ra rb amount now r) = acc_version ra + 1)
              /\ (acc_id r = acc_id rb ->
                  r = rb /\ acc_balance (transfer_row ra rb amount now r)
                            = add64 (acc_balance rb) amount
                  /\ acc_version (transfer_row ra rb amount now r) = acc_version rb + 1)
              /\ (acc_id r <> acc_id ra -> acc_id r <> acc_id rb ->
                  transfer_row ra rb amount now r = r)).
  { intros r Hr. unfold transfer_row. split; [|split].
    - intros Eid. pose proof (unique_row _ _ _ U Hr Ia Eid) as ->.
      rewrite String.eqb_refl. simpl. repeat split; reflexivity.
    - intros Eid. pose proof (unique_row _ _ _ U Hr Ib Eid) as ->.
      assert (Eb : String.eqb (acc_id rb) (acc_id ra) = false).
      { apply String.eqb_neq. intros X. apply N. symmetry. exact X. }
      rewrite Eb, String.eqb_refl. simpl. repeat split; reflexivity.
    - intros Na Nb.
      assert (E1 : String.eqb (acc_id r) (acc_id ra) = false)
        by (apply String.eqb_neq; exact Na).
      assert (E2 : String.eqb (acc_id r) (acc_id rb) = false)
        by (apply String.eqb_neq; exact Nb).
      rewrite E1, E2. reflexivity. }
  clear E T U Ia Ib Fa Fb. revert P.
  induction (accounts db) as [|x rows IH]; intros P; simpl; constructor.
  - apply P. left. reflexivity.
  - apply IH. intros r Hr. apply P. right. exact Hr.
Qed.

Lemma X5_witness_sample_db :
  unique_ids (accounts sample_db)
  /\ List.map acc_balance
       (accounts (snd (Ledger.Transfer sample_db "X" "Y" "TX1" 3000 sample_now)))
     = [2000; 5000]
  /\ exists ra rb,
       Ledger.find_account "X" (accounts sample_db) = Some ra
       /\ Ledger.find_account "Y" (accounts sample_db) = Some rb
       /\ acc_id ra <> acc_id rb.
Proof.
  split; [exact sample_db_unique_ids|]. split; [vm_compute; reflexivity|].
  assert (T : Ledger.Transfer sample_db "X" "Y" "TX1" 3000 sample_now
              = (None, snd (Ledger.Transfer sample_db "X" "Y" "TX1" 3000 sample_now)))
    by (vm_compute; reflexivity).
  destruct (X5_commit_rewrites_exactly_two_rows _ _ _ _ _ _ _ sample_db_unique_ids T)
    as (ra & rb & Fa & Fb & N & _).
  exists ra, rb. split; [exact Fa|]. split; [exact Fb | exact N].
Defined.

(** *** Conservation and sign of the balances *)

Lemma total_balance_update_one rows (r0 : AccountRow) newBalance now :
  unique_ids rows -> In r0 rows ->
  total_balance
    (List.map (fun r => if String.eqb (acc_id r) (acc_id r0)
                        then Ledger.update_row newBalance now r else r) rows)
  = total_balance rows - acc_balance r0 + newBalance.
Proof.
  unfold unique_ids. induction rows as [|x rows IH]; simpl; [tauto|].
  intros U H0. apply List.NoDup_cons_iff in U as [Hx U].
  destruct H0 as [->|H0].
  - rewrite String.eqb_refl. simpl.
    assert (Same : List.map (fun r => if String.eqb (acc_id r) (acc_id r0)
                                      then Ledger.update_row newBalance now r else r) rows
                   = rows).
    { rewrite <- (List.map_id rows) at 2. apply List.map_ext_in. intros r Hr.
      destruct (String.eqb (acc_id r) (acc_id r0)) eqn:E; [|reflexivity].
      exfalso. apply Hx. apply String.eqb_eq in E. rewrite <- E.
      apply List.in_map. exact Hr. }
    rewrite Same. lia.
  - assert (E : String.eqb (acc_id x) (acc_id r0) = false).
    { apply String.eqb_neq. intros E. apply Hx. rewrite E.
      apply List.in_map. exact H0. }
    rewrite E. simpl. rewrite (IH U H0). lia.
Qed.

Lemma total_balance_transfer rows (ra rb : AccountRow) amount now :
  unique_ids rows -> In ra rows -> In rb rows -> acc_id ra <> acc_id rb ->
  total_balance (List.map (transfer_row ra rb amount now) rows)
  = total_balance rows
    - acc_balance ra + sub64 (acc_balance ra) amount
    - acc_balance rb + add64 (acc_balance rb) amount.
Proof.
  intros U Ia Ib N.
  set (k1 := fun r => if String.eqb (acc_id r) (acc_id ra)
                      then Ledger.update_row (sub64 (acc_balance ra) amount) now r
                      else r).
  assert (Eb : String.eqb (acc_id rb) (acc_id ra) = false).
  { apply String.eqb_neq. intros X. apply N. symmetry. exact X. }
  assert (Eab : String.eqb (acc_id ra) (acc_id rb) = false)
    by (apply String.eqb_neq; exact N).
  assert (C : List.map (transfer_row ra rb amount now) rows
              = List.map (fun r => if String.eqb (acc_id r) (acc_id rb)
                                   then Ledger.update_row
                                          (add64 (acc_balance rb) amount) now r
                                   else r) (List.map k1 rows)).
  { rewrite List.map_map. apply List.map_ext. intros r. unfold transfer_row, k1.
    destruct (String.eqb (acc_id r) (acc_id ra)) eqn:Ea; [|reflexivity].
    simpl. apply String.eqb_eq in Ea. rewrite Ea, Eab. reflexivity. }
  rewrite C.
  assert (U1 : unique_ids (List.map k1 rows)).
  { unfold unique_ids. rewrite List.map_map. erewrite List.map_ext; [exact U|].
    intros r. unfold k1. destruct (String.eqb (acc_id r) (acc_id ra)); reflexivity. }
  assert (I1 : In rb (List.map k1 rows)).
  { apply List.in_map_iff. exists rb. split; [|exact Ib]. unfold k1.
    rewrite Eb. reflexivity. }
  rewrite (total_balance_update_one _ rb _ _ U1 I1).
  unfold k1. rewrite (total_balance_update_one _ ra _ _ U Ia). lia.
Qed.

(** X6.  On an accounts table keyed by [id] whose balances fit [int64], a
    call of [Transfer] with a non-negative amount that no balance of the
    table would overflow with leaves the sum of all balances as it was,
    whether it commits or not. *)
Theorem X6_transfer_conserves_total_balance :
  forall (db : DB) (a b txid : string) (amount now : Z),
    unique_ids (accounts db) ->
    0 <= amount ->
    Forall (fun r => int64_min <= acc_balance r /\ acc_balance r + amount <= int64_max)
           (accounts db) ->
    total_balance (accounts (snd (Ledger.Transfer db a b txid amount now)))
    = total_balance (accounts db).
Proof.
  intros db a b txid amount now U Hpos R.
  destruct (Ledger.Transfer db a b txid amount now) as [[e|] db'] eqn:T; simpl.
  - apply Transfer_error_rolls_back in T. subst db'. reflexivity.
  - destruct (Transfer_ok_unique _ _ _ _ _ _ _ U T)
      as (ra & rb & Fa & Fb & N & Hle & E).
    pose proof (find_account_In _ _ _ Fa) as Ia.
    pose proof (find_account_In _ _ _ Fb) as Ib.
    rewrite E, (total_balance_transfer _ _ _ _ _ U Ia Ib N).
    pose proof (proj1 (List.Forall_forall _ _) R ra Ia) as [La Ha].
    pose proof (proj1 (List.Forall_forall _ _) R rb Ib) as [Lb Hb].
    unfold sub64, add64.
    rewrite !wrap64_id; unfold in_int64 in *; unfold int64_min, int64_max in *; lia.
Qed.

Lemma X6_witness_sample_db :
  unique_ids (accounts sample_db)
  /\ total_balance
       (accounts (snd (Ledger.Transfer sample_db "X" "Y" "TX1" 3000 sample_now))) = 7000.
Proof.
  split; [exact sample_db_unique_ids|].
  rewrite (X6_transfer_conserves_total_balance sample_db "X" "Y" "TX1" 3000 sample_now
             sample_db_unique_ids).
  - reflexivity.
  - lia.
  - repeat constructor; vm_compute; discriminate.
Defined.

Lemma Forall_apply_update (P : AccountRow -> Prop) accountID newBalance version now rows :
  (forall r, P r -> P (Ledger.update_row newBalance now r)) ->
  Forall P rows ->
  Forall P (Ledger.apply_update accountID newBalance version now rows).
Proof.
  intros K F. unfold Ledger.apply_update. apply List.Forall_map.
  eapply List.Forall_impl; [|exact F]. intros r Hr.
  destruct (Ledger.update_matches accountID version r); auto.
Qed.

(** X7.  When no balance of the accounts table is negative and the amount
    is non-negative and overflows none of them, no balance is negative
    after [Transfer], whether it commits or not. *)
Theorem X7_transfer_keeps_balances_non_negative :
  forall (db : DB) (a b txid : string) (amount now : Z),
    0 <= amount ->
    Forall (fun r => 0 <= acc_balance r /\ acc_balance r + amount <= int64_max)
           (accounts db) ->
    Forall (fun r => 0 <= acc_balance r)
           (accounts (snd (Ledger.Transfer db a b txid amount now))).
Proof.
  intros db a b txid amount now Hpos R.
  assert (R0 : Forall (fun r => 0 <= acc_balance r) (accounts db)).
  { eapply List.Forall_impl; [|exact R]. intros r [H _]. exact H. }
  destruct (Ledger.Transfer db a b txid amount now) as [[e|] db'] eqn:T; simpl.
  - apply Transfer_error_rolls_back in T. subst db'. exact R0.
  - destruct (Transfer_ok_inv _ _ _ _ _ _ _ T) as (ra & rb & Fa & Fb & Hle & ->).
    simpl.
    pose proof (proj1 (List.Forall_forall _ _) R ra (find_account_In _ _ _ Fa))
      as [La Ha].
    pose proof (proj1 (List.Forall_forall _ _) R rb (find_account_In _ _ _ Fb))
      as [Lb Hb].
    apply Forall_apply_update.
    { intros r _. simpl. unfold add64. rewrite wrap64_id; [lia|].
      unfold in_int64, int64_min, int64_max in *. lia. }
    apply Forall_apply_update; [|exact R0].
    intros r _. simpl. unfold sub64. rewrite wrap64_id; [lia|].
    unfold in_int64, int64_min, int64_max in *. lia.
Qed.

Lemma X7_witness_sample_db :
  0 <= 3000
  /\ Forall (fun r => 0 <= acc_balance r)
       (accounts (snd (Ledger.Transfer sample_db "X" "Y" "TX1" 3000 sample_now))).
Proof.
  assert (H : 0 <= 3000) by lia.
  split; [exact H|].
  apply (X7_transfer_keeps_balances_non_negative sample_db "X" "Y" "TX1" 3000 sample_now H).
  repeat constructor; vm_compute; discriminate.
Defined.

(** *** A transfer and its reverse *)

Lemma wrap64_add_l (x y : Z) : wrap64 (wrap64 x + y) = wrap64 (x + y).
Proof.
  unfold wrap64. f_equal.
  replace ((x + 2 ^ 63) mod 2 ^ 64 - 2 ^ 63 + y + 2 ^ 63)
    with ((x + 2 ^ 63) mod 2 ^ 64 + y) by lia.
  rewrite Zplus_mod_idemp_l. f_equal. lia.
Qed.

Lemma add64_sub64 (a m : Z) : in_int64 a -> add64 (sub64 a m) m = a.
Proof.
  intros H. unfold add64, sub64. rewrite wrap64_add_l.
  replace (a - m + m) with a by lia. apply wrap64_id. exact H.
Qed.

Lemma sub64_add64 (a m : Z) : in_int64 a -> sub64 (add64 a m) m = a.
Proof.
  intros H. unfold add64, sub64.
  replace (wrap64 (a + m) - m) with (wrap64 (a + m) + - m) by lia.
  rewrite wrap64_add_l.
  replace (a + m + - m) with a by lia. apply wrap64_id. exact H.
Qed.

Lemma account_matches_transfer_row x ra rb amount now r :
  Ledger.account_matches x (transfer_row ra rb amount now r) = Ledger.account_matches x r.
Proof.
  unfold transfer_row.
  destruct (String.eqb (acc_id r) (acc_id ra)); [reflexivity|].
  destruct (String.eqb (acc_id r) (acc_id rb)); reflexivity.
Qed.

Lemma find_account_transfer_row x ra rb amount now rows :
  Ledger.find_account x (List.map (transfer_row ra rb amount now) rows)
  = match Ledger.find_account x rows with
    | Some r => Some (transfer_row ra rb amount now r)
    | None => None
    end.
Proof.
  unfold Ledger.find_account. induction rows as [|r rows IH]; simpl; [reflexivity|].
  rewrite account_matches_transfer_row.
  destruct (Ledger.account_matches x r); [reflexivity | exact IH].
Qed.

Lemma acc_id_transfer_row ra rb amount now r :
  acc_id (transfer_row ra rb amount now r) = acc_id r.
Proof.
  unfold transfer_row.
  destruct (String.eqb (acc_id r) (acc_id ra)); [reflexivity|].
  destruct (String.eqb (acc_id r) (acc_id rb)); reflexivity.
Qed.

(** X8.  On an accounts table keyed by [id] whose balances fit [int64], when
    a transfer of an amount from [a] to [b] commits and the transfer of the
    same amount from [b] to [a] then commits too, every account has the
    balance it started with. *)
Theorem X8_reverse_transfer_restores_balances :
  forall (db db1 db2 : DB) (a b txid1 txid2 : string) (amount now1 now2 : Z),
    unique_ids (accounts db) ->
    Forall (fun r => in_int64 (acc_balance r)) (accounts db) ->
    Ledger.Transfer db a b txid1 amount now1 = (None, db1) ->
    Ledger.Transfer db1 b a txid2 amount now2 = (None, db2) ->
    List.map acc_balance (accounts db2) = List.map acc_balance (accounts db)
    /\ List.map identity_of (accounts db2) = List.map identity_of (accounts db).
Proof.
  intros db db1 db2 a b txid1 txid2 amount now1 now2 U R T1 T2.
  split.
  2:{ pose proof (Transfer_keeps_identity db a b txid1 amount now1) as I1.
      pose proof (Transfer_keeps_identity db1 b a txid2 amount now2) as I2.
      rewrite T1 in I1. rewrite T2 in I2. simpl in I1, I2. congruence. }
  destruct (Transfer_ok_unique _ _ _ _ _ _ _ U T1)
    as (ra & rb & Fa & Fb & N & _ & E1).
  assert (U1 : unique_ids (accounts db1)).
  { unfold unique_ids. rewrite E1, List.map_map.
    erewrite List.map_ext; [exact U|]. intros r. apply acc_id_transfer_row. }
  destruct (Transfer_ok_unique _ _ _ _ _ _ _ U1 T2)
    as (rb' & ra' & Fb' & Fa' & _ & _ & E2).
  rewrite E1, find_account_transfer_row, Fb in Fb'.
  rewrite E1, find_account_transfer_row, Fa in Fa'.
  inversion Fb'; subst rb'. inversion Fa'; subst ra'. clear Fa' Fb'.
  pose proof (find_account_In _ _ _ Fa) as Ia.
  pose proof (find_account_In _ _ _ Fb) as Ib.
  assert (Eab : String.eqb (acc_id ra) (acc_id rb) = false)
    by (apply String.eqb_neq; exact N).
  assert (Eba : String.eqb (acc_id rb) (acc_id ra) = false).
  { apply String.eqb_neq. intros X. apply N. symmetry. exact X. }
  assert (Ka : transfer_row ra rb amount now1 ra
               = Ledger.update_row (sub64 (acc_balance ra) amount) now1 ra).
  { unfold transfer_row. rewrite String.eqb_refl. reflexivity. }
  assert (Kb : transfer_row ra rb amount now1 rb
               = Ledger.update_row (add64 (acc_balance rb) amount) now1 rb).
  { unfold transfer_row. rewrite Eba, String.eqb_refl. reflexivity. }
  rewrite E2, E1, !List.map_map. apply List.map_ext_in. intros r Hr.
  rewrite Ka, Kb. unfold transfer_row at 1. simpl.
  rewrite acc_id_transfer_row.
  destruct (String.eqb (acc_id r) (acc_id rb)) eqn:Erb.
  - apply String.eqb_eq in Erb. pose proof (unique_row _ _ _ U Hr Ib Erb) as ->.
    simpl. apply sub64_add64.
    exact (proj1 (List.Forall_forall _ _) R rb Ib).
  - destruct (String.eqb (acc_id r) (acc_id ra)) eqn:Era.
    + apply String.eqb_eq in Era. pose proof (unique_row _ _ _ U Hr Ia Era) as ->.
      simpl. apply add64_sub64.
      exact (proj1 (List.Forall_forall _ _) R ra Ia).
    + unfold transfer_row. rewrite Era, Erb. reflexivity.
Qed.

Lemma X8_witness_there_and_back :
  unique_ids (accounts sample_db)
  /\ List.map acc_balance
       (accounts
          (snd (Ledger.Transfer
                  (snd (Ledger.Transfer sample_db "X" "Y" "TX1" 3000 sample_now))
                  "Y" "X" "TX2" 3000 sample_now)))
     = [5000; 2000].
Proof.
  split; [exact sample_db_unique_ids|].
  refine (proj1 (X8_reverse_transfer_restores_balances sample_db
                   (snd (Ledger.Transfer sample_db "X" "Y" "TX1" 3000 sample_now))
                   _ "X" "Y" "TX1" "TX2" 3000 sample_now sample_now
                   sample_db_unique_ids _ _ _)).
  - repeat constructor; vm_compute; discriminate.
  - vm_compute. reflexivity.
  - vm_compute. reflexivity.
Defined.

(** ** The transaction service: the signed bytes *)

Lemma byte_of_Z_value (z : Z) :
  Z.of_N (Byte.to_N (TxService.byte_of_Z z)) = z mod 256.
Proof.
  unfold TxService.byte_of_Z.
  pose proof (Z.mod_pos_bound z 256 ltac:(lia)) as Hb.
  destruct (Byte.of_N (Z.to_N (z mod 256))) eqn:E.
  - apply Byte.to_of_N in E. rewrite E. apply Z2N.id. lia.
  - apply Byte.of_N_None_iff in E. lia.
Qed.

Lemma byte_to_N_inj (a b : byte) : Byte.to_N a = Byte.to_N b -> a = b.
Proof.
  intros H.
  assert (E : Some a = Some b) by (rewrite <- (Byte.of_to_N a), <- (Byte.of_to_N b), H; reflexivity).
  congruence.
Qed.

Lemma fill_bytes_app (k : nat) (n : Z) (bs : list byte) :
  TxService.fill_bytes k n bs = TxService.fill_bytes k n [] ++ bs.
Proof.
  revert n bs. induction k as [|k IH]; intros n bs; simpl.
  - reflexivity.
  - rewrite IH. rewrite (IH _ [_]). rewrite <- List.app_assoc. reflexivity.
Qed.

Lemma fill_bytes_length (k : nat) (n : Z) (bs : list byte) :
  List.length (TxService.fill_bytes k n bs) = (k + List.length bs)%nat.
Proof.
  revert n bs. induction k as [|k IH]; intros n bs; simpl.
  - reflexivity.
  - rewrite IH. simpl. lia.
Qed.

Lemma be_value_app (bs1 bs2 : list byte) (acc : Z) :
  be_value (bs1 ++ bs2) acc = be_value bs2 (be_value bs1 acc).
Proof.
  revert acc. induction bs1 as [|b bs1 IH]; intros acc; simpl.
  - reflexivity.
  - apply IH.
Qed.

Lemma be_value_fill (k : nat) (n : Z) :
  be_value (TxService.fill_bytes k n []) 0 = n mod 256 ^ Z.of_nat k.
Proof.
  revert n. induction k as [|k IH]; intros n.
  - simpl. symmetry. apply Z.mod_1_r.
  - simpl TxService.fill_bytes. rewrite fill_bytes_app, be_value_app, IH.
    simpl be_value. rewrite byte_of_Z_value.
    change 255 with (Z.ones 8). rewrite Z.land_ones by lia.
    rewrite Z.shiftr_div_pow2 by lia.
    change (2 ^ 8) with 256. rewrite Z.mod_mod by lia.
    rewrite Nat2Z.inj_succ, Z.pow_succ_r by lia.
    rewrite (Z.rem_mul_r n 256 (256 ^ Z.of_nat k)) by (try apply Z.pow_pos_nonneg; lia).
    lia.
Qed.

Lemma mod_inj_centered (m a b : Z) :
  0 < m -> - m <= 2 * a < m -> - m <= 2 * b < m -> a mod m = b mod m -> a = b.
Proof.
  intros Hm Ha Hb E.
  pose proof (Z.div_mod a m ltac:(lia)) as Da.
  pose proof (Z.div_mod b m ltac:(lia)) as Db.
  rewrite E in Da.
  assert (a / m = b / m) by nia.
  congruence.
Qed.

Lemma int64ToBytes_inj (a b : Z) :
  in_int64 a -> in_int64 b -> TxService.int64ToBytes a = TxService.int64ToBytes b -> a = b.
Proof.
  unfold in_int64, int64_min, int64_max. intros Ha Hb E.
  apply (f_equal (fun bs => be_value bs 0)) in E.
  unfold TxService.int64ToBytes in E. rewrite !be_value_fill in E.
  apply (mod_inj_centered (256 ^ Z.of_nat 8)); [reflexivity | simpl; lia | simpl; lia | exact E].
Qed.

Lemma uint32ToBytes_inj (a b : Z) :
  0 <= a < 2 ^ 32 -> 0 <= b < 2 ^ 32 ->
  TxService.uint32ToBytes a = TxService.uint32ToBytes b -> a = b.
Proof.
  intros Ha Hb E.
  apply (f_equal (fun bs => be_value bs 0)) in E.
  unfold TxService.uint32ToBytes in E. rewrite !be_value_fill in E.
  change (256 ^ Z.of_nat 4) with (2 ^ 32) in E.
  rewrite !Z.mod_small in E by assumption. exact E.
Qed.

(** X9.  [int64ToBytes] and [uint32ToBytes] write their argument most
    significant byte first: the result has 8 (4) bytes and denotes the
    argument modulo 2^64 (2^32); so two [int64] values, or two [uint32]
    values, with the same bytes are equal. *)
Theorem X9_integers_are_written_big_endian :
  forall n : Z,
    List.length (TxService.int64ToBytes n) = 8%nat
    /\ be_value (TxService.int64ToBytes n) 0 = n mod 2 ^ 64
    /\ List.length (TxService.uint32ToBytes n) = 4%nat
    /\ be_value (TxService.uint32ToBytes n) 0 = n mod 2 ^ 32
    /\ (forall m, in_int64 n -> in_int64 m ->
                  TxService.int64ToBytes n = TxService.int64ToBytes m -> n = m)
    /\ (forall m, 0 <= n < 2 ^ 32 -> 0 <= m < 2 ^ 32 ->
                  TxService.uint32ToBytes n = TxService.uint32ToBytes m -> n = m).
Proof.
  intros n. unfold TxService.int64ToBytes, TxService.uint32ToBytes.
  rewrite !fill_bytes_length, !be_value_fill.
  repeat split.
  - intros m. apply int64ToBytes_inj.
  - intros m. apply uint32ToBytes_inj.
Qed.

Lemma list_byte_of_string_length (s : string) :
  List.length (list_byte_of_string s) = String.length s.
Proof.
  unfold list_byte_of_string. rewrite List.length_map.
  induction s as [|c s IH]; simpl; congruence.
Qed.

Lemma list_byte_of_string_inj (s t : string) :
  list_byte_of_string s = list_byte_of_string t -> s = t.
Proof.
  intros E. rewrite <- (string_of_list_byte_of_string s), <- (string_of_list_byte_of_string t), E.
  reflexivity.
Qed.

Lemma list_byte_of_string_app (s t : string) :
  list_byte_of_string (String.append s t) = list_byte_of_string s ++ list_byte_of_string t.
Proof.
  unfold list_byte_of_string. rewrite <- List.map_app. f_equal.
  induction s as [|c s IH]; simpl.
  - reflexivity.
  - rewrite IH. reflexivity.
Qed.

Lemma string_field_split (s t : string) (l1 l2 : list byte) :
  String.length s = String.length t ->
  list_byte_of_string s ++ l1 = list_byte_of_string t ++ l2 ->
  s = t /\ l1 = l2.
Proof.
  intros Hlen E.
  apply app_inj_1 in E; [|rewrite !list_byte_of_string_length; exact Hlen].
  destruct E as [E1 E2]. split; [apply list_byte_of_string_inj; exact E1 | exact E2].
Qed.

(** X10.  Among requests whose identifiers and currency have the same
    lengths, [serializeTransaction] is injective on the fields it reads:
    two such requests with the same signed bytes agree on version,
    identifier, timestamp, card, merchant, amount, currency, counter and
    type. *)
Theorem X10_signed_bytes_determine_the_fields :
  forall tx1 tx2 : TxService.Transaction,
    well_typed tx1 -> well_typed tx2 ->
    String.length (TxService.TxID tx1) = String.length (TxService.TxID tx2) ->
    String.length (TxService.CardID tx1) = String.length (TxService.CardID tx2) ->
    String.length (TxService.MerchantID tx1) = String.length (TxService.MerchantID tx2) ->
    String.length (TxService.Currency tx1) = String.length (TxService.Currency tx2) ->
    TxService.serializeTransaction tx1 = TxService.serializeTransaction tx2 ->
    authenticated_fields tx1 = authenticated_fields tx2.
Proof.
  intros tx1 tx2 (Hv1 & Ht1 & Ha1 & Hc1) (Hv2 & Ht2 & Ha2 & Hc2) L1 L2 L3 L4 E.
  unfold TxService.serializeTransaction in E.
  apply app_inj_1 in E; [|reflexivity]. destruct E as [Ev E].
  injection Ev as Ev.
  apply (f_equal (fun b => Z.of_N (Byte.to_N b))) in Ev.
  rewrite !byte_of_Z_value, !Z.mod_small in Ev by assumption.
  apply string_field_split in E; [|exact L1]. destruct E as [E1 E].
  apply app_inj_1 in E;
    [|unfold TxService.int64ToBytes; rewrite !fill_bytes_length; reflexivity].
  destruct E as [E2 E]. apply int64ToBytes_inj in E2; [|assumption..].
  apply string_field_split in E; [|exact L2]. destruct E as [E3 E].
  apply string_field_split in E; [|exact L3]. destruct E as [E4 E].
  apply app_inj_1 in E;
    [|unfold TxService.int64ToBytes; rewrite !fill_bytes_length; reflexivity].
  destruct E as [E5 E]. apply int64ToBytes_inj in E5; [|assumption..].
  apply string_field_split in E; [|exact L4]. destruct E as [E6 E].
  apply app_inj_1 in E;
    [|unfold TxService.uint32ToBytes; rewrite !fill_bytes_length; reflexivity].
  destruct E as [E7 E]. apply uint32ToBytes_inj in E7; [|assumption..].
  apply list_byte_of_string_inj in E.
  unfold authenticated_fields. congruence.
Qed.

(** X11.  The signed bytes carry no field boundaries and leave out the
    narration, the status and the signature itself: moving a suffix of the
    card identifier to the front of the merchant identifier does not change
    them. *)
Theorem X11_signed_bytes_have_no_field_boundaries :
  forall (tx : TxService.Transaction) (card suffix merchant : string),
    TxService.serializeTransaction
      (with_parties tx (String.append card suffix) merchant)
    = TxService.serializeTransaction
        (with_parties tx card (String.append suffix merchant)).
Proof.
  intros tx card suffix merchant.
  unfold TxService.serializeTransaction, with_parties. simpl.
  rewrite !list_byte_of_string_app, <- !List.app_assoc. reflexivity.
Qed.

Lemma X10_witness_signature_is_not_a_field :
  authenticated_fields (request "TX1" sample_now 1000 1)
  = authenticated_fields
      (TxService.with_signature (request "TX1" sample_now 1000 1) "00ff").
Proof.
  apply X10_signed_bytes_determine_the_fields;
    try reflexivity;
    unfold well_typed, in_int64, int64_min, int64_max, sample_now; simpl; lia.
Defined.

(** ** The transaction service: validation *)

Section ValidationFacts.

Import TxService.

Lemma ValidateStruct_fields tx :
  ValidateStruct tx = true ->
  String.eqb (TxID tx) "" = false
  /\ String.eqb (CardID tx) "" = false
  /\ String.eqb (MerchantID tx) "" = false
  /\ (Amount tx <=? 0) = false
  /\ String.eqb (Currency tx) "" = false
  /\ (Counter tx =? 0) = false
  /\ String.eqb (Signature tx) "" = false
  /\ (TxType tx = "DEBIT" \/ TxType tx = "CREDIT").
Proof.
  unfold ValidateStruct. intros V.
  repeat match type of V with
         | (_ && _) = true => apply andb_prop in V; destruct V as [V ?]
         end.
  repeat match goal with
         | H : negb _ = true |- _ => apply negb_true_iff in H
         end.
  repeat split; try assumption.
  - apply Z.leb_gt. apply Z.ltb_lt. assumption.
  - match goal with
    | H : (_ || _) = true |- _ =>
      apply orb_prop in H; destruct H as [H|H]; apply String.eqb_eq in H; tauto
    end.
Qed.

(** The messages [validateTransaction] can return. *)
Lemma validateTransaction_messages db tx now e :
  validateTransaction db tx now = Some e ->
  In e ["transaction ID is required"; "card ID is required"; "account not found";
        "account validation failed"; "account not active"; "merchant ID is required";
        "amount must be positive"; "insufficient balance"; "balance check failed";
        "currency is required"; "counter is required"; "signature is required";
        "transaction timestamp is in the future";
        "transaction timestamp is too old (>7 days)"].
Proof.
  unfold validateTransaction, validateAccountInternal, checkSufficientBalanceInternal.
  intros H.
  destruct (String.eqb (TxID tx) ""); [inversion H; simpl; tauto|].
  destruct (String.eqb (CardID tx) ""); [inversion H; simpl; tauto|].
  destruct (find_by_card (CardID tx) (accounts db)) as [r|]; [|inversion H; simpl; tauto].
  destruct (acc_status r) as [s|]; [|inversion H; simpl; tauto].
  destruct (negb (String.eqb s "ACTIVE")); [inversion H; simpl; tauto|].
  destruct (String.eqb (MerchantID tx) ""); [inversion H; simpl; tauto|].
  destruct (Amount tx <=? 0); [inversion H; simpl; tauto|].
  destruct (String.eqb (TxType tx) "DEBIT");
    [destruct (acc_balance r <? Amount tx); [inversion H; simpl; tauto|]|];
    (destruct (String.eqb (Currency tx) ""); [inversion H; simpl; tauto|];
     destruct (Counter tx =? 0); [inversion H; simpl; tauto|];
     destruct (String.eqb (Signature tx) ""); [inversion H; simpl; tauto|];
     destruct (now + 60 <? Timestamp tx); [inversion H; simpl; tauto|];
     destruct (Timestamp tx <? now - 86400 * 7); [inversion H; simpl; tauto|];
     discriminate).
Qed.

Lemma validateTransaction_after_struct db tx now :
  ValidateStruct tx = true ->
  validateTransaction db tx now
  = match find_by_card (CardID tx) (accounts db) with
    | None => Some "account not found"
    | Some r =>
      match acc_status r with
      | None => Some "account validation failed"
      | Some status =>
        if negb (String.eqb status "ACTIVE") then Some "account not active"
        else if String.eqb (TxType tx) "DEBIT" && (acc_balance r <? Amount tx)
        then Some "insufficient balance"
        else if now + 60 <? Timestamp tx
        then Some "transaction timestamp is in the future"
        else if Timestamp tx <? now - 86400 * 7
        then Some "transaction timestamp is too old (>7 days)"
        else None
      end
    end.
Proof.
  intros V. destruct (ValidateStruct_fields tx V) as (F1 & F2 & F3 & F4 & F5 & F6 & F7 & _).
  unfold validateTransaction, validateAccountInternal, checkSufficientBalanceInternal.
  rewrite F1, F2.
  destruct (find_by_card (CardID tx) (accounts db)) as [r|]; [|reflexivity].
  destruct (acc_status r) as [s|]; [|reflexivity].
  destruct (negb (String.eqb s "ACTIVE")); [reflexivity|].
  rewrite F3, F4.
  destruct (String.eqb (TxType tx) "DEBIT"); cbn [andb].
  - destruct (acc_balance r <? Amount tx); [reflexivity|]. rewrite F5, F6, F7. reflexivity.
  - rewrite F5, F6, F7. reflexivity.
Qed.

End ValidationFacts.

(** X12.  After [ValidateStruct] has accepted a request, the field checks
    of [validateTransaction] cannot fail any more: it accepts the request
    exactly when the card's account row exists and is [ACTIVE], a [DEBIT]
    is covered by the balance, and the timestamp lies between seven days
    before and sixty seconds after the clock; and any error it returns is
    about the account, the balance or the timestamp. *)
Theorem X12_after_struct_validation_only_account_balance_and_time_count :
  forall (db : DB) (tx : TxService.Transaction) (now : Z),
    TxService.ValidateStruct tx = true ->
    (TxService.validateTransaction db tx now = None
     <-> exists r,
           TxService.find_by_card (TxService.CardID tx) (accounts db) = Some r
           /\ acc_status r = Some "ACTIVE"
           /\ (TxService.TxType tx = "DEBIT" -> TxService.Amount tx <= acc_balance r)
           /\ now - 604800 <= TxService.Timestamp tx <= now + 60)
    /\ (forall e,
          TxService.validateTransaction db tx now = Some e ->
          In e ["account not found"; "account validation failed"; "account not active";
                "insufficient balance"; "transaction timestamp is in the future";
                "transaction timestamp is too old (>7 days)"]).
Proof.
  intros db tx now V. rewrite (validateTransaction_after_struct db tx now V).
  destruct (TxService.find_by_card (TxService.CardID tx) (accounts db)) as [r|].
  2:{ split; [split; [discriminate | intros (r & F & _); discriminate]|].
      intros e H; inversion H; simpl; tauto. }
  destruct (acc_status r) as [s|] eqn:St.
  2:{ split; [split; [discriminate | intros (r' & F & S & _); congruence]|].
      intros e H; inversion H; simpl; tauto. }
  destruct (String.eqb s "ACTIVE") eqn:A; cbn [negb].
  2:{ split; [split; [discriminate|]|].
      - intros (r' & F & S & _). inversion F; subst r'.
        rewrite St in S. inversion S; subst s. rewrite String.eqb_refl in A. discriminate.
      - intros e H; inversion H; simpl; tauto. }
  apply String.eqb_eq in A. subst s.
  destruct (String.eqb (TxService.TxType tx) "DEBIT") eqn:D; cbn [andb].
  - apply String.eqb_eq in D.
    destruct (acc_balance r <? TxService.Amount tx) eqn:B.
    { apply Z.ltb_lt in B. split; [split; [discriminate|]|].
      - intros (r' & F & _ & Hb & _). inversion F; subst r'. specialize (Hb D). lia.
      - intros e H; inversion H; simpl; tauto. }
    apply Z.ltb_ge in B.
    destruct (now + 60 <? TxService.Timestamp tx) eqn:T1.
    { apply Z.ltb_lt in T1. split; [split; [discriminate|]|].
      - intros (r' & _ & _ & _ & Ht). lia.
      - intros e H; inversion H; simpl; tauto. }
    apply Z.ltb_ge in T1.
    destruct (TxService.Timestamp tx <? now - 86400 * 7) eqn:T2.
    { apply Z.ltb_lt in T2. split; [split; [discriminate|]|].
      - intros (r' & _ & _ & _ & Ht). lia.
      - intros e H; inversion H; simpl; tauto. }
    apply Z.ltb_ge in T2.
    split; [split; [intros _|reflexivity]|discriminate].
    exists r. repeat split; try assumption; lia.
  - assert (ND : TxService.TxType tx <> "DEBIT").
    { intros E. rewrite E in D. discriminate. }
    destruct (now + 60 <? TxService.Timestamp tx) eqn:T1.
    { apply Z.ltb_lt in T1. split; [split; [discriminate|]|].
      - intros (r' & _ & _ & _ & Ht). lia.
      - intros e H; inversion H; simpl; tauto. }
    apply Z.ltb_ge in T1.
    destruct (TxService.Timestamp tx <? now - 86400 * 7) eqn:T2.
    { apply Z.ltb_lt in T2. split; [split; [discriminate|]|].
      - intros (r' & _ & _ & _ & Ht). lia.
      - intros e H; inversion H; simpl; tauto. }
    apply Z.ltb_ge in T2.
    split; [split; [intros _|reflexivity]|discriminate].
    exists r. repeat split; try assumption; try lia. intros E. contradiction.
Qed.

Lemma X12_witness_request_of_X :
  TxService.validateTransaction sample_db
    (TxService.with_signature (request "TX1" sample_now 1000 1) "00ff") sample_now = None.
Proof.
  apply (proj1 (X12_after_struct_validation_only_account_balance_and_time_count
                  sample_db
                  (TxService.with_signature (request "TX1" sample_now 1000 1) "00ff")
                  sample_now eq_refl)).
  exists account_X. repeat split; simpl; try reflexivity; unfold sample_now; lia.
Defined.

(** ** The transaction service: the single path *)

Section SinglePathFacts.

Import TxService.

Variable hmac_sha256 : list byte -> list byte -> list byte.

(** What [CreateTransaction] has done when it answers [201 Created]. *)
Lemma CreateTransaction_created_inv st tx now tx' st' :
  CreateTransaction hmac_sha256 st tx now = (Created tx', st') ->
  ValidateStruct tx = true
  /\ existing_status (st_db st) (TxID tx) = None
  /\ validateTransaction (st_db st) tx now = None
  /\ verifySignature hmac_sha256 (st_db st) tx = None
  /\ tx' = with_status tx "COMPLETED" now
  /\ exists ra rb,
       Ledger.find_account (CardID tx) (accounts (st_db st)) = Some ra
       /\ Ledger.find_account (MerchantID tx) (accounts (st_db st)) = Some rb
       /\ Amount tx <= acc_balance ra
       /\ st' = mkStore (db_after_create (st_db st) tx' ra rb now)
                        (st_settlement_queue st ++ [tx']).
Proof.
  unfold CreateTransaction. intros H.
  destruct (ValidateStruct tx) eqn:V; cbn [negb] in H; [|discriminate].
  destruct (existing_status (st_db st) (TxID tx)) as [s|] eqn:E; [discriminate|].
  destruct (validateTransaction (st_db st) tx now) as [e|] eqn:VT; [discriminate|].
  destruct (verifySignature hmac_sha256 (st_db st) tx) as [e|] eqn:VS; [discriminate|].
  unfold processLedgerTransferTx in H.
  destruct (Ledger.TransferTx (Begin (st_db st)) (CardID tx) (MerchantID tx) (TxID tx)
              (Amount tx) now) as [[e|] dbTx1] eqn:T; [discriminate|].
  destruct (TransferTx_ok_inv _ _ _ _ _ _ _ T) as (ra & rb & Ha & Hb & Hle & ->).
  unfold storeTransactionTx in H.
  change (transactions (tx_db (after_credit (Begin (st_db st)) (CardID tx) (MerchantID tx)
                                 (TxID tx) ra rb (Amount tx) now)))
    with (transactions (st_db st)) in H.
  rewrite (existing_status_none_insert (st_db st) (TxID tx)) in H
    by (exact E || reflexivity).
  inversion H; subst tx' st'; clear H.
  repeat split; try reflexivity.
  exists ra, rb. repeat split; try assumption.
  unfold queueForSettlement, Commit, db_after_create. simpl.
  rewrite <- app_assoc. reflexivity.
Qed.

Lemma CreateTransaction_not_created st tx now resp st' :
  CreateTransaction hmac_sha256 st tx now = (resp, st') ->
  (forall tx', resp <> Created tx') -> st' = st.
Proof.
  unfold CreateTransaction. intros H N.
  destruct (negb (ValidateStruct tx)); [inversion H; reflexivity|].
  destruct (existing_status (st_db st) (TxID tx)); [inversion H; reflexivity|].
  destruct (validateTransaction (st_db st) tx now); [inversion H; reflexivity|].
  destruct (verifySignature hmac_sha256 (st_db st) tx); [inversion H; reflexivity|].
  destruct (processLedgerTransferTx (Begin (st_db st)) tx now) as [[e|] dbTx1];
    [inversion H; reflexivity|].
  destruct (storeTransactionTx dbTx1 tx now) as [[[e|] tx'] dbTx2];
    [inversion H; reflexivity|].
  inversion H; subst resp. exfalso. exact (N _ eq_refl).
Qed.

Lemma existing_status_after_insert db (row : TransactionRow) :
  existing_status db (tr_transaction_id row) = None ->
  existing_status
    (mkDB (accounts db) (ledger_entries db) (payment_states db)
          (transactions db ++ [row]) (cards db))
    (tr_transaction_id row)
  = Some (tr_status row).
Proof.
  unfold existing_status. simpl.
  destruct (List.find _ (transactions db)) as [r|] eqn:E; [discriminate|]. intros _.
  induction (transactions db) as [|x rows IH]; simpl in *.
  - rewrite String.eqb_refl. reflexivity.
  - destruct (String.eqb (tr_transaction_id x) (tr_transaction_id row)); [discriminate|].
    apply IH. exact E.
Qed.

End SinglePathFacts.

(** X13.  [CreateTransaction] commits all or nothing.  An answer other
    than [201 Created] leaves the store as it was.  A [201 Created] means
    that the identifier was not on record, validation and signature passed,
    and the store differs from the one before by exactly: the source and
    destination rows updated, the two ledger legs, the transaction row and
    the request on the settlement queue; the [payment_states] table is not
    written on this path. *)
Theorem X13_single_path_commits_all_or_nothing :
  forall (hmac_sha256 : list byte -> list byte -> list byte)
         (st : TxService.Store) (tx : TxService.Transaction) (now : Z),
    match TxService.CreateTransaction hmac_sha256 st tx now with
    | (TxService.Created tx', st') =>
      tx' = TxService.with_status tx "COMPLETED" now
      /\ TxService.existing_status (TxService.st_db st) (TxService.TxID tx) = None
      /\ TxService.validateTransaction (TxService.st_db st) tx now = None
      /\ TxService.verifySignature hmac_sha256 (TxService.st_db st) tx = None
      /\ exists ra rb,
           Ledger.find_account (TxService.CardID tx) (accounts (TxService.st_db st))
           = Some ra
           /\ Ledger.find_account (TxService.MerchantID tx)
                (accounts (TxService.st_db st)) = Some rb
           /\ TxService.Amount tx <= acc_balance ra
           /\ st' = TxService.mkStore
                      (db_after_create (TxService.st_db st) tx' ra rb now)
                      (TxService.st_settlement_queue st ++ [tx'])
    | (_, st') => st' = st
    end.
Proof.
  intros hmac_sha256 st tx now.
  destruct (TxService.CreateTransaction hmac_sha256 st tx now) as [resp st'] eqn:H.
  destruct resp as [status message|success tx0|tx'].
  - apply (CreateTransaction_not_created _ _ _ _ _ _ H). intros tx' C. discriminate.
  - apply (CreateTransaction_not_created _ _ _ _ _ _ H). intros tx' C. discriminate.
  - destruct (CreateTransaction_created_inv _ _ _ _ _ _ H)
      as (_ & E & VT & VS & Etx & ra & rb & Ha & Hb & Hle & Hst).
    repeat split; try assumption. exists ra, rb. repeat split; assumption.
Qed.

(** X14.  Once [CreateTransaction] has answered [201 Created] for a
    request, every later request with the same identifier that passes the
    struct validation (the same request again, or one with any other card,
    amount or signature) is answered from the record as already processed
    with [success = true], before any validation or signature check, and
    the store is not touched. *)
Theorem X14_recorded_identifier_short_circuits_every_later_request :
  forall (hmac_sha256 : list byte -> list byte -> list byte)
         (st st' : TxService.Store) (tx tx' : TxService.Transaction) (now : Z),
    TxService.CreateTransaction hmac_sha256 st tx now = (TxService.Created tx', st') ->
    (forall now',
       TxService.CreateTransaction hmac_sha256 st' tx now'
       = (TxService.AlreadyProcessed true tx, st'))
    /\ (forall tx2 now',
          TxService.TxID tx2 = TxService.TxID tx ->
          TxService.ValidateStruct tx2 = true ->
          TxService.CreateTransaction hmac_sha256 st' tx2 now'
          = (TxService.AlreadyProcessed true tx2, st')).
Proof.
  intros hmac_sha256 st st' tx tx' now H.
  destruct (CreateTransaction_created_inv _ _ _ _ _ _ H)
    as (V & E & _ & _ & Etx & ra & rb & _ & _ & _ & Hst).
  assert (R : TxService.existing_status (TxService.st_db st') (TxService.TxID tx)
              = Some "COMPLETED").
  { subst st' tx'. unfold db_after_create. simpl.
    exact (existing_status_after_insert
             (mkDB _ _ (payment_states (TxService.st_db st))
                   (transactions (TxService.st_db st)) (cards (TxService.st_db st)))
             (TxService.transaction_row (TxService.with_status tx "COMPLETED" now)) E). }
  assert (G : forall tx2 now',
             TxService.TxID tx2 = TxService.TxID tx ->
             TxService.ValidateStruct tx2 = true ->
             TxService.CreateTransaction hmac_sha256 st' tx2 now'
             = (TxService.AlreadyProcessed true tx2, st')).
  { intros tx2 now' Eid V2.
    rewrite (CreateTransaction_recorded hmac_sha256 st' tx2 now' "COMPLETED" V2)
      by (rewrite Eid; exact R).
    reflexivity. }
  split; [|exact G]. intros now'. apply G; [reflexivity | exact V].
Qed.

Lemma X14_witness_replay_of_TX1 :
  let tx := signed sample_mac sample_cak (request "TX1" sample_now 1000 1) in
  let st' := snd (TxService.CreateTransaction sample_mac sample_store tx sample_now) in
  TxService.CreateTransaction sample_mac st' tx (sample_now + 5)
  = (TxService.AlreadyProcessed true tx, st').
Proof.
  intros tx st'.
  apply (proj1 (X14_recorded_identifier_short_circuits_every_later_request
                  sample_mac sample_store st' tx
                  (TxService.with_status tx "COMPLETED" sample_now) sample_now
                  ltac:(vm_compute; reflexivity))).
Defined.

(** ** The transaction service: the batch path *)

Section BatchRecords.

Import TxService.

Variable hmac_sha256 : list byte -> list byte -> list byte.

Lemma validateTransaction_not_storage db tx now e :
  validateTransaction db tx now = Some e -> String.eqb e "Storage failed" = false.
Proof.
  intros H. apply validateTransaction_messages in H. simpl in H.
  repeat (destruct H as [<-|H]; [reflexivity|]). contradiction.
Qed.

Lemma storage_failures_app (F1 F2 : list FailedItem) :
  storage_failures (F1 ++ F2) = storage_failures F1 ++ storage_failures F2.
Proof. unfold storage_failures. apply List.filter_app. Qed.

Lemma insert_transaction_ok_inv row rows rows' :
  insert_transaction row rows = Ok rows' ->
  rows' = rows ++ [row] /\ ~ In (tr_transaction_id row) (List.map tr_transaction_id rows).
Proof.
  unfold insert_transaction. intros H.
  destruct (List.existsb _ rows) eqn:X; [discriminate|]. inversion H. split; [reflexivity|].
  intros Hin. apply List.in_map_iff in Hin as (r & Er & Hr).
  assert (C : List.existsb
                (fun r0 => String.eqb (tr_transaction_id r0) (tr_transaction_id row)) rows
              = true).
  { apply List.existsb_exists. exists r. split; [exact Hr|]. apply String.eqb_eq. exact Er. }
  congruence.
Qed.

(** What the loop of [BatchTransactions] leaves in the store. *)
Lemma batchLoop_records now (txs : list Transaction) :
  forall db P F db' P' F',
    batchLoop hmac_sha256 db txs P F now = (db', P', F') ->
    exists P1 F1,
      P' = P ++ P1 /\ F' = F ++ F1
      /\ cards db' = cards db
      /\ transactions db' = transactions db ++ List.map transaction_row P1
      /\ List.NoDup (List.map TxID P1)
      /\ (forall p, In p P1 -> ~ In (TxID p) (recorded_ids db))
      /\ List.length (ledger_entries db')
         = (List.length (ledger_entries db)
            + 2 * (List.length P1 + List.length (storage_failures F1)))%nat
      /\ List.length (payment_states db')
         = (List.length (payment_states db)
            + 2 * (List.length P1 + List.length (storage_failures F1)))%nat.
Proof.
  induction txs as [|tx rest IH]; intros db P F db' P' F' H.
  - simpl in H. inversion H; subst. exists [], [].
    rewrite !app_nil_r. simpl. repeat split; try constructor; try lia; contradiction.
  - cbn [batchLoop] in H.
    assert (Fail : forall reason,
               String.eqb reason "Storage failed" = false ->
               batchLoop hmac_sha256 db rest P (F ++ [mkFailedItem (TxID tx) reason]) now
               = (db', P', F') ->
               exists P1 F1,
                 P' = P ++ P1 /\ F' = F ++ F1
                 /\ cards db' = cards db
                 /\ transactions db' = transactions db ++ List.map transaction_row P1
                 /\ List.NoDup (List.map TxID P1)
                 /\ (forall p, In p P1 -> ~ In (TxID p) (recorded_ids db))
                 /\ List.length (ledger_entries db')
                    = (List.length (ledger_entries db)
                       + 2 * (List.length P1 + List.length (storage_failures F1)))%nat
                 /\ List.length (payment_states db')
                    = (List.length (payment_states db)
                       + 2 * (List.length P1 + List.length (storage_failures F1)))%nat).
    { intros reason NS H1.
      destruct (IH _ _ _ _ _ _ H1) as (P1 & F1 & -> & -> & Hc & Ht & Hn & Hd & Hl & Hp).
      exists P1, (mkFailedItem (TxID tx) reason :: F1).
      rewrite <- app_assoc. unfold storage_failures at 1 2. simpl. rewrite NS.
      repeat split; assumption. }
    destruct (validateTransaction db tx now) as [e|] eqn:V.
    { apply (Fail e); [exact (validateTransaction_not_storage _ _ _ _ V) | exact H]. }
    destruct (verifySignature hmac_sha256 db tx) as [e|].
    { apply (Fail "Signature verification failed"); [reflexivity | exact H]. }
    destruct (checkDoubleSpending db tx) as [e|].
    { apply (Fail "Double spending detected"); [reflexivity | exact H]. }
    unfold processLedgerTransfer in H.
    destruct (Ledger.Transfer db (CardID tx) (MerchantID tx) (TxID tx) (Amount tx) now)
      as [[e|] db1] eqn:T.
    { rewrite (Transfer_error_rolls_back _ _ _ _ _ _ _ _ T) in H.
      apply (Fail "Transfer failed"); [reflexivity | exact H]. }
    destruct (Transfer_ok_inv _ _ _ _ _ _ _ T) as (ra & rb & _ & _ & _ & E1).
    assert (Hc1 : cards db1 = cards db) by (subst db1; reflexivity).
    assert (Ht1 : transactions db1 = transactions db) by (subst db1; reflexivity).
    assert (Hl1 : List.length (ledger_entries db1)
                  = (List.length (ledger_entries db) + 2)%nat).
    { subst db1. simpl. rewrite List.length_app. reflexivity. }
    assert (Hp1 : List.length (payment_states db1)
                  = (List.length (payment_states db) + 2)%nat).
    { subst db1. simpl. rewrite List.length_app. reflexivity. }
    clear E1 T. unfold storeTransaction in H.
    destruct (insert_transaction (transaction_row (with_status tx "COMPLETED" now))
                (transactions db1)) as [rows|e] eqn:I.
    + apply insert_transaction_ok_inv in I as [-> Hfresh].
      destruct (IH _ _ _ _ _ _ H) as (P1 & F1 & -> & -> & Hc & Ht & Hn & Hd & Hl & Hp).
      simpl in Hc, Ht, Hl, Hp. unfold recorded_ids in Hd. simpl in Hd.
      exists (with_status tx "COMPLETED" now :: P1), F1.
      rewrite <- app_assoc. simpl.
      split; [reflexivity|]. split; [reflexivity|].
      split; [congruence|].
      split; [rewrite Ht, Ht1, <- app_assoc; reflexivity|].
      split.
      { constructor; [|exact Hn]. intros Hin.
        apply List.in_map_iff in Hin as (p & Ep & Hp').
        apply (Hd p Hp'). rewrite List.map_app, List.in_app_iff. right. left.
        simpl. symmetry. exact Ep. }
      split.
      { intros p [<-|Hin].
        - unfold recorded_ids. rewrite <- Ht1. exact Hfresh.
        - intros C. apply (Hd p Hin). rewrite List.map_app, List.in_app_iff. left.
          rewrite Ht1. exact C. }
      split; lia.
    + destruct (IH _ _ _ _ _ _ H) as (P1 & F1 & -> & -> & Hc & Ht & Hn & Hd & Hl & Hp).
      exists P1, (mkFailedItem (TxID tx) "Storage failed" :: F1).
      rewrite <- app_assoc. unfold storage_failures at 1 2. simpl.
      split; [reflexivity|]. split; [reflexivity|].
      split; [congruence|]. split; [congruence|]. split; [exact Hn|].
      split; [unfold recorded_ids in *; rewrite <- Ht1; exact Hd|].
      fold (storage_failures F1). split; lia.
Qed.

End BatchRecords.

(** X15.  The loop of [BatchTransactions] adds to the [transactions]
    table exactly the rows of the processed items, in the order of the
    answer, and leaves the [cards] table alone; the identifiers of the
    processed items are pairwise different and none of them was on record
    before the batch. *)
Theorem X15_batch_records_exactly_the_processed_items :
  forall (hmac_sha256 : list byte -> list byte -> list byte)
         (db : DB) (txs : list TxService.Transaction) (now : Z),
    let '(db', processed, failed) := TxService.batchLoop hmac_sha256 db txs [] [] now in
    transactions db'
    = transactions db ++ List.map TxService.transaction_row processed
    /\ cards db' = cards db
    /\ List.NoDup (List.map TxService.TxID processed)
    /\ (forall p, In p processed -> ~ In (TxService.TxID p) (recorded_ids db)).
Proof.
  intros hmac_sha256 db txs now.
  destruct (TxService.batchLoop hmac_sha256 db txs [] [] now) as [[db' P'] F'] eqn:H.
  destruct (batchLoop_records hmac_sha256 now txs _ _ _ _ _ _ H)
    as (P1 & F1 & -> & -> & Hc & Ht & Hn & Hd & _ & _).
  simpl. repeat split; assumption.
Qed.

(** X16.  In a batch the ledger and the payment states grow by two rows
    for every item whose transfer committed, and those items are the
    processed ones together with the ones reported as [Storage failed]: an
    item that fails at the insert into [transactions] keeps its committed
    transfer, every other failed item has left no row in either table. *)
Theorem X16_batch_transfers_are_the_processed_and_storage_failed_items :
  forall (hmac_sha256 : list byte -> list byte -> list byte)
         (db : DB) (txs : list TxService.Transaction) (now : Z),
    let '(db', processed, failed) := TxService.batchLoop hmac_sha256 db txs [] [] now in
    List.length (ledger_entries db')
    = (List.length (ledger_entries db)
       + 2 * (List.length processed + List.length (storage_failures failed)))%nat
    /\ List.length (payment_states db')
       = (List.length (payment_states db)
          + 2 * (List.length processed + List.length (storage_failures failed)))%nat.
Proof.
  intros hmac_sha256 db txs now.
  destruct (TxService.batchLoop hmac_sha256 db txs [] [] now) as [[db' P'] F'] eqn:H.
  destruct (batchLoop_records hmac_sha256 now txs _ _ _ _ _ _ H)
    as (P1 & F1 & -> & -> & _ & _ & _ & _ & Hl & Hp).
  simpl. split; assumption.
Qed.

(** ** The transaction service: the counters on record *)

Lemma col_eq_true (c : option string) (v : string) : col_eq c v = true <-> c = Some v.
Proof.
  destruct c as [s|]; simpl.
  - rewrite String.eqb_eq. split; congruence.
  - split; discriminate.
Qed.

Lemma max_counter_attained cardID (rows : list TransactionRow) m :
  TxService.max_counter cardID rows = Some m ->
  exists r, In r rows /\ tr_card_id r = Some cardID /\ tr_counter r = Some m.
Proof.
  revert m. induction rows as [|x rows IH]; simpl; intros m H; [discriminate|].
  destruct (col_eq (tr_card_id x) cardID) eqn:C.
  - apply col_eq_true in C.
    destruct (tr_counter x) as [c|] eqn:N.
    + destruct (TxService.max_counter cardID rows) as [m'|].
      * inversion H; subst m. destruct (Z.max_spec c m') as [[_ ->]|[_ ->]].
        -- destruct (IH m' eq_refl) as (r & Hin & Hc & Hn). exists r. tauto.
        -- exists x. tauto.
      * inversion H; subst m. exists x. tauto.
    + destruct (IH m H) as (r & Hin & Hc & Hn). exists r. tauto.
  - destruct (IH m H) as (r & Hin & Hc & Hn). exists r. tauto.
Qed.

Lemma max_counter_none cardID (rows : list TransactionRow) (r : TransactionRow) c :
  TxService.max_counter cardID rows = None ->
  In r rows -> tr_card_id r = Some cardID -> tr_counter r = Some c -> False.
Proof.
  intros H Hin Hc Hn.
  destruct (max_counter_bound _ _ _ _ Hin Hc Hn) as (m & Hm & _). congruence.
Qed.

(** X17.  When the counters on record are [uint32] values,
    [checkDoubleSpending] lets a request through exactly when its counter
    is positive and above every counter recorded for its card; counters
    recorded for other cards, and rows without a counter, play no part. *)
Theorem X17_double_spending_check_accepts_exactly_higher_counters :
  forall (db : DB) (tx : TxService.Transaction),
    (forall r c, In r (transactions db) -> tr_counter r = Some c -> 0 <= c < 2 ^ 32) ->
    (TxService.checkDoubleSpending db tx = None
     <-> 0 < TxService.Counter tx
         /\ forall r c,
              In r (transactions db) ->
              tr_card_id r = Some (TxService.CardID tx) ->
              tr_counter r = Some c ->
              c < TxService.Counter tx).
Proof.
  intros db tx Hrange. split.
  - intros H. split.
    + unfold TxService.checkDoubleSpending in H.
      destruct (List.existsb _ (transactions db)); [discriminate|].
      destruct (TxService.max_counter (TxService.CardID tx) (transactions db)) as [m|] eqn:M.
      * destruct (max_counter_attained _ _ _ M) as (r & Hin & _ & Hn).
        pose proof (Hrange r m Hin Hn) as Hm.
        destruct ((m <? 0) || (2 ^ 32 <=? m)); [discriminate|].
        destruct (TxService.Counter tx <=? m) eqn:E; [discriminate|].
        apply Z.leb_gt in E. lia.
      * change ((0 <? 0) || (2 ^ 32 <=? 0)) with false in H. cbv iota in H.
        destruct (TxService.Counter tx <=? 0) eqn:E; [discriminate|].
        apply Z.leb_gt in E. exact E.
    + intros r c. apply checkDoubleSpending_accepts_only_fresh. exact H.
  - intros [Hpos Hall]. unfold TxService.checkDoubleSpending.
    destruct (List.existsb _ (transactions db)) eqn:X.
    { apply List.existsb_exists in X as (r & Hin & Hu).
      unfold TxService.counter_used in Hu. apply andb_prop in Hu as [Hc Hn].
      apply col_eq_true in Hc.
      destruct (tr_counter r) as [c|] eqn:N; [|discriminate].
      apply Z.eqb_eq in Hn. specialize (Hall r c Hin Hc N). lia. }
    destruct (TxService.max_counter (TxService.CardID tx) (transactions db)) as [m|] eqn:M.
    + destruct (max_counter_attained _ _ _ M) as (r & Hin & Hc & Hn).
      pose proof (Hrange r m Hin Hn) as Hm. pose proof (Hall r m Hin Hc Hn) as Hlt.
      assert (R : (m <? 0) || (2 ^ 32 <=? m) = false).
      { apply orb_false_iff. split; [apply Z.ltb_ge | apply Z.leb_gt]; lia. }
      rewrite R.
      assert (L : (TxService.Counter tx <=? m) = false) by (apply Z.leb_gt; lia).
      rewrite L. reflexivity.
    + assert (L : (TxService.Counter tx <=? 0) = false) by (apply Z.leb_gt; lia).
      change ((0 <? 0) || (2 ^ 32 <=? 0)) with false. cbv iota. rewrite L. reflexivity.
Qed.

Lemma X17_witness_counter_5_after_4 :
  TxService.checkDoubleSpending
    (mkDB [] [] []
          [mkTransactionRow "TX0" "X" "Y" 1000 "NGN" "DEBIT" "00" "COMPLETED" 0
                            (Some "X") (Some 4)] [])
    (request "TX1" sample_now 1000 5) = None.
Proof.
  apply (proj2 (X17_double_spending_check_accepts_exactly_higher_counters
                  (mkDB [] [] []
                        [mkTransactionRow "TX0" "X" "Y" 1000 "NGN" "DEBIT" "00" "COMPLETED" 0
                                          (Some "X") (Some 4)] [])
                  (request "TX1" sample_now 1000 5)
                  ltac:(simpl; intros r c [<-|[]] E; inversion E; lia))).
  split; [simpl; lia | simpl; intros r c [<-|[]] _ E; inversion E; lia].
Defined.

(** ** The balance enquiry *)

Lemma all_in_class_weaken (p q : ascii -> bool) (s : string) :
  (forall c, p c = true -> q c = true) ->
  Enquiry.all_in_class p s = true -> Enquiry.all_in_class q s = true.
Proof.
  intros Hpq. induction s as [|c s IH]; simpl; [reflexivity|].
  intros H. apply andb_prop in H as [H1 H2]. rewrite (Hpq c H1), (IH H2). reflexivity.
Qed.

Lemma isAlphanumeric_class (s : string) :
  Enquiry.isAlphanumeric s
  = Enquiry.all_in_class
      (fun c => Enquiry.is_digit c || Enquiry.is_upper c || Enquiry.is_lower c) s.
Proof.
  induction s as [|c s IH]; simpl; [reflexivity|]. rewrite IH.
  destruct (Enquiry.is_digit c || Enquiry.is_upper c || Enquiry.is_lower c); reflexivity.
Qed.

(** X18.  The bank-code pattern accepts exactly the strings of three to
    six characters that [isAlphanumeric] accepts; every string the
    account-identifier pattern accepts is alphanumeric too and has ten to
    twenty characters, so no string is both an account identifier and a
    bank code, and the empty string is neither. *)
Theorem X18_identifier_patterns :
  forall s : string,
    (Enquiry.isValidBankCode s = true
     <-> Enquiry.isAlphanumeric s = true /\ (3 <= String.length s <= 6)%nat)
    /\ (Enquiry.isValidAccountId s = true ->
        Enquiry.isAlphanumeric s = true /\ (10 <= String.length s <= 20)%nat)
    /\ (Enquiry.isValidAccountId s = true -> Enquiry.isValidBankCode s = false)
    /\ (s = "" -> Enquiry.isValidAccountId s = false /\ Enquiry.isValidBankCode s = false).
Proof.
  intros s.
  assert (B : Enquiry.isValidBankCode s = true
              <-> Enquiry.isAlphanumeric s = true /\ (3 <= String.length s <= 6)%nat).
  { unfold Enquiry.isValidBankCode. rewrite isAlphanumeric_class.
    rewrite !andb_true_iff, !Nat.leb_le. tauto. }
  assert (A : Enquiry.isValidAccountId s = true ->
              Enquiry.isAlphanumeric s = true /\ (10 <= String.length s <= 20)%nat).
  { unfold Enquiry.isValidAccountId. rewrite isAlphanumeric_class.
    rewrite !andb_true_iff, !Nat.leb_le. intros [[H1 H2] H3].
    split; [|lia]. revert H1. apply all_in_class_weaken.
    intros c Hc. rewrite Hc. reflexivity. }
  split; [exact B|]. split; [exact A|]. split.
  - intros H. destruct (A H) as [_ Hl].
    apply not_true_is_false. intros E. apply B in E. lia.
  - intros ->. split; reflexivity.
Qed.

Lemma local_balance_ok_inv db accountId balance status :
  Enquiry.local_balance db accountId = Ok (balance, status) ->
  exists r,
    In r (accounts db)
    /\ (acc_card_id r = Some accountId \/ acc_account_id r = Some accountId)
    /\ acc_status r = Some status /\ acc_balance r = balance.
Proof.
  unfold Enquiry.local_balance. intros H.
  destruct (List.find _ (accounts db)) as [r|] eqn:F; [|discriminate].
  apply List.find_some in F as [Hin Hm].
  destruct (acc_status r) as [s|] eqn:S; [|discriminate].
  inversion H; subst. exists r. repeat split; try assumption.
  apply orb_prop in Hm as [Hm|Hm]; apply col_eq_true in Hm; tauto.
Qed.

(** X19.  [AccountBalanceEnquiry] answers with a balance only for an
    identifier of ten to twenty digits.  A balance marked [local] is the
    balance of a row of [accounts] whose [card_id] or [account_id] is the
    identifier and whose status is [ACTIVE]; a balance marked [external] is
    what the external service returned, and that service is asked only
    when the local lookup failed.  Every other answer is an error with
    status 400, 403 or 404. *)
Theorem X19_balance_enquiry_answers :
  forall (callExternalBalanceEnquiry : string -> result Z)
         (db : DB) (accountId bankCode : string),
    match Enquiry.AccountBalanceEnquiry callExternalBalanceEnquiry db accountId bankCode with
    | Enquiry.EnquiryBalance responseCode id balance status source =>
      Enquiry.isValidAccountId accountId = true
      /\ (bankCode = "" \/ Enquiry.isValidBankCode bankCode = true)
      /\ responseCode = "00" /\ id = accountId /\ status = "SUCCESS"
      /\ ((source = "local"
           /\ exists r,
                In r (accounts db)
                /\ (acc_card_id r = Some accountId \/ acc_account_id r = Some accountId)
                /\ acc_status r = Some "ACTIVE" /\ acc_balance r = balance)
          \/ (source = "external"
              /\ (exists e, Enquiry.local_balance db accountId = Err e)
              /\ callExternalBalanceEnquiry accountId = Ok balance))
    | Enquiry.EnquiryError status message =>
      (status = 400
       /\ (Enquiry.isValidAccountId accountId = false
           \/ (bankCode <> "" /\ Enquiry.isValidBankCode bankCode = false)))
      \/ (status = 403
          /\ exists balance s,
               Enquiry.local_balance db accountId = Ok (balance, s) /\ s <> "ACTIVE")
      \/ (status = 404
          /\ (exists e, Enquiry.local_balance db accountId = Err e)
          /\ exists e, callExternalBalanceEnquiry accountId = Err e)
    end.
Proof.
  intros ext db accountId bankCode. unfold Enquiry.AccountBalanceEnquiry.
  destruct (String.eqb accountId "") eqn:E0.
  { apply String.eqb_eq in E0. subst accountId. left. split; [reflexivity|].
    left. reflexivity. }
  destruct (Enquiry.isValidAccountId accountId) eqn:VA; cbn [negb].
  2:{ left. split; [reflexivity|]. left. reflexivity. }
  destruct (String.eqb bankCode "") eqn:EB; cbn [negb andb].
  - apply String.eqb_eq in EB.
    destruct (Enquiry.local_balance db accountId) as [[balance s]|e] eqn:L.
    + destruct (String.eqb s "ACTIVE") eqn:A; cbn [negb].
      * apply String.eqb_eq in A. subst s.
        repeat split; try tauto. left. split; [reflexivity|].
        eapply local_balance_ok_inv; exact L.
      * right. left. split; [reflexivity|]. exists balance, s. split; [reflexivity|].
        intros ->. rewrite String.eqb_refl in A. discriminate.
    + destruct (ext accountId) as [balance|e'] eqn:X.
      * repeat split; try tauto. right. repeat split; eauto.
      * right. right. repeat split; eauto.
  - assert (NB : bankCode <> "") by (intros ->; rewrite String.eqb_refl in EB; discriminate).
    destruct (Enquiry.isValidBankCode bankCode) eqn:VB; cbn [negb].
    2:{ left. split; [reflexivity|]. right. split; [exact NB | reflexivity]. }
    destruct (Enquiry.local_balance db accountId) as [[balance s]|e] eqn:L.
    + destruct (String.eqb s "ACTIVE") eqn:A; cbn [negb].
      * apply String.eqb_eq in A. subst s.
        repeat split; try tauto. left. split; [reflexivity|].
        eapply local_balance_ok_inv; exact L.
      * right. left. split; [reflexivity|]. exists balance, s. split; [reflexivity|].
        intros ->. rewrite String.eqb_refl in A. discriminate.
    + destruct (ext accountId) as [balance|e'] eqn:X.
      * repeat split; try tauto. right. repeat split; eauto.
      * right. right. repeat split; eauto.
Qed.

(** ** The key registry: life cycle of a key *)

Lemma all_in_class_forall (p : ascii -> bool) (s : string) (c : ascii) :
  Enquiry.all_in_class p s = true -> In c (list_ascii_of_string s) -> p c = true.
Proof.
  induction s as [|a s IH]; simpl; [contradiction|].
  intros H [<-|Hin]; apply andb_prop in H as [H1 H2]; [exact H1 | exact (IH H2 Hin)].
Qed.

(** X20.  A key identifier that [validateKeyID] accepts is not empty and
    consists of letters, digits, underscores and hyphens only, whatever the
    path functions answer: it holds no slash, dot, backslash (character 92) or NUL, so the
    key file name built from it stays inside the key store directory. *)
Theorem X20_accepted_key_id_is_a_plain_name :
  forall (filepath_IsAbs : string -> bool) (filepath_Clean : string -> string)
         (keyID : string),
    KeyStore.validateKeyID filepath_IsAbs filepath_Clean keyID = None ->
    keyID <> ""
    /\ filepath_IsAbs keyID = false
    /\ filepath_Clean keyID = keyID
    /\ (forall c, In c (list_ascii_of_string keyID) ->
                  KeyStore.is_key_char c = true
                  /\ c <> "/"%char /\ c <> "."%char /\ c <> Ascii.ascii_of_nat 92
                  /\ c <> Ascii.ascii_of_nat 0).
Proof.
  intros IsAbs Clean keyID. unfold KeyStore.validateKeyID.
  destruct (String.eqb keyID "") eqn:E; [discriminate|].
  destruct (IsAbs keyID) eqn:A; [discriminate|].
  destruct (String.eqb (Clean keyID) keyID) eqn:C; cbn [negb]; [|discriminate].
  destruct (Enquiry.all_in_class KeyStore.is_key_char keyID) eqn:K; cbn [andb negb];
    [|discriminate].
  intros _. split.
  { intros ->. rewrite String.eqb_refl in E. discriminate. }
  split; [reflexivity|]. split; [apply String.eqb_eq; exact C|].
  intros c Hin. pose proof (all_in_class_forall _ _ _ K Hin) as Hc.
  split; [exact Hc|].
  repeat split; intros ->; vm_compute in Hc; discriminate.
Qed.

Lemma X20_witness_card_signing :
  "card_signing" <> ""
  /\ sample_IsAbs "card_signing" = false
  /\ sample_Clean "card_signing" = "card_signing"
  /\ (forall c, In c (list_ascii_of_string "card_signing") ->
                KeyStore.is_key_char c = true
                /\ c <> "/"%char /\ c <> "."%char /\ c <> Ascii.ascii_of_nat 92
                  /\ c <> Ascii.ascii_of_nat 0).
Proof.
  apply (X20_accepted_key_id_is_a_plain_name sample_IsAbs sample_Clean "card_signing").
  reflexivity.
Defined.

Section KeyLifeCycle.

Variables PublicKey PrivateKey : Type.
Variable sha256_Sum256 : list byte -> list byte.
Variable SignPKCS1v15 : PrivateKey -> list byte -> result (list byte).
Variable VerifyPKCS1v15 : PublicKey -> list byte -> list byte -> option error.
Variable filepath_IsAbs : string -> bool.
Variable filepath_Clean : string -> string.
Variable filepath_Join : string -> string -> string.
Variable saveKeyToDisk : HSM.KeyPair PublicKey PrivateKey -> option error.
Variable os_Remove : string -> option error.
Variable os_IsNotExist : error -> bool.

Local Abbreviation KeyPair := (HSM.KeyPair PublicKey PrivateKey).
Local Abbreviation GenerateKeyPair :=
  (KeyStore.GenerateKeyPair filepath_IsAbs filepath_Clean saveKeyToDisk).
Local Abbreviation DeleteKey :=
  (KeyStore.DeleteKey filepath_IsAbs filepath_Clean filepath_Join os_Remove os_IsNotExist).

Lemma GenerateKeyPair_ok_inv (keys keys' : gmap string KeyPair) keyID generated now now' kp :
  GenerateKeyPair keys keyID generated now now' = (Ok kp, keys') ->
  KeyStore.validateKeyID filepath_IsAbs filepath_Clean keyID = None
  /\ keys !! keyID = None
  /\ (exists publicKey privateKey,
        generated = Ok (publicKey, privateKey)
        /\ kp = HSM.mkKeyPair keyID publicKey privateKey now (now' + 31536000) true)
  /\ saveKeyToDisk kp = None
  /\ keys' = <[keyID := kp]> keys.
Proof.
  unfold KeyStore.GenerateKeyPair. intros H.
  destruct (KeyStore.validateKeyID filepath_IsAbs filepath_Clean keyID); [discriminate|].
  destruct (keys !! keyID) eqn:K; [discriminate|].
  destruct generated as [[publicKey privateKey]|e]; [|discriminate].
  cbv zeta in H.
  destruct (saveKeyToDisk _) eqn:S; [discriminate|].
  inversion H; subst kp keys'; clear H.
  repeat split; try assumption. exists publicKey, privateKey. split; reflexivity.
Qed.

Lemma GenerateKeyPair_err_inv (keys keys' : gmap string KeyPair) keyID generated now now' e :
  GenerateKeyPair keys keyID generated now now' = (Err e, keys') -> keys' = keys.
Proof.
  unfold KeyStore.GenerateKeyPair. intros H.
  destruct (KeyStore.validateKeyID filepath_IsAbs filepath_Clean keyID);
    [inversion H; reflexivity|].
  destruct (keys !! keyID) eqn:K; [inversion H; reflexivity|].
  destruct generated as [[publicKey privateKey]|e']; [|inversion H; reflexivity].
  cbv zeta in H.
  destruct (saveKeyToDisk _) eqn:S; [|discriminate].
  inversion H. apply delete_insert_id. exact K.
Qed.

End KeyLifeCycle.

(** X21.  [GenerateKeyPair] adds one key or changes nothing.  When it
    returns a key pair, the identifier passed [validateKeyID] and was not
    in the registry, the pair carries the identifier and the generated key
    material, is active and expires 365 days after the clock reading, the
    key file was saved, and the registry is the old one with this entry
    added.  When it returns an error (bad identifier, identifier in use,
    failed generation, failed save) the registry is as before. *)
Theorem X21_generate_key_pair_adds_one_key_or_nothing :
  forall (PublicKey PrivateKey : Type)
         (filepath_IsAbs : string -> bool) (filepath_Clean : string -> string)
         (saveKeyToDisk : HSM.KeyPair PublicKey PrivateKey -> option error)
         (keys : gmap string (HSM.KeyPair PublicKey PrivateKey)) (keyID : string)
         (generated : result (PublicKey * PrivateKey)) (now now' : Z),
    match KeyStore.GenerateKeyPair filepath_IsAbs filepath_Clean saveKeyToDisk
            keys keyID generated now now' with
    | (Ok keyPair, keys') =>
      KeyStore.validateKeyID filepath_IsAbs filepath_Clean keyID = None
      /\ keys !! keyID = None
      /\ (exists publicKey privateKey,
            generated = Ok (publicKey, privateKey)
            /\ keyPair
               = HSM.mkKeyPair keyID publicKey privateKey now (now' + 31536000) true)
      /\ saveKeyToDisk keyPair = None
      /\ keys' = <[keyID := keyPair]> keys
    | (Err _, keys') => keys' = keys
    end.
Proof.
  intros PublicKey PrivateKey IsAbs Clean save keys keyID generated now now'.
  destruct (KeyStore.GenerateKeyPair IsAbs Clean save keys keyID generated now now')
    as [[kp|e] keys'] eqn:H.
  - exact (GenerateKeyPair_ok_inv _ _ _ _ _ _ _ _ _ _ _ _ H).
  - exact (GenerateKeyPair_err_inv _ _ _ _ _ _ _ _ _ _ _ _ H).
Qed.

(** X22.  A key that [GenerateKeyPair] has just returned is usable at
    once: [SignData] under its identifier does not refuse it, and when the
    generated pair verifies what it signs, every signature [SignData]
    returns is accepted by [VerifySignature]; signing and verifying under
    any other identifier give what they gave before. *)
Theorem X22_generated_key_signs_and_verifies :
  forall (PublicKey PrivateKey : Type)
         (sha256_Sum256 : list byte -> list byte)
         (SignPKCS1v15 : PrivateKey -> list byte -> result (list byte))
         (VerifyPKCS1v15 : PublicKey -> list byte -> list byte -> option error)
         (filepath_IsAbs : string -> bool) (filepath_Clean : string -> string)
         (saveKeyToDisk : HSM.KeyPair PublicKey PrivateKey -> option error)
         (keys keys' : gmap string (HSM.KeyPair PublicKey PrivateKey)) (keyID : string)
         (generated : result (PublicKey * PrivateKey)) (now now' : Z)
         (keyPair : HSM.KeyPair PublicKey PrivateKey),
    KeyStore.GenerateKeyPair filepath_IsAbs filepath_Clean saveKeyToDisk
      keys keyID generated now now' = (Ok keyPair, keys') ->
    key_pair_sound SignPKCS1v15 VerifyPKCS1v15 keyPair ->
    (forall data,
        HSM.SignData sha256_Sum256 SignPKCS1v15 keys' keyID data
        = match SignPKCS1v15 (HSM.PrivateKey_ keyPair) (sha256_Sum256 data) with
          | Ok signature => Ok signature
          | Err e => Err (String.append "failed to sign data: " e)
          end)
    /\ (forall data signature,
          HSM.SignData sha256_Sum256 SignPKCS1v15 keys' keyID data = Ok signature ->
          HSM.VerifySignature sha256_Sum256 VerifyPKCS1v15 keys' keyID data signature
          = (true, None))
    /\ (forall other data signature,
          other <> keyID ->
          HSM.SignData sha256_Sum256 SignPKCS1v15 keys' other data
          = HSM.SignData sha256_Sum256 SignPKCS1v15 keys other data
          /\ HSM.VerifySignature sha256_Sum256 VerifyPKCS1v15 keys' other data signature
             = HSM.VerifySignature sha256_Sum256 VerifyPKCS1v15 keys other data signature).
Proof.
  intros PublicKey PrivateKey sha Sign Verify IsAbs Clean save keys keys' keyID
         generated now now' kp H Sound.
  destruct (GenerateKeyPair_ok_inv _ _ _ _ _ _ _ _ _ _ _ _ H)
    as (_ & _ & (pk & sk & _ & Ekp) & _ & ->).
  assert (Act : HSM.IsActive kp = true) by (subst kp; reflexivity).
  assert (S : forall data,
             HSM.SignData sha Sign (<[keyID := kp]> keys) keyID data
             = match Sign (HSM.PrivateKey_ kp) (sha data) with
               | Ok signature => Ok signature
               | Err e => Err (String.append "failed to sign data: " e)
               end).
  { intros data. unfold HSM.SignData. rewrite lookup_insert_eq, Act. cbn [negb].
    destruct (Sign (HSM.PrivateKey_ kp) (sha data)); reflexivity. }
  split; [exact S|]. split.
  - intros data signature Hs. rewrite S in Hs.
    destruct (Sign (HSM.PrivateKey_ kp) (sha data)) as [sig|e] eqn:Es; [|discriminate].
    inversion Hs; subst sig.
    unfold HSM.VerifySignature. rewrite lookup_insert_eq.
    rewrite (Sound _ _ Es). reflexivity.
  - intros other data signature Hne.
    unfold HSM.SignData, HSM.VerifySignature.
    rewrite lookup_insert_ne by congruence. split; reflexivity.
Qed.

(** X23.  [DeleteKey] removes the entry from the registry before it
    validates the identifier and before it touches the key file: for an
    identifier that is in the registry the entry is gone whatever
    [DeleteKey] returns, also when it returns the error of an invalid
    identifier or of a failed file removal; every other entry stays.  For
    an identifier that is not in the registry it returns the error that the
    key was not found and changes nothing.  Afterwards [SignData] and
    [VerifySignature] answer that the key is not found, and so does
    [GetPublicKey]. *)
Theorem X23_delete_key_removes_the_entry_whatever_it_returns :
  forall (PublicKey PrivateKey : Type)
         (sha256_Sum256 : list byte -> list byte)
         (SignPKCS1v15 : PrivateKey -> list byte -> result (list byte))
         (VerifyPKCS1v15 : PublicKey -> list byte -> list byte -> option error)
         (filepath_IsAbs : string -> bool) (filepath_Clean : string -> string)
         (filepath_Join : string -> string -> string)
         (os_Remove : string -> option error) (os_IsNotExist : error -> bool)
         (MarshalPKIXPublicKey : PublicKey -> result (list byte))
         (pem_EncodeToMemory : string -> list byte -> string)
         (keys : gmap string (HSM.KeyPair PublicKey PrivateKey))
         (keyStorePath keyID : string),
    let out := KeyStore.DeleteKey filepath_IsAbs filepath_Clean filepath_Join os_Remove
                 os_IsNotExist keys keyStorePath keyID in
    snd out = delete keyID keys
    /\ (keys !! keyID = None ->
        out = (Some (String.append "key " (String.append keyID " not found")), keys))
    /\ (forall e,
          keys !! keyID <> None ->
          KeyStore.validateKeyID filepath_IsAbs filepath_Clean keyID = Some e ->
          out = (Some (String.append "invalid key ID: " e), delete keyID keys))
    /\ (forall other, other <> keyID -> snd out !! other = keys !! other)
    /\ (forall data,
          HSM.SignData sha256_Sum256 SignPKCS1v15 (snd out) keyID data
          = Err (String.append "key " (String.append keyID " not found")))
    /\ (forall data signature,
          HSM.VerifySignature sha256_Sum256 VerifyPKCS1v15 (snd out) keyID data signature
          = (false, Some (String.append "key " (String.append keyID " not found"))))
    /\ KeyStore.GetPublicKey MarshalPKIXPublicKey pem_EncodeToMemory (snd out) keyID
       = Err (String.append "key " (String.append keyID " not found")).
Proof.
  intros PublicKey PrivateKey sha Sign Verify IsAbs Clean Join Remove IsNotExist
         Marshal pem keys keyStorePath keyID out.
  assert (D : snd out = delete keyID keys).
  { subst out. unfold KeyStore.DeleteKey.
    destruct (keys !! keyID) eqn:K.
    - destruct (KeyStore.validateKeyID IsAbs Clean keyID); [reflexivity|].
      destruct (Remove _) as [e|]; [|reflexivity].
      destruct (negb (IsNotExist e)); reflexivity.
    - simpl. symmetry. apply delete_id. exact K. }
  split; [exact D|]. split.
  { intros K. subst out. unfold KeyStore.DeleteKey. rewrite K. reflexivity. }
  split.
  { intros e K V. subst out. unfold KeyStore.DeleteKey.
    destruct (keys !! keyID); [|congruence]. rewrite V. reflexivity. }
  split.
  { intros other Hne. rewrite D. apply lookup_delete_ne. congruence. }
  split; [|split].
  - intros data. unfold HSM.SignData. rewrite D, lookup_delete_eq. reflexivity.
  - intros data signature. unfold HSM.VerifySignature.
    rewrite D, lookup_delete_eq. reflexivity.
  - unfold KeyStore.GetPublicKey. rewrite D, lookup_delete_eq. reflexivity.
Qed.

Lemma sample_key_pair_sound (kp : HSM.KeyPair Z Z) :
  HSM.PublicKey_ kp = HSM.PrivateKey_ kp ->
  key_pair_sound sample_sign sample_verify kp.
Proof.
  intros E hashed signature H. unfold sample_sign in H. inversion H; subst signature.
  unfold sample_verify. rewrite E.
  assert (B : forall b, Byte.eqb b b = true) by (intros b; destruct b; reflexivity).
  rewrite B, Nat.eqb_refl. cbn [andb].
  assert (F : List.forallb (fun p => Byte.eqb (fst p) (snd p)) (List.combine hashed hashed)
              = true).
  { clear -B. induction hashed as [|b l IH]; simpl; [reflexivity|].
    rewrite B, IH. reflexivity. }
  rewrite F. reflexivity.
Qed.

Lemma X22_witness_card_signing :
  HSM.VerifySignature sample_digest sample_verify
    (<["card_signing" := HSM.mkKeyPair "card_signing" 7 7 0 31536000 true]> ∅)
    "card_signing" [x01; x02] [x07; x01; x02]
  = (true, None).
Proof.
  refine (proj1 (proj2 (X22_generated_key_signs_and_verifies Z Z sample_digest sample_sign
                          sample_verify sample_IsAbs sample_Clean (fun _ => None)
                          ∅ _ "card_signing" (Ok (7, 7)) 0 0 _ _ _)) [x01; x02] _ _).
  - unfold KeyStore.GenerateKeyPair. rewrite lookup_empty. reflexivity.
  - apply sample_key_pair_sound. reflexivity.
  - unfold HSM.SignData. rewrite lookup_insert_eq. reflexivity.
Defined.

(** ** The key registry: encryption under the master key *)

Lemma split_at_length {A : Type} (l1 l2 : list A) (n : nat) :
  List.length l1 = n ->
  List.firstn n (l1 ++ l2) = l1 /\ List.skipn n (l1 ++ l2) = l2.
Proof.
  intros <-. induction l1 as [|a l1 IH]; simpl; [split; reflexivity|].
  destruct IH as [-> ->]. split; reflexivity.
Qed.

Lemma aes_NewCipher_none (key : list byte) :
  KeyStore.aes_NewCipher key = None
  <-> List.length key = 16%nat \/ List.length key = 24%nat \/ List.length key = 32%nat.
Proof.
  unfold KeyStore.aes_NewCipher.
  destruct (Nat.eqb (List.length key) 16) eqn:E1; cbn [orb].
  { apply Nat.eqb_eq in E1. tauto. }
  destruct (Nat.eqb (List.length key) 24) eqn:E2; cbn [orb].
  { apply Nat.eqb_eq in E2. tauto. }
  destruct (Nat.eqb (List.length key) 32) eqn:E3.
  { apply Nat.eqb_eq in E3. tauto. }
  apply Nat.eqb_neq in E1, E2, E3. split; [discriminate | lia].
Qed.

(** X24.  [EncryptData] and [DecryptData] use the key identifier only to
    check that it is registered; the data are sealed under the master key.
    So, with a 12-byte nonce and an authenticated cipher that opens what it
    sealed, what [EncryptData] returns under one registered identifier is
    the nonce followed by the sealed bytes, and [DecryptData] gives the
    plaintext back under every registered identifier, active or not. *)
Theorem X24_encryption_round_trip_under_any_registered_key :
  forall (PublicKey PrivateKey : Type)
         (gcm_Seal : list byte -> list byte -> list byte -> list byte)
         (gcm_Open : list byte -> list byte -> list byte -> result (list byte))
         (keys : gmap string (HSM.KeyPair PublicKey PrivateKey))
         (masterKey : list byte) (keyID otherID : string)
         (plaintext nonce sealed : list byte),
    (forall key n p, gcm_Open key n (gcm_Seal key n p) = Ok p) ->
    List.length nonce = 12%nat ->
    KeyStore.EncryptData gcm_Seal keys masterKey keyID plaintext (Ok nonce) = Ok sealed ->
    keys !! otherID <> None ->
    sealed = nonce ++ gcm_Seal masterKey nonce plaintext
    /\ KeyStore.EncryptData gcm_Seal keys masterKey otherID plaintext (Ok nonce) = Ok sealed
    /\ KeyStore.DecryptData gcm_Open keys masterKey otherID sealed = Ok plaintext.
Proof.
  intros PublicKey PrivateKey Seal Open keys masterKey keyID otherID plaintext nonce sealed
         Correct Hn He Ho.
  unfold KeyStore.EncryptData in He.
  destruct (keys !! keyID) as [kp|]; [|discriminate].
  destruct (KeyStore.aes_NewCipher masterKey) as [e|] eqn:C; [discriminate|].
  inversion He; subst sealed; clear He.
  split; [reflexivity|].
  unfold KeyStore.EncryptData, KeyStore.DecryptData.
  destruct (keys !! otherID) as [kp'|]; [|congruence].
  rewrite C. split; [reflexivity|].
  assert (L : Nat.ltb (List.length (nonce ++ Seal masterKey nonce plaintext)) 12 = false).
  { apply Nat.ltb_ge. rewrite List.length_app. lia. }
  rewrite L.
  destruct (split_at_length nonce (Seal masterKey nonce plaintext) 12 Hn) as [-> ->].
  rewrite Correct. reflexivity.
Qed.

Lemma X24_witness_toy_cipher :
  KeyStore.DecryptData sample_open (sample_keys false) sample_master_key "card-signing"
    (sample_nonce ++ sample_seal sample_master_key sample_nonce [x01; x02; x03])
  = Ok [x01; x02; x03].
Proof.
  refine (proj2 (proj2 (X24_encryption_round_trip_under_any_registered_key Z Z
                          sample_seal sample_open (sample_keys false) sample_master_key
                          "card-signing" "card-signing" [x01; x02; x03] sample_nonce _
                          _ _ _ _))).
  - intros key n p. unfold sample_open, sample_seal. rewrite List.rev_involutive.
    reflexivity.
  - reflexivity.
  - unfold KeyStore.EncryptData, sample_keys. rewrite lookup_insert_eq. reflexivity.
  - unfold sample_keys. rewrite lookup_insert_eq. discriminate.
Defined.

(** X25.  [DecryptData] never hands unauthenticated bytes out: whatever it
    returns as plaintext was accepted by [gcm.Open] under the master key,
    for a registered identifier and an input of at least 12 bytes split
    into its first 12 bytes (the nonce) and the rest; an unregistered
    identifier and an input shorter than 12 bytes are refused before the
    cipher is created. *)
Theorem X25_decrypt_returns_only_what_the_cipher_opened :
  forall (PublicKey PrivateKey : Type)
         (gcm_Open : list byte -> list byte -> list byte -> result (list byte))
         (keys : gmap string (HSM.KeyPair PublicKey PrivateKey))
         (masterKey : list byte) (keyID : string) (ciphertext : list byte),
    match KeyStore.DecryptData gcm_Open keys masterKey keyID ciphertext with
    | Ok plaintext =>
      keys !! keyID <> None
      /\ (12 <= List.length ciphertext)%nat
      /\ (List.length masterKey = 16%nat \/ List.length masterKey = 24%nat
          \/ List.length masterKey = 32%nat)
      /\ gcm_Open masterKey (List.firstn 12 ciphertext) (List.skipn 12 ciphertext)
         = Ok plaintext
    | Err e =>
      (keys !! keyID = None ->
       e = String.append "key " (String.append keyID " not found"))
      /\ (keys !! keyID <> None -> (List.length ciphertext < 12)%nat ->
          e = "ciphertext too short")
    end.
Proof.
  intros PublicKey PrivateKey Open keys masterKey keyID ciphertext.
  unfold KeyStore.DecryptData.
  destruct (keys !! keyID) as [kp|] eqn:K.
  2:{ split; [reflexivity | congruence]. }
  destruct (Nat.ltb (List.length ciphertext) 12) eqn:L.
  { split; [discriminate | reflexivity]. }
  apply Nat.ltb_ge in L.
  destruct (KeyStore.aes_NewCipher masterKey) as [e|] eqn:C.
  { split; [discriminate | lia]. }
  apply aes_NewCipher_none in C.
  destruct (Open masterKey (List.firstn 12 ciphertext) (List.skipn 12 ciphertext)) eqn:O.
  - repeat split; try assumption; try lia. discriminate.
  - split; [discriminate | lia].
Qed.

(** ** The key registry: PINs *)

Lemma bytes_eqb_refl (x : list byte) : KeyStore.bytes_eqb x x = true.
Proof.
  induction x as [|b x IH]; simpl; [reflexivity|]. rewrite IH.
  destruct b; reflexivity.
Qed.

Section PINFacts.

Variable argon2_IDKey : list byte -> list byte -> list byte.
Variable base64_EncodeToString : list byte -> string.
Variable base64_DecodeString : string -> result (list byte).

Hypothesis base64_round_trip :
  forall bs, base64_DecodeString (base64_EncodeToString bs) = Ok bs.
Hypothesis argon2_length :
  forall pin salt, List.length (argon2_IDKey pin salt) = 32%nat.

(** [VerifyPIN] on the encoding of [salt] followed by the hash of [pin]
    under [salt]. *)
Lemma VerifyPIN_of_salted_hash pin pin' (salt : list byte) :
  KeyStore.VerifyPIN argon2_IDKey base64_DecodeString pin'
    (base64_EncodeToString (salt ++ argon2_IDKey (list_byte_of_string pin) salt))
  = (KeyStore.ConstantTimeCompare
       (argon2_IDKey (list_byte_of_string pin')
          (List.firstn 16 (salt ++ argon2_IDKey (list_byte_of_string pin) salt)))
       (List.skipn 16 (salt ++ argon2_IDKey (list_byte_of_string pin) salt)) =? 1, None).
Proof.
  unfold KeyStore.VerifyPIN. rewrite base64_round_trip.
  assert (L : Nat.ltb (List.length (salt ++ argon2_IDKey (list_byte_of_string pin) salt)) 16
              = false).
  { apply Nat.ltb_ge. rewrite List.length_app, argon2_length. lia. }
  rewrite L. reflexivity.
Qed.

End PINFacts.

(** X26.  A PIN hashed by [HashPIN] with a 16-byte salt, given by the
    caller or drawn by [HashPIN] when the caller gives none, is accepted by
    [VerifyPIN]: the round trip of the two functions, for a base64 codec
    that decodes what it encoded and 32-byte Argon2 hashes. *)
Theorem X26_pin_round_trip_with_a_16_byte_salt :
  forall (argon2_IDKey : list byte -> list byte -> list byte)
         (base64_EncodeToString : list byte -> string)
         (base64_DecodeString : string -> result (list byte))
         (pin : string) (salt : list byte) (random : result (list byte))
         (hashedPIN : string),
    (forall bs, base64_DecodeString (base64_EncodeToString bs) = Ok bs) ->
    (forall p s, List.length (argon2_IDKey p s) = 32%nat) ->
    (List.length salt = 16%nat
     \/ (salt = [] /\ exists generated,
                        random = Ok generated /\ List.length generated = 16%nat)) ->
    KeyStore.HashPIN argon2_IDKey base64_EncodeToString pin salt random = Ok hashedPIN ->
    KeyStore.VerifyPIN argon2_IDKey base64_DecodeString pin hashedPIN = (true, None).
Proof.
  intros argon2 enc dec pin salt random hashedPIN RT AL Hs H.
  assert (G : forall s,
             List.length s = 16%nat ->
             KeyStore.VerifyPIN argon2 dec pin
               (enc (s ++ argon2 (list_byte_of_string pin) s)) = (true, None)).
  { intros s Ls. rewrite (VerifyPIN_of_salted_hash argon2 enc dec RT AL).
    destruct (split_at_length s (argon2 (list_byte_of_string pin) s) 16 Ls) as [-> ->].
    unfold KeyStore.ConstantTimeCompare. rewrite Nat.eqb_refl, bytes_eqb_refl.
    reflexivity. }
  unfold KeyStore.HashPIN in H.
  destruct Hs as [L16|(-> & g & -> & Lg)].
  - rewrite L16 in H. cbn [Nat.eqb] in H. inversion H. apply G. exact L16.
  - cbn [List.length Nat.eqb] in H. inversion H. apply G. exact Lg.
Qed.

Lemma X26_witness_sample_salt :
  KeyStore.VerifyPIN sample_mac TxService.hexDecode "1234"
    (TxService.hexEncode (sample_salt ++ sample_mac (list_byte_of_string "1234") sample_salt))
  = (true, None).
Proof.
  refine (X26_pin_round_trip_with_a_16_byte_salt sample_mac TxService.hexEncode
            TxService.hexDecode "1234" sample_salt (Err "no entropy") _
            hexDecode_hexEncode sample_mac_length _ _).
  - left. reflexivity.
  - reflexivity.
Defined.

(** X27.  [VerifyPIN] takes the first 16 bytes of the decoded hash as the
    salt, whatever the length of the salt [HashPIN] was given.  A PIN
    hashed with a caller-supplied salt of any other length (from 1 byte
    on) is therefore never accepted again, not even for the right PIN:
    [VerifyPIN] answers false, without an error, for every PIN. *)
Theorem X27_pin_hashed_with_another_salt_length_never_verifies :
  forall (argon2_IDKey : list byte -> list byte -> list byte)
         (base64_EncodeToString : list byte -> string)
         (base64_DecodeString : string -> result (list byte))
         (pin : string) (salt : list byte) (random : result (list byte))
         (hashedPIN : string),
    (forall bs, base64_DecodeString (base64_EncodeToString bs) = Ok bs) ->
    (forall p s, List.length (argon2_IDKey p s) = 32%nat) ->
    List.length salt <> 0%nat -> List.length salt <> 16%nat ->
    KeyStore.HashPIN argon2_IDKey base64_EncodeToString pin salt random = Ok hashedPIN ->
    forall pin',
      KeyStore.VerifyPIN argon2_IDKey base64_DecodeString pin' hashedPIN = (false, None).
Proof.
  intros argon2 enc dec pin salt random hashedPIN RT AL N0 N16 H pin'.
  unfold KeyStore.HashPIN in H.
  destruct (Nat.eqb (List.length salt) 0) eqn:E; [apply Nat.eqb_eq in E; contradiction|].
  inversion H; subst hashedPIN; clear H.
  rewrite (VerifyPIN_of_salted_hash argon2 enc dec RT AL).
  unfold KeyStore.ConstantTimeCompare.
  assert (L : Nat.eqb
                (List.length
                   (argon2 (list_byte_of_string pin')
                      (List.firstn 16 (salt ++ argon2 (list_byte_of_string pin) salt))))
                (List.length
                   (List.skipn 16 (salt ++ argon2 (list_byte_of_string pin) salt)))
              = false).
  { apply Nat.eqb_neq. rewrite AL, List.length_skipn, List.length_app, AL. lia. }
  rewrite L. reflexivity.
Qed.

Lemma X27_witness_salt_of_8_bytes :
  KeyStore.VerifyPIN sample_mac TxService.hexDecode "1234"
    (TxService.hexEncode
       (List.repeat x05 8 ++ sample_mac (list_byte_of_string "1234") (List.repeat x05 8)))
  = (false, None).
Proof.
  refine (X27_pin_hashed_with_another_salt_length_never_verifies sample_mac
            TxService.hexEncode TxService.hexDecode "1234" (List.repeat x05 8)
            (Err "no entropy") _ hexDecode_hexEncode sample_mac_length _ _ _ "1234").
  - simpl. lia.
  - simpl. lia.
  - reflexivity.
Defined.

(** ** The key registry: rotation *)

Section RotationFacts.

Variables PublicKey PrivateKey : Type.

Local Abbreviation KeyPair := (HSM.KeyPair PublicKey PrivateKey).

Variable now : Z.
Variable generated : string -> result KeyPair.
Variable keys : gmap string KeyPair.

(** An entry of the registry during a rotation: an entry it had at the
    start or a pair that was generated, as it was or marked inactive. *)
Local Abbreviation from_start_or_generated :=
  (fun (id : string) (kp' : KeyPair) =>
     (exists kp, keys !! id = Some kp /\ (kp' = kp \/ kp' = HSM.set_inactive kp))
     \/ (exists newKeyID g,
           generated newKeyID = Ok g /\ (kp' = g \/ kp' = HSM.set_inactive g))).

Lemma set_inactive_idem (kp : KeyPair) :
  HSM.set_inactive (HSM.set_inactive kp) = HSM.set_inactive kp.
Proof. reflexivity. Qed.




End RotationFacts.


(** ** The single path: when a request is answered [201 Created] *)

Lemma TransferTx_missing tx a b txid amount now :
  Ledger.find_account a (accounts (tx_db tx)) = None
  \/ Ledger.find_account b (accounts (tx_db tx)) = None ->
  fst (Ledger.TransferTx tx a b txid amount now) = Some ErrNoRows.
Proof.
  intros H. unfold Ledger.TransferTx.
  pose proof (lockInOrder_missing tx a b H) as M.
  destruct (Ledger.lockInOrder tx a b) as [[[fa ta]|e] tx2]; simpl in M; [discriminate|].
  inversion M. reflexivity.
Qed.

(** Whether [TransferTx] succeeds depends on the accounts table only. *)
Lemma TransferTx_fst_accounts tx1 tx2 a b txid amount now :
  accounts (tx_db tx1) = accounts (tx_db tx2) ->
  fst (Ledger.TransferTx tx1 a b txid amount now)
  = fst (Ledger.TransferTx tx2 a b txid amount now).
Proof.
  intros E.
  destruct (Ledger.find_account a (accounts (tx_db tx1))) as [ra|] eqn:Fa.
  2:{ rewrite !TransferTx_missing; [reflexivity | left; rewrite <- E; exact Fa
                                    | left; exact Fa]. }
  destruct (Ledger.find_account b (accounts (tx_db tx1))) as [rb|] eqn:Fb.
  2:{ rewrite !TransferTx_missing; [reflexivity | right; rewrite <- E; exact Fb
                                    | right; exact Fb]. }
  rewrite (TransferTx_found tx1 a b txid amount now ra rb Fa Fb).
  rewrite E in Fa, Fb.
  rewrite (TransferTx_found tx2 a b txid amount now ra rb Fa Fb).
  destruct (acc_balance ra <? amount); [reflexivity|].
  rewrite E.
  destruct (Nat.eqb (Ledger.rows_affected (acc_id ra) (acc_version ra)
                       (accounts (tx_db tx2))) 0); [reflexivity|].
  change (accounts (tx_db (after_debit tx1 a b txid ra rb amount now)))
    with (Ledger.apply_update (acc_id ra) (sub64 (acc_balance ra) amount)
            (acc_version ra) now (accounts (tx_db tx1))).
  change (accounts (tx_db (after_debit tx2 a b txid ra rb amount now)))
    with (Ledger.apply_update (acc_id ra) (sub64 (acc_balance ra) amount)
            (acc_version ra) now (accounts (tx_db tx2))).
  rewrite E.
  destruct (Nat.eqb _ 0); reflexivity.
Qed.

Lemma TransferTx_Begin_as_Transfer db a b txid amount now :
  fst (Ledger.TransferTx (Begin db) a b txid amount now)
  = fst (Ledger.Transfer db a b txid amount now).
Proof.
  rewrite Transfer_unfold.
  rewrite (TransferTx_fst_accounts (Begin db)
             (set_payment_states (fun t => t ++ [mkPaymentState txid "PENDING" now])
                (Begin db)) a b txid amount now eq_refl).
  destruct (Ledger.TransferTx _ a b txid amount now) as [[e|] tx2]; reflexivity.
Qed.

(** X29.  On an accounts table keyed by [id], [CreateTransaction] answers
    [201 Created] exactly when the request passes the struct validation,
    its identifier is not on record, [validateTransaction] and
    [verifySignature] accept it, card and merchant resolve to two
    different account rows, and the balance of the card's row covers the
    amount. *)
Theorem X29_single_path_answers_created_iff :
  forall (hmac_sha256 : list byte -> list byte -> list byte)
         (st : TxService.Store) (tx : TxService.Transaction) (now : Z),
    unique_ids (accounts (TxService.st_db st)) ->
    ((exists tx', fst (TxService.CreateTransaction hmac_sha256 st tx now)
                  = TxService.Created tx')
     <-> TxService.ValidateStruct tx = true
         /\ TxService.existing_status (TxService.st_db st) (TxService.TxID tx) = None
         /\ TxService.validateTransaction (TxService.st_db st) tx now = None
         /\ TxService.verifySignature hmac_sha256 (TxService.st_db st) tx = None
         /\ exists ra rb,
              Ledger.find_account (TxService.CardID tx) (accounts (TxService.st_db st))
              = Some ra
              /\ Ledger.find_account (TxService.MerchantID tx)
                   (accounts (TxService.st_db st)) = Some rb
              /\ acc_id ra <> acc_id rb
              /\ TxService.Amount tx <= acc_balance ra).
Proof.
  intros hmac_sha256 st tx now U. split.
  - intros [tx' H].
    destruct (TxService.CreateTransaction hmac_sha256 st tx now) as [resp st'] eqn:C.
    simpl in H. subst resp.
    destruct (CreateTransaction_created_inv _ _ _ _ _ _ C)
      as (V & E & VT & VS & _ & ra & rb & Fa & Fb & Hle & _).
    repeat split; try assumption.
    exists ra, rb. repeat split; try assumption.
    assert (T : fst (Ledger.Transfer (TxService.st_db st) (TxService.CardID tx)
                       (TxService.MerchantID tx) (TxService.TxID tx)
                       (TxService.Amount tx) now) = None).
    { rewrite <- TransferTx_Begin_as_Transfer.
      unfold TxService.CreateTransaction in C. rewrite V, E, VT, VS in C.
      cbn [negb] in C. unfold TxService.processLedgerTransferTx in C.
      destruct (Ledger.TransferTx (Begin (TxService.st_db st)) (TxService.CardID tx)
                  (TxService.MerchantID tx) (TxService.TxID tx) (TxService.Amount tx) now)
        as [[e|] tx1]; [discriminate | reflexivity]. }
    destruct (Ledger.Transfer (TxService.st_db st) (TxService.CardID tx)
                (TxService.MerchantID tx) (TxService.TxID tx) (TxService.Amount tx) now)
      as [e db'] eqn:T0.
    simpl in T. subst e.
    destruct (Transfer_ok_unique _ _ _ _ _ _ _ U T0) as (ra' & rb' & Fa' & Fb' & N & _).
    congruence.
  - intros (V & E & VT & VS & ra & rb & Fa & Fb & N & Hle).
    pose proof (Transfer_succeeds (TxService.st_db st) (TxService.CardID tx)
                  (TxService.MerchantID tx) (TxService.TxID tx) (TxService.Amount tx) now
                  ra rb Fa Fb N Hle) as T.
    rewrite <- TransferTx_Begin_as_Transfer in T.
    unfold TxService.CreateTransaction. rewrite V, E, VT, VS. cbn [negb].
    unfold TxService.processLedgerTransferTx.
    destruct (Ledger.TransferTx (Begin (TxService.st_db st)) (TxService.CardID tx)
                (TxService.MerchantID tx) (TxService.TxID tx) (TxService.Amount tx) now)
      as [[e|] tx1] eqn:T1; simpl in T; [discriminate|].
    destruct (TransferTx_ok_inv _ _ _ _ _ _ _ T1) as (ra' & rb' & _ & _ & _ & ->).
    unfold TxService.storeTransactionTx.
    change (transactions (tx_db (after_credit (Begin (TxService.st_db st))
                                   (TxService.CardID tx) (TxService.MerchantID tx)
                                   (TxService.TxID tx) ra' rb' (TxService.Amount tx) now)))
      with (transactions (TxService.st_db st)).
    rewrite (existing_status_none_insert (TxService.st_db st) (TxService.TxID tx))
      by (exact E || reflexivity).
    eexists. reflexivity.
Qed.

Lemma X29_witness_sample_store :
  exists tx',
    fst (TxService.CreateTransaction sample_mac sample_store
           (signed sample_mac sample_cak (request "TX1" sample_now 1000 1)) sample_now)
    = TxService.Created tx'.
Proof.
  apply (proj2 (X29_single_path_answers_created_iff sample_mac sample_store
                  (signed sample_mac sample_cak (request "TX1" sample_now 1000 1))
                  sample_now sample_db_unique_ids)).
  repeat split; try (vm_compute; reflexivity).
  exists account_X, account_Y. repeat split; try reflexivity.
  - discriminate.
  - simpl. lia.
Defined.

(** *** Inactive keys are rotated at every call *)

Section RotationOfInactiveKeys.

Variables PublicKey PrivateKey : Type.

Local Abbreviation KeyPair := (HSM.KeyPair PublicKey PrivateKey).

Variable now : Z.
Variable generated : string -> result KeyPair.

(** One visit of the loop of [RotateKeys]. *)
Local Abbreviation visit :=
  (fun (ks : gmap string KeyPair) (keyID : string) =>
     match ks !! keyID with
     | Some keyPair => HSM.rotateKey now generated ks keyID keyPair
     | None => ks
     end).

Lemma visit_keeps_entries (ks : gmap string KeyPair) x id :
  ks !! id <> None -> visit ks x !! id <> None.
Proof.
  intros H. cbv beta.
  destruct (ks !! x) as [kp|] eqn:K; [|exact H].
  unfold HSM.rotateKey.
  destruct ((HSM.ExpiresAt kp <? now) || negb (HSM.IsActive kp)); [|exact H].
  destruct (generated _) as [g|e]; [|exact H].
  destruct (decide (id = String.append x (String.append "_" (HSM.decimal now)))) as [->|N1].
  { rewrite lookup_insert_eq. discriminate. }
  rewrite lookup_insert_ne by congruence.
  destruct (decide (id = x)) as [->|N2].
  { rewrite lookup_insert_eq. discriminate. }
  rewrite lookup_insert_ne by congruence. exact H.
Qed.

Lemma visits_keep_entries (order : list string) (ks : gmap string KeyPair) id :
  ks !! id <> None -> List.fold_left visit order ks !! id <> None.
Proof.
  revert ks. induction order as [|x order IH]; intros ks H; cbn [List.fold_left].
  - exact H.
  - apply IH. apply visit_keeps_entries. exact H.
Qed.

Lemma visit_elsewhere (ks : gmap string KeyPair) x k :
  x <> k -> successor_id x now <> k -> visit ks x !! k = ks !! k.
Proof.
  intros N1 N2. cbv beta.
  destruct (ks !! x) as [kp|] eqn:K; [|reflexivity].
  unfold HSM.rotateKey.
  destruct ((HSM.ExpiresAt kp <? now) || negb (HSM.IsActive kp)); [|reflexivity].
  destruct (generated _) as [g|e]; [|reflexivity].
  rewrite lookup_insert_ne by exact N2.
  rewrite lookup_insert_ne by exact N1. reflexivity.
Qed.

Lemma visit_inactive (ks : gmap string KeyPair) k kp g :
  ks !! k = Some kp -> HSM.IsActive kp = false ->
  generated (successor_id k now) = Ok g ->
  visit ks k !! k = Some (HSM.set_inactive kp)
  /\ visit ks k !! successor_id k now = Some g.
Proof.
  intros K A G. cbv beta. rewrite K. unfold HSM.rotateKey. rewrite A.
  rewrite orb_true_r. unfold successor_id in G. rewrite G.
  fold (successor_id k now). split.
  - rewrite lookup_insert_ne by (apply append_longer; discriminate).
    apply lookup_insert_eq.
  - apply lookup_insert_eq.
Qed.

Lemma visits_keep_inactive (order : list string) k g :
  generated (successor_id k now) = Ok g ->
  (forall x, In x order -> successor_id x now <> k) ->
  forall (ks : gmap string KeyPair) kp,
    ks !! k = Some kp -> HSM.IsActive kp = false ->
    List.fold_left visit order ks !! k = Some kp
    \/ List.fold_left visit order ks !! k = Some (HSM.set_inactive kp).
Proof.
  intros G. induction order as [|x order IH]; intros NC ks kp K A; cbn [List.fold_left].
  - left. exact K.
  - assert (NC' : forall y, In y order -> successor_id y now <> k).
    { intros y Hy. apply NC. right. exact Hy. }
    destruct (decide (x = k)) as [->|N].
    + destruct (visit_inactive ks k kp g K A G) as [K1 _].
      right. destruct (IH NC' _ _ K1 eq_refl) as [H|H]; exact H.
    + apply (IH NC'); [|exact A].
      rewrite visit_elsewhere; [exact K | exact N | apply NC; left; reflexivity].
Qed.

Lemma visits_rotate_inactive (order : list string) k g :
  generated (successor_id k now) = Ok g ->
  (forall x, In x order -> successor_id x now <> k) ->
  In k order ->
  forall (ks : gmap string KeyPair) kp,
    ks !! k = Some kp -> HSM.IsActive kp = false ->
    List.fold_left visit order ks !! k = Some (HSM.set_inactive kp)
    /\ List.fold_left visit order ks !! successor_id k now <> None.
Proof.
  intros G. induction order as [|x order IH]; intros NC Hin ks kp K A; [contradiction|].
  cbn [List.fold_left].
  assert (NC' : forall y, In y order -> successor_id y now <> k).
  { intros y Hy. apply NC. right. exact Hy. }
  destruct (decide (x = k)) as [->|N].
  - destruct (visit_inactive ks k kp g K A G) as [K1 K2]. split.
    + destruct (visits_keep_inactive order k g G NC' _ _ K1 eq_refl) as [H|H]; exact H.
    + apply visits_keep_entries. rewrite K2. discriminate.
  - destruct Hin as [E|Hin]; [contradiction|].
    apply (IH NC' Hin); [|exact A].
    rewrite visit_elsewhere; [exact K | exact N | apply NC; left; reflexivity].
Qed.

End RotationOfInactiveKeys.

(** X30.  [RotateKeys] treats every inactive key as due, also one it has
    rotated before: when the loop visits an inactive key whose successor
    can be generated, and no visited key's successor identifier is that
    key's own identifier, the registry afterwards holds the key, still
    inactive and with its key material, and an entry under the successor
    identifier for the current clock reading.  So each call adds a
    successor for every inactive key again. *)
Theorem X30_inactive_key_gets_a_successor_at_every_rotation :
  forall (PublicKey PrivateKey : Type) (now : Z)
         (generated : string -> result (HSM.KeyPair PublicKey PrivateKey))
         (order : list string) (keys : gmap string (HSM.KeyPair PublicKey PrivateKey))
         (keyID : string) (keyPair newKeyPair : HSM.KeyPair PublicKey PrivateKey),
    keys !! keyID = Some keyPair ->
    HSM.IsActive keyPair = false ->
    In keyID order ->
    generated (successor_id keyID now) = Ok newKeyPair ->
    (forall x, In x order -> successor_id x now <> keyID) ->
    snd (KeyStore.RotateKeys now generated order keys) !! keyID
    = Some (HSM.set_inactive keyPair)
    /\ snd (KeyStore.RotateKeys now generated order keys) !! successor_id keyID now
       <> None.
Proof.
  intros PublicKey PrivateKey now generated order keys keyID kp g K A Hin G NC.
  unfold KeyStore.RotateKeys. cbn [snd].
  exact (visits_rotate_inactive PublicKey PrivateKey now generated order keyID g G NC Hin
           keys kp K A).
Qed.

Lemma X30_witness_rotated_key_is_rotated_again :
  snd (KeyStore.RotateKeys sample_now
         (fun id => KeyStore.generateKeyPairInternal id (Ok (9, 9)) sample_now sample_now)
         ["card-signing"] (sample_keys false))
  !! successor_id "card-signing" sample_now <> None.
Proof.
  refine (proj2 (X30_inactive_key_gets_a_successor_at_every_rotation Z Z sample_now
                   (fun id => KeyStore.generateKeyPairInternal id (Ok (9, 9))
                                sample_now sample_now)
                   ["card-signing"] (sample_keys false) "card-signing"
                   (sample_key false) _ _ _ _ _ _)).
  - apply lookup_insert_eq.
  - reflexivity.
  - left. reflexivity.
  - reflexivity.
  - intros x [<-|[]]. vm_compute. discriminate.
Defined.
